(** * The epoll web server of examples/high_perf_webserver.c

    A shallow embedding of the connection pool, the request parser, the
    response builder and the write scheduler of the single-threaded,
    edge-triggered HTTP server, together with the properties its
    specification states about them.

    Bytes are [ascii] characters, C strings are lists of bytes read up to
    the first NUL, [size_t] values are integers reduced modulo [2^64], the
    connection table is a list updated by index and a pointer to a
    connection is an index into that table ([None] is the null pointer).
    System calls whose outcome the program cannot decide (recv, send,
    epoll_ctl, fcntl, open, fstat, read, malloc) take their outcome as an
    argument; [strdup] of a literal is taken to succeed, and the
    descriptors of opened files are not followed.  The calls made on
    sockets that a peer can observe (send, close) are recorded, oldest
    first, in the [trace] of the server state. *)

From Stdlib Require Import ZArith Lia DecimalString DecimalFacts DecimalPos
  Ascii String.
From stdpp Require Import base list strings gmap.

Open Scope Z_scope.

(** ** C strings *)

Module CString.

Definition NUL : ascii := "000"%char.
Definition CR : ascii := "013"%char.
Definition LF : ascii := "010"%char.

(** A string literal of the source, as the bytes before its final NUL. *)
Definition lit (s : string) : list ascii := list_ascii_of_string s.

Definition crlf : list ascii := [CR; LF].

(** The bytes of a character array that the string functions see: the ones
    before the first NUL. *)
Fixpoint c_str (b : list ascii) : list ascii :=
  match b with
  | [] => []
  | c :: b' => if Ascii.eqb c NUL then [] else c :: c_str b'
  end.

Definition strlen (b : list ascii) : Z := Z.of_nat (length (c_str b)).

Fixpoint starts_with (needle hay : list ascii) : bool :=
  match needle, hay with
  | [], _ => true
  | _ :: _, [] => false
  | x :: needle', y :: hay' => Ascii.eqb x y && starts_with needle' hay'
  end.

(** Offset of the first occurrence of [needle] in [hay]. *)
Fixpoint find_sub (needle hay : list ascii) : option nat :=
  if starts_with needle hay then Some 0%nat
  else match hay with
       | [] => None
       | _ :: hay' => S <$> find_sub needle hay'
       end.

(** [strstr(hay, needle)]: both arguments are read as C strings; the result
    is the offset of the match, [None] for a null result. *)
Definition strstr (hay needle : list ascii) : option nat :=
  find_sub (c_str needle) (c_str hay).

Definition code (c : ascii) : Z := Z.of_N (N_of_ascii c).

(** [strncmp(s1, s2, n)]: compares at most [n] bytes as unsigned chars and
    stops after a NUL; a byte past the end of a literal reads as its NUL. *)
Fixpoint strncmp (s1 s2 : list ascii) (n : nat) : Z :=
  match n with
  | O => 0
  | S n' =>
      let c1 := hd NUL s1 in
      let c2 := hd NUL s2 in
      if negb (Ascii.eqb c1 c2) then code c1 - code c2
      else if Ascii.eqb c1 NUL then 0
      else strncmp (tl s1) (tl s2) n'
  end.

(** [strcmp], as equality of the two C strings (only its comparison with
    zero is used). *)
Definition strcmp (s1 s2 : list ascii) : Z :=
  if decide (c_str s1 = c_str s2) then 0 else 1.

(** [isspace] in the C locale. *)
Definition isspace (c : ascii) : bool :=
  let n := code c in (n =? 32) || ((9 <=? n) && (n <=? 13)).

Fixpoint skip_space (s : list ascii) : list ascii :=
  match s with
  | c :: s' => if isspace c then skip_space s' else s
  | [] => []
  end.

Fixpoint token (s : list ascii) : list ascii :=
  match s with
  | c :: s' => if isspace c then [] else c :: token s'
  | [] => []
  end.

(** [sscanf(buf, "GET %s", path)] on a zero-filled [path]: the literal
    [GET] must match, white space is skipped, and the next run of
    non-space bytes is stored; without a match [path] stays empty. *)
Definition sscanf_GET (buf : list ascii) : list ascii :=
  let s := c_str buf in
  if starts_with (lit "GET") s then token (skip_space (drop 3 s)) else [].

(** [snprintf(dst, size, ...)] keeps the first [size - 1] bytes of the
    formatted text. *)
Definition snprintf (size : Z) (text : list ascii) : list ascii :=
  take (Z.to_nat (size - 1)) text.

(** The text printed for [%ld]. *)
Definition fmt_ld (z : Z) : list ascii :=
  lit (NilZero.string_of_int (Z.to_int z)).

(** [needle] occurs in [l] as a block of consecutive bytes. *)
Definition occurs (needle l : list ascii) : Prop :=
  exists l1 l2, l = l1 ++ needle ++ l2.

End CString.

Import CString.

(** ** Constants of the server *)

Definition BUFFER_SIZE : Z := 8192.
Definition MAX_CONNECTIONS : nat := Z.to_nat 10000.
Definition WEB_ROOT : list ascii := lit "./www".

Definition EPOLLIN : Z := 1.
Definition EPOLLOUT : Z := 4.
Definition EPOLLERR : Z := 8.
Definition EPOLLHUP : Z := 16.
Definition EPOLLET : Z := Z.shiftl 1 31.

Definition size_t (z : Z) : Z := z mod 2 ^ 64.

(** ** The literal responses *)

Definition response_501 : list ascii :=
  lit "HTTP/1.1 501 Not Implemented" ++ crlf ++
  lit "Content-Length: 28" ++ crlf ++
  lit "Connection: close" ++ crlf ++
  crlf ++
  lit "Only GET requests supported".

Definition response_404 : list ascii :=
  lit "HTTP/1.1 404 Not Found" ++ crlf ++
  lit "Content-Length: 14" ++ crlf ++
  lit "Connection: close" ++ crlf ++
  crlf ++
  lit "File not found".

Definition response_500 : list ascii :=
  lit "HTTP/1.1 500 Internal Server Error" ++ crlf ++
  lit "Content-Length: 21" ++ crlf ++
  lit "Connection: close" ++ crlf ++
  crlf ++
  lit "Internal Server Error".

Definition response_413 : list ascii :=
  lit "HTTP/1.1 413 Request Entity Too Large" ++ crlf ++
  lit "Content-Length: 24" ++ crlf ++
  lit "Connection: close" ++ crlf ++
  crlf ++
  lit "Request is too large".

Definition response_503 : list ascii :=
  lit "HTTP/1.1 503 Service Unavailable" ++ crlf ++
  lit "Content-Length: 21" ++ crlf ++
  lit "Connection: close" ++ crlf ++
  crlf ++
  lit "Server is overloaded".

(** ** Reading a response the way a client does *)

Module Wire.

(** The bytes after the first blank line. *)
Definition body (r : list ascii) : option (list ascii) :=
  match find_sub (crlf ++ crlf) r with
  | Some i => Some (drop (i + 4) r)
  | None => None
  end.

(** The bytes before the first blank line. *)
Definition head (r : list ascii) : list ascii :=
  match find_sub (crlf ++ crlf) r with
  | Some i => take i r
  | None => r
  end.

Definition is_digit (c : ascii) : bool := (48 <=? code c) && (code c <=? 57).

Fixpoint digits (s : list ascii) (acc : Z) : Z :=
  match s with
  | c :: s' => if is_digit c then digits s' (10 * acc + (code c - 48)) else acc
  | [] => acc
  end.

(** The number announced by the header field [name]. *)
Definition field_number (name r : list ascii) : option Z :=
  match find_sub name (head r) with
  | Some i => Some (digits (drop (i + length name) (head r)) 0)
  | None => None
  end.

(** The rest of the line that starts with the header field [name]. *)
Fixpoint line (s : list ascii) : list ascii :=
  match s with
  | c :: s' => if Ascii.eqb c CR then [] else c :: line s'
  | [] => []
  end.

Definition field_text (name r : list ascii) : option (list ascii) :=
  match find_sub name (head r) with
  | Some i => Some (line (drop (i + length name) (head r)))
  | None => None
  end.

Definition content_length (r : list ascii) : option Z :=
  field_number (lit "Content-Length: ") r.

(** The status line: the bytes before the first line break. *)
Definition status_line (r : list ascii) : list ascii :=
  match find_sub crlf r with
  | Some i => take i r
  | None => r
  end.

End Wire.

(** ** The connection table *)

Record connection_t := Connection {
  fd : Z;                          (* socket descriptor, -1 when unused *)
  buffer : list ascii;             (* char buffer[BUFFER_SIZE] *)
  buffer_used : Z;                 (* size_t *)
  response_sent : Z;               (* size_t *)
  response : option (list ascii);  (* char *response, None for NULL *)
  response_size : Z;               (* size_t *)
  keep_alive : Z                   (* int *)
}.

Definition set_fd (v : Z) (c : connection_t) : connection_t :=
  Connection v (buffer c) (buffer_used c) (response_sent c) (response c)
    (response_size c) (keep_alive c).
Definition set_buffer (v : list ascii) (c : connection_t) : connection_t :=
  Connection (fd c) v (buffer_used c) (response_sent c) (response c)
    (response_size c) (keep_alive c).
Definition set_buffer_used (v : Z) (c : connection_t) : connection_t :=
  Connection (fd c) (buffer c) v (response_sent c) (response c)
    (response_size c) (keep_alive c).
Definition set_response_sent (v : Z) (c : connection_t) : connection_t :=
  Connection (fd c) (buffer c) (buffer_used c) v (response c)
    (response_size c) (keep_alive c).
Definition set_response (v : option (list ascii)) (c : connection_t) : connection_t :=
  Connection (fd c) (buffer c) (buffer_used c) (response_sent c) v
    (response_size c) (keep_alive c).
Definition set_response_size (v : Z) (c : connection_t) : connection_t :=
  Connection (fd c) (buffer c) (buffer_used c) (response_sent c) (response c)
    v (keep_alive c).
Definition set_keep_alive (v : Z) (c : connection_t) : connection_t :=
  Connection (fd c) (buffer c) (buffer_used c) (response_sent c) (response c)
    (response_size c) v.

(** What the program asks of the kernel on a socket, with the value the
    call returned. *)
Inductive syscall :=
| sys_close (d : Z)
| sys_send (d : Z) (buf : list ascii) (ret : Z).

Record server_t := Server {
  connections : list connection_t;  (* the pool *)
  epoll_set : gmap Z Z;             (* descriptor -> registered event mask *)
  connection_count : Z;
  trace : list syscall              (* oldest call first *)
}.

Definition set_connections (v : list connection_t) (s : server_t) : server_t :=
  Server v (epoll_set s) (connection_count s) (trace s).
Definition set_epoll_set (v : gmap Z Z) (s : server_t) : server_t :=
  Server (connections s) v (connection_count s) (trace s).
Definition set_connection_count (v : Z) (s : server_t) : server_t :=
  Server (connections s) (epoll_set s) v (trace s).
Definition log (e : syscall) (s : server_t) : server_t :=
  Server (connections s) (epoll_set s) (connection_count s) (trace s ++ [e]).

(** [close(d)]: the kernel also drops [d] from the epoll set. *)
Definition close (d : Z) (s : server_t) : server_t :=
  set_epoll_set (delete d (epoll_set s)) (log (sys_close d) s).

(** [epoll_ctl(epoll_fd, ADD or MOD, d, ev)] with its outcome [ok]. *)
Definition epoll_ctl (ok : bool) (d events : Z) (s : server_t) : bool * server_t :=
  if ok then (true, set_epoll_set (<[d := events]> (epoll_set s)) s)
  else (false, s).

(** A slot as [calloc] and [init_connections] leave it. *)
Definition fresh_connection : connection_t :=
  Connection (-1) (replicate (Z.to_nat BUFFER_SIZE) NUL) 0 0 None 0 0.

(** [init_connections]: the zeroed table, every slot marked unused. *)
Definition init_connections : list connection_t :=
  replicate MAX_CONNECTIONS fresh_connection.

Definition init_server : server_t := Server init_connections ∅ 0 [].

(** The scan of [add_connection] from slot [i] on. *)
Fixpoint find_unused (i : nat) (pool : list connection_t) : option nat :=
  match pool with
  | [] => None
  | c :: pool' => if fd c <? 0 then Some i else find_unused (S i) pool'
  end.

(** The assignments [add_connection] makes to the slot it found; the
    buffer is left as it is. *)
Definition claim_slot (d : Z) (c : connection_t) : connection_t :=
  set_keep_alive 0 (set_response_sent 0 (set_response_size 0
    (set_response None (set_buffer_used 0 (set_fd d c))))).

(** [add_connection(fd)]: the pointer returned ([None] for NULL) and the
    state after the call. *)
Definition add_connection (d : Z) (s : server_t) : option nat * server_t :=
  match find_unused 0 (connections s) with
  | Some i => (Some i, set_connections (alter (claim_slot d) i (connections s)) s)
  | None => (None, s)
  end.

(** The assignments [remove_connection] makes after [free(conn->response)];
    the buffer is left as it is. *)
Definition release_slot (c : connection_t) : connection_t :=
  set_keep_alive 0 (set_response_sent 0 (set_response_size 0
    (set_response None (set_buffer_used 0 (set_fd (-1) c))))).

(** [remove_connection(conn)]. *)
Definition remove_connection (conn : option nat) (s : server_t) : server_t :=
  match conn with
  | None => s
  | Some i =>
      match connections s !! i with
      | None => s
      | Some c =>
          let s := if 0 <=? fd c then close (fd c) s else s in
          set_connections (<[i := release_slot c]> (connections s)) s
      end
  end.

(** ** The request parser and the response builder *)

(** What [open], [fstat] and [read] report of a file. *)
Record file_t := File {
  st_size : Z;                       (* size reported by fstat *)
  read_data : option (list ascii)    (* bytes delivered by read, None for -1 *)
}.

Record host := Host {
  host_open : list ascii -> option file_t;  (* open(path, O_RDONLY) *)
  host_malloc : Z -> bool                   (* does malloc(size) succeed *)
}.

(** The four assignments every error path makes. *)
Definition error_response (r : list ascii) (c : connection_t) : connection_t :=
  set_keep_alive 0 (set_response_sent 0
    (set_response_size (strlen r) (set_response (Some r) c))).

(** [strstr(...) != NULL]. *)
Definition found (o : option nat) : bool :=
  match o with Some _ => true | None => false end.

(** The chain of [strstr] tests that picks the content type. *)
Definition content_type (path : list ascii) : list ascii :=
  if found (strstr path (lit ".html")) || found (strstr path (lit ".htm"))
  then lit "text/html"
  else if found (strstr path (lit ".css")) then lit "text/css"
  else if found (strstr path (lit ".js")) then lit "application/javascript"
  else if found (strstr path (lit ".jpg")) || found (strstr path (lit ".jpeg"))
  then lit "image/jpeg"
  else if found (strstr path (lit ".png")) then lit "image/png"
  else if found (strstr path (lit ".gif")) then lit "image/gif"
  else if found (strstr path (lit ".txt")) then lit "text/plain"
  else lit "application/octet-stream".

(** The text [snprintf] formats for the header of a 200 response. *)
Definition header_200 (ctype : list ascii) (file_size keep : Z) : list ascii :=
  lit "HTTP/1.1 200 OK" ++ crlf ++
  lit "Content-Type: " ++ ctype ++ crlf ++
  lit "Content-Length: " ++ fmt_ld file_size ++ crlf ++
  lit "Connection: " ++
  (if keep =? 0 then lit "close" else lit "keep-alive") ++ crlf ++
  crlf.

(** The outcome of the first half of [process_http_request]. *)
Inductive parse_result :=
| Rejected (c : connection_t)
| Parsed (c : connection_t) (path : list ascii).

(** Lines up to the rewrite of the root path: terminate the buffer, check
    the method, read the path, decide keep-alive. *)
Definition parse_request (conn : connection_t) : parse_result :=
  let conn :=
    set_buffer (<[Z.to_nat (buffer_used conn) := NUL]> (buffer conn)) conn in
  if negb (strncmp (buffer conn) (lit "GET ") 4 =? 0) then
    Rejected (error_response response_501 conn)
  else
    let path := sscanf_GET (buffer conn) in
    let conn :=
      set_keep_alive
        (if found (strstr (buffer conn) (lit "Connection: keep-alive"))
         then 1 else 0) conn in
    let path :=
      if strcmp path (lit "/") =? 0 then lit "/index.html" else path in
    Parsed conn path.

(** The rest of [process_http_request]: open the file and build the
    response. *)
Definition build_response (h : host) (conn : connection_t) (path : list ascii)
  : connection_t :=
  let full_path := snprintf BUFFER_SIZE (WEB_ROOT ++ path) in
  match host_open h full_path with
  | None => error_response response_404 conn
  | Some f =>
      let file_size := st_size f in
      let text := header_200 (content_type path) file_size (keep_alive conn) in
      let header := snprintf BUFFER_SIZE text in
      let header_len := Z.of_nat (length text) in
      let conn := set_response_size (size_t (header_len + file_size)) conn in
      if negb (host_malloc h (response_size conn)) then
        error_response response_500 conn
      else
        let bytes_read :=
          match read_data f with
          | Some d => Z.of_nat (length d)
          | None => -1
          end in
        let data := default [] (read_data f) in
        let conn :=
          set_response (Some (take (Z.to_nat header_len) header ++ data)) conn in
        let conn :=
          if negb (bytes_read =? file_size) then
            set_keep_alive 0 (set_response_size (strlen response_500)
              (set_response (Some response_500) conn))
          else conn in
        set_response_sent 0 conn
  end.

(** [process_http_request(conn)]. *)
Definition process_http_request (h : host) (conn : connection_t) : connection_t :=
  match parse_request conn with
  | Rejected c => c
  | Parsed c path => build_response h c path
  end.

(** ** The event loop *)

(** The outcome of [recv(fd, buffer + buffer_used, BUFFER_SIZE -
    buffer_used - 1, 0)]; the kernel stores no more bytes than asked for
    (see [event_ok]). *)
Inductive recv_result :=
| recv_bytes (d : list ascii)   (* the bytes stored, their count returned *)
| recv_would_block              (* -1 with EAGAIN or EWOULDBLOCK *)
| recv_failed.                  (* -1 with another errno *)

(** The outcome of [send]; the kernel takes no more bytes than offered. *)
Inductive send_result :=
| send_bytes (n : Z)            (* the count of bytes the kernel took *)
| send_would_block
| send_failed.

(** The outcomes of the system calls made while one event is handled. *)
Record kernel := Kernel {
  k_recv : recv_result;
  k_send : send_result;
  k_epoll_ctl : bool;       (* epoll_ctl returns 0 *)
  k_nonblocking : bool      (* set_nonblocking returns 0 *)
}.

Definition send_ret (r : send_result) : Z :=
  match r with send_bytes n => n | _ => -1 end.

Definition send_again (r : send_result) : bool :=
  match r with send_would_block => true | _ => false end.

(** The array [buf] after the bytes [d] were stored from offset [off]. *)
Definition write_at (off : nat) (d buf : list ascii) : list ascii :=
  take off buf ++ d ++ drop (off + length d) buf.

(** The effect of a [recv] that returned the bytes [d]: they lie in the
    buffer from offset [buffer_used] on, and [buffer_used] grew by their
    count. *)
Definition store_received (d : list ascii) (conn : connection_t) : connection_t :=
  let bytes_read := Z.of_nat (length d) in
  let conn :=
    set_buffer (write_at (Z.to_nat (buffer_used conn)) d (buffer conn)) conn in
  set_buffer_used (size_t (buffer_used conn + bytes_read)) conn.

(** A write through the pointer to slot [i]. *)
Definition update_connection (i : nat) (c : connection_t) (s : server_t) : server_t :=
  set_connections (<[i := c]> (connections s)) s.

(** [send_response(conn, epoll_fd)]: the returned integer and the state
    after the call. *)
Definition send_response (k : kernel) (conn : option nat) (s : server_t)
  : Z * server_t :=
  match conn with
  | None => (-1, s)
  | Some i =>
      match connections s !! i with
      | None => (-1, s)
      | Some c =>
          match response c with
          | None => (-1, s)
          | Some r =>
              let remaining := size_t (response_size c - response_sent c) in
              let bytes_sent := send_ret (k_send k) in
              let s :=
                log (sys_send (fd c)
                       (take (Z.to_nat remaining)
                          (drop (Z.to_nat (response_sent c)) r))
                       bytes_sent) s in
              if bytes_sent <? 0 then
                if send_again (k_send k) then (0, s) else (-1, s)
              else
                let c := set_response_sent (size_t (response_sent c + bytes_sent)) c in
                if response_size c <=? response_sent c then
                  let c := set_response_size 0 (set_response None c) in
                  if negb (keep_alive c =? 0) then
                    let c := set_buffer_used 0 c in
                    let s := update_connection i c s in
                    let '(ok, s) :=
                      epoll_ctl (k_epoll_ctl k) (fd c) (Z.lor EPOLLIN EPOLLET) s in
                    if ok then (0, s) else (-1, s)
                  else (-1, update_connection i c s)
                else (0, update_connection i c s)
          end
      end
  end.

(** [remove_connection(conn); connection_count--;] *)
Definition drop_connection (i : nat) (s : server_t) : server_t :=
  let s := remove_connection (Some i) s in
  set_connection_count (connection_count s - 1) s.

(** Switch the connection to write mode after a response was prepared; the
    flag tells whether the loop body went on to [continue]. *)
Definition to_write_mode (k : kernel) (i : nat) (c : connection_t) (s : server_t)
  : server_t * bool :=
  let '(ok, s) := epoll_ctl (k_epoll_ctl k) (fd c) (Z.lor EPOLLOUT EPOLLET) s in
  if ok then (s, false) else (drop_connection i s, true).

(** The EPOLLIN branch for the connection [conn] in slot [i]; the flag
    tells whether the loop body left through [continue]. *)
Definition on_readable (h : host) (k : kernel) (i : nat) (conn : connection_t)
  (s : server_t) : server_t * bool :=
  match response conn with
  | Some _ => (s, true)
  | None =>
      match k_recv k with
      | recv_would_block => (s, true)
      | recv_failed => (drop_connection i s, true)
      | recv_bytes d =>
          let bytes_read := Z.of_nat (length d) in
          if bytes_read =? 0 then (drop_connection i s, true)
          else
            let conn := store_received d conn in
            if found (strstr (buffer conn) (crlf ++ crlf)) then
              let conn := process_http_request h conn in
              to_write_mode k i conn (update_connection i conn s)
            else if BUFFER_SIZE - 1 <=? buffer_used conn then
              let conn := error_response response_413 conn in
              to_write_mode k i conn (update_connection i conn s)
            else (update_connection i conn s, false)
      end
  end.

(** The loop body for an event whose tag is the connection in slot [i]. *)
Definition client_event (h : host) (k : kernel) (i : nat) (events : Z)
  (s : server_t) : server_t :=
  match connections s !! i with
  | None => s
  | Some conn =>
      let '(s, continued) :=
        if negb (Z.land events EPOLLIN =? 0) then on_readable h k i conn s
        else if negb (Z.land events EPOLLOUT =? 0) then
          let '(ret, s) := send_response k (Some i) s in
          (if ret <? 0 then drop_connection i s else s, false)
        else (s, false) in
      if continued then s
      else if negb (Z.land events (Z.lor EPOLLERR EPOLLHUP) =? 0)
      then drop_connection i s
      else s
  end.

(** One round of the accept loop for a descriptor [client_fd] that accept
    returned. *)
Definition accept_one (k : kernel) (client_fd : Z) (s : server_t) : server_t :=
  if negb (k_nonblocking k) then close client_fd s
  else
    match add_connection client_fd s with
    | (None, s) =>
        let msg := response_503 in
        let s :=
          log (sys_send client_fd (take (Z.to_nat (strlen msg)) msg)
                 (send_ret (k_send k))) s in
        close client_fd s
    | (Some i, s) =>
        let '(ok, s) :=
          epoll_ctl (k_epoll_ctl k) client_fd (Z.lor EPOLLIN EPOLLET) s in
        if ok then set_connection_count (connection_count s + 1) s
        else remove_connection (Some i) s
    end.

(** What the loop is handed, one item per accepted descriptor or per
    reported event. *)
Inductive event :=
| ev_accept (k : kernel) (client_fd : Z)
| ev_client (k : kernel) (i : nat) (events : Z).

Definition step (h : host) (s : server_t) (e : event) : server_t :=
  match e with
  | ev_accept k d => accept_one k d s
  | ev_client k i events => client_event h k i events s
  end.

Definition run (h : host) (es : list event) (s : server_t) : server_t :=
  foldl (step h) s es.

(** ** What the properties speak about *)

(** The bytes the kernel took from the program on descriptor [d]. *)
Fixpoint wire (d : Z) (tr : list syscall) : list ascii :=
  match tr with
  | [] => []
  | sys_send d' buf ret :: tr' =>
      (if decide (d' = d) then take (Z.to_nat ret) buf else []) ++ wire d tr'
  | sys_close _ :: tr' => wire d tr'
  end.

(** The number of slots in use. *)
Definition occupied (pool : list connection_t) : nat :=
  length (filter (fun c => 0 <= fd c) pool).

(** The bytes of the current request: the first [buffer_used] bytes. *)
Definition accumulated (c : connection_t) : list ascii :=
  take (Z.to_nat (buffer_used c)) (buffer c).

(** A connection with the response [r] under way. *)
Definition pending (c : connection_t) (r : list ascii) : Prop :=
  response c = Some r /\
  0 <= response_sent c <= response_size c /\
  response_size c = Z.of_nat (length r) /\
  response_size c < 2 ^ 64.

(** The bytes offered to [send] for the connection [c]. *)
Definition offered (c : connection_t) (r : list ascii) : list ascii :=
  take (Z.to_nat (response_size c - response_sent c))
    (drop (Z.to_nat (response_sent c)) r).

(** The connection after its response was sent in full. *)
Definition finished (c : connection_t) : connection_t :=
  set_response_size 0 (set_response None
    (set_response_sent (response_size c) c)).

(** Write-readiness events for the connection in slot [i], one per kernel
    outcome. *)
Definition write_events (i : nat) (ks : list kernel) : list event :=
  (fun k => ev_client k i EPOLLOUT) <$> ks.

(** A run of [send] outcomes that delivers [n] outstanding bytes: no call
    fails, each takes at most what is left, and the last one takes the
    rest. *)
Fixpoint completes (ks : list kernel) (n : Z) : bool :=
  match ks with
  | [] => false
  | k :: ks' =>
      match k_send k with
      | send_bytes m =>
          (0 <=? m) &&
          (if m =? n then match ks' with [] => true | _ => false end
           else (m <? n) && completes ks' (n - m))
      | send_would_block => completes ks' n
      | send_failed => false
      end
  end.

(** The buffer has its declared size and its last byte, which no [recv]
    of the program can reach, is still the zero of [calloc]. *)
Definition buffer_ok (c : connection_t) : Prop :=
  length (buffer c) = Z.to_nat BUFFER_SIZE /\ last (buffer c) = Some NUL.

(** What the rest of the development assumes of a slot: its buffer is
    intact and its fill level leaves the last byte free. *)
Definition slot_ok (c : connection_t) : Prop :=
  buffer_ok c /\ 0 <= buffer_used c <= BUFFER_SIZE - 1.

(** The kernel stores no more than [recv] asked for. *)
Definition event_ok (s : server_t) (e : event) : Prop :=
  match e with
  | ev_accept _ _ => True
  | ev_client k i _ =>
      forall c d,
        connections s !! i = Some c -> k_recv k = recv_bytes d ->
        Z.of_nat (length d) <= BUFFER_SIZE - buffer_used c - 1
  end.

(** The recv contract along a run. *)
Fixpoint events_ok (h : host) (s : server_t) (es : list event) : Prop :=
  match es with
  | [] => True
  | e :: es' => event_ok s e /\ events_ok h (step h s e) es'
  end.

(** The request method: the bytes before the first space. *)
Fixpoint method_token (l : list ascii) : list ascii :=
  match l with
  | [] => []
  | c :: l' => if Ascii.eqb c " "%char then [] else c :: method_token l'
  end.

(** The text whose presence asks for a persistent connection. *)
Definition keep_alive_marker : list ascii := lit "Connection: keep-alive".

(** ** The content types of the specification

    The table as the specification words it: the label is looked up with
    the suffix of the path. *)

Module SuffixTable.

(** The bytes after the last dot of [path], or nothing when there is no
    dot. *)
Fixpoint after_last_dot (path : list ascii) : option (list ascii) :=
  match path with
  | [] => None
  | c :: path' =>
      match after_last_dot path' with
      | Some x => Some x
      | None => if Ascii.eqb c "."%char then Some path' else None
      end
  end.

Definition ext (x : list ascii) (s : string) : bool := bool_decide (x = lit s).

(** The table of the specification, looked up with the suffix of the path. *)
Definition spec_content_type (path : list ascii) : list ascii :=
  match after_last_dot path with
  | None => lit "application/octet-stream"
  | Some x =>
      if ext x "html" || ext x "htm" then lit "text/html"
      else if ext x "css" then lit "text/css"
      else if ext x "js" then lit "application/javascript"
      else if ext x "jpg" || ext x "jpeg" then lit "image/jpeg"
      else if ext x "png" then lit "image/png"
      else if ext x "gif" then lit "image/gif"
      else if ext x "txt" then lit "text/plain"
      else lit "application/octet-stream"
  end.

End SuffixTable.

(** ** Worked runs *)

Module Demo.

(** A document root without files, and a kernel in which every call made
    for the event succeeds. *)
Definition no_files : host := Host (fun _ => None) (fun _ => true).

Definition reads (d : list ascii) : kernel :=
  Kernel (recv_bytes d) send_failed true true.
Definition takes (m : Z) : kernel :=
  Kernel recv_would_block (send_bytes m) true true.
Definition quiet : kernel := Kernel recv_would_block send_would_block true true.

Definition post_request : list ascii :=
  lit "POST / HTTP/1.1" ++ crlf ++ lit "Connection: keep-alive" ++ crlf ++ crlf.

(** Descriptor 5 is accepted into slot 0 and sends a POST request: the
    501 response is under way. *)
Definition answering : server_t :=
  run no_files [ev_accept quiet 5; ev_client (reads post_request) 0 EPOLLIN]
    init_server.

Definition answering_conn : connection_t :=
  default fresh_connection (connections answering !! 0%nat).

(** Descriptor 5 was accepted into slot 0 and has sent nothing yet. *)
Definition accepted : server_t := run no_files [ev_accept quiet 5] init_server.

Definition accepted_conn : connection_t :=
  default fresh_connection (connections accepted !! 0%nat).

(** [BUFFER_SIZE - 1] bytes without a line break. *)
Definition flood : list ascii := replicate (Z.to_nat (BUFFER_SIZE - 1)) "a"%char.

(** Every slot of the pool taken, slot [n] by descriptor [5 + n]: the pool
    after [MAX_CONNECTIONS] accepted descriptors. *)
Definition crowded : server_t :=
  Server (imap (fun n c => set_fd (5 + Z.of_nat n) c) init_connections)
    ∅ (Z.of_nat MAX_CONNECTIONS) [].

Definition page : list ascii := lit "<html><body>It works!</body></html>" ++ [LF; LF].

Definition json : list ascii := lit "{}".

(** A document root with [index.html] and [data.json]. *)
Definition site : host :=
  Host (fun p =>
          if bool_decide (p = lit "./www/index.html")
          then Some (File (Z.of_nat (length page)) (Some page))
          else if bool_decide (p = lit "./www/data.json")
          then Some (File (Z.of_nat (length json)) (Some json))
          else None)
       (fun _ => true).

Definition get_json : list ascii := lit "GET /data.json HTTP/1.1" ++ crlf ++ crlf.

Definition get_root_keep : list ascii :=
  lit "GET / HTTP/1.1" ++ crlf ++ keep_alive_marker ++ crlf ++ crlf.

Definition get_partial : list ascii := lit "GET /x".

(** Descriptor 5 is in slot 0 and has sent a POST request that asks to be
    kept alive, or a GET request for the root that does. *)
Definition asking_post : connection_t := store_received post_request accepted_conn.
Definition asking_root : connection_t := store_received get_root_keep accepted_conn.

(** Descriptor 5 is in slot 0 and has asked for the root with the
    keep-alive marker: the 200 response, 125 bytes, is under way. *)
Definition serving : server_t :=
  run site [ev_accept quiet 5; ev_client (reads get_root_keep) 0 EPOLLIN]
    init_server.

Definition serving_conn : connection_t :=
  default fresh_connection (connections serving !! 0%nat).

Definition serving_response : list ascii := default [] (response serving_conn).

(** The first client was served the page, its connection kept alive and
    reset for the next request. *)
Definition kept : server_t :=
  run site
    [ev_accept quiet 5; ev_client (reads get_root_keep) 0 EPOLLIN;
     ev_client (takes 125) 0 EPOLLOUT]
    init_server.

(** The first client was answered and its slot released; descriptor 6 has
    just been accepted into the same slot. *)
Definition reused : server_t :=
  run no_files
    [ev_accept quiet 5; ev_client (reads post_request) 0 EPOLLIN;
     ev_client (takes 98) 0 EPOLLOUT; ev_accept quiet 6]
    init_server.

End Demo.

(** Closed goals are settled by evaluation. *)
Ltac evaluate :=
  vm_compute;
  first [ reflexivity | discriminate | (intros; discriminate) ].

Ltac evaluate_pending :=
  unfold pending; repeat apply conj; evaluate.

(** ** Descriptors and shutdown *)

(** The descriptors held by the slots in use. *)
Definition live (pool : list connection_t) : list Z :=
  filter (fun d => 0 <= d) (fd <$> pool).

(** The descriptors the program closed, oldest first. *)
Fixpoint closed (tr : list syscall) : list Z :=
  match tr with
  | [] => []
  | sys_close d :: tr' => d :: closed tr'
  | sys_send _ _ _ :: tr' => closed tr'
  end.

(** What was closed together with what the pool still holds. *)
Definition ledger (s : server_t) : list Z :=
  closed (trace s) ++ live (connections s).

(** The descriptors [accept] returned in a run of events. *)
Fixpoint accepted_fds (es : list event) : list Z :=
  match es with
  | [] => []
  | ev_accept _ d :: es' => d :: accepted_fds es'
  | ev_client _ _ _ :: es' => accepted_fds es'
  end.

(** The loop of [free_connections] over the slots: close what is open. *)
Fixpoint close_all (pool : list connection_t) (s : server_t) : server_t :=
  match pool with
  | [] => s
  | c :: pool' => close_all pool' (if 0 <=? fd c then close (fd c) s else s)
  end.

(** [free_connections()]: after the loop the table itself is freed. *)
Definition free_connections (s : server_t) : server_t :=
  set_connections [] (close_all (connections s) s).

(** The end of [main]: close the epoll descriptor and the listening
    socket, then free the connections. *)
Definition shutdown (epoll_fd server_fd : Z) (s : server_t) : server_t :=
  free_connections (close server_fd (close epoll_fd s)).

(** ** The contract of [send] along a run *)

(** The kernel takes no more bytes than [send] offered. *)
Definition send_ok (s : server_t) (e : event) : Prop :=
  match e with
  | ev_accept _ _ => True
  | ev_client k i _ =>
      forall c m,
        connections s !! i = Some c -> k_send k = send_bytes m ->
        0 <= m <= response_size c - response_sent c
  end.

Fixpoint sends_ok (h : host) (s : server_t) (es : list event) : Prop :=
  match es with
  | [] => True
  | e :: es' => send_ok s e /\ sends_ok h (step h s e) es'
  end.

(** ** Requests and prepared responses *)

(** A byte that can stand in a request path: neither white space nor NUL. *)
Definition plain (c : ascii) : Prop := isspace c = false /\ c <> NUL.

(** The path [process_http_request] serves for the path [p] of the request
    line. *)
Definition served_path (p : list ascii) : list ascii :=
  if decide (p = lit "/") then lit "/index.html" else p.

(** What [process_http_request] leaves for the write scheduler. *)
Definition prepared (c : connection_t) : option (list ascii) * Z * Z * Z :=
  (response c, response_size c, response_sent c, keep_alive c).

(** The keep-alive decision for the accumulated text [acc]. *)
Definition keep_alive_of (acc : list ascii) : Z :=
  if found (find_sub keep_alive_marker (c_str acc)) then 1 else 0.

(** Header lines joined by line breaks. *)
Fixpoint join_lines (ls : list (list ascii)) : list ascii :=
  match ls with
  | [] => []
  | [l] => l
  | l :: ls' => l ++ crlf ++ join_lines ls'
  end.

(** The labels [content_type] can give. *)
Definition content_type_labels : list (list ascii) :=
  [lit "text/html"; lit "text/css"; lit "application/javascript";
   lit "image/jpeg"; lit "image/png"; lit "image/gif"; lit "text/plain";
   lit "application/octet-stream"].

(** The four lines of the header of a 200 response. *)
Definition header_200_lines (ctype : list ascii) (file_size keep : Z)
  : list (list ascii) :=
  [lit "HTTP/1.1 200 OK";
   lit "Content-Type: " ++ ctype;
   lit "Content-Length: " ++ fmt_ld file_size;
   lit "Connection: " ++ (if keep =? 0 then lit "close" else lit "keep-alive")].

(** ** Further inputs for the examples *)

Module Requests.

Definition secret : list ascii := lit "root:x:0:0".

(** A document root next to a file that lies outside of it. *)
Definition exposed : host :=
  Host (fun p =>
          if bool_decide (p = lit "./www/../secret.txt")
          then Some (File (Z.of_nat (length secret)) (Some secret))
          else None)
       (fun _ => true).

(** A document root whose [index.html] is cut short while it is read:
    [fstat] announces 37 bytes and [read] delivers 10. *)
Definition truncated : host :=
  Host (fun p =>
          if bool_decide (p = lit "./www/index.html")
          then Some (File 37 (Some (take 10 Demo.page)))
          else None)
       (fun _ => true).

Definition get_outside : list ascii := lit "GET /../secret.txt HTTP/1.1" ++ crlf ++ crlf.

Definition get_missing : list ascii :=
  lit "GET /missing.css HTTP/1.1" ++ crlf ++ keep_alive_marker ++ crlf ++ crlf.

(** Descriptor 5 is in slot 0 and has sent one of these requests. *)
Definition asking_outside : connection_t := store_received get_outside Demo.accepted_conn.
Definition asking_missing : connection_t := store_received get_missing Demo.accepted_conn.

End Requests.

(** ** Slots that carry bytes of an earlier request *)

Module Stale.

(** The slot of [Demo.asking_post] after its request was dropped: the
    fill level is zero, the bytes are still in the buffer. *)
Definition used_before : connection_t := set_buffer_used 0 Demo.asking_post.

(** The same slot after a shorter request was received into it. *)
Definition asking_root_again : connection_t :=
  store_received Demo.get_root_keep used_before.

End Stale.

(** ** Names of files *)

(** The suffixes for which the program has a label. *)
Definition known_suffixes : list (list ascii) :=
  [lit "html"; lit "htm"; lit "css"; lit "js"; lit "jpg"; lit "jpeg";
   lit "png"; lit "gif"; lit "txt"].

(** A byte of a file name that is neither a dot nor the end of the
    string. *)
Definition stem_byte (c : ascii) : Prop := c <> "."%char /\ c <> NUL.

(** ** Start-up

    The part of [main] before the event loop, with [create_tcp_socket] of
    [socket_utils.h] and [set_nonblocking].  The outcomes of the system
    calls are given by a record; the calls that open, close or configure a
    descriptor are recorded in program order. *)

Definition O_NONBLOCK : Z := 2048.

Record boot := Boot {
  b_calloc : bool;               (* does calloc of the pool succeed *)
  b_socket : option Z;           (* socket(): the descriptor, None for -1 *)
  b_setsockopt : bool;           (* setsockopt(SO_REUSEADDR) *)
  b_getfl : option Z;            (* fcntl(F_GETFL): the flags, None for -1 *)
  b_setfl : bool;                (* fcntl(F_SETFL) *)
  b_bind : bool;
  b_listen : bool;
  b_epoll_create : option Z;     (* epoll_create1(): the descriptor *)
  b_epoll_add : bool             (* epoll_ctl(EPOLL_CTL_ADD) *)
}.

Inductive boot_call :=
| call_open (d : Z)                  (* socket or epoll_create1 returned d *)
| call_close (d : Z)
| call_setfl (d flags : Z)           (* a successful fcntl(d, F_SETFL, flags) *)
| call_bind (d port : Z)             (* a successful bind *)
| call_listen (d : Z)                (* a successful listen *)
| call_epoll_add (ep d events : Z).  (* a successful EPOLL_CTL_ADD *)

(** [create_tcp_socket(reuseaddr, nonblocking)]: the returned integer and
    the calls made. *)
Definition create_tcp_socket (b : boot) (reuseaddr nonblocking : bool)
  : Z * list boot_call :=
  match b_socket b with
  | None => (-1, [])
  | Some sockfd =>
      if reuseaddr && negb (b_setsockopt b)
      then (-1, [call_open sockfd; call_close sockfd])
      else if nonblocking then
        match b_getfl b with
        | None => (-1, [call_open sockfd; call_close sockfd])
        | Some flags =>
            if b_setfl b
            then (sockfd, [call_open sockfd;
                           call_setfl sockfd (Z.lor flags O_NONBLOCK)])
            else (-1, [call_open sockfd; call_close sockfd])
        end
      else (sockfd, [call_open sockfd])
  end.

(** [set_nonblocking(fd)]. *)
Definition set_nonblocking (b : boot) (d : Z) : Z * list boot_call :=
  match b_getfl b with
  | None => (-1, [])
  | Some flags =>
      if b_setfl b then (0, [call_setfl d (Z.lor flags O_NONBLOCK)])
      else (-1, [])
  end.

(** How the start-up ends: the process exits with a status, or the event
    loop is entered with the two descriptors. *)
Inductive boot_result :=
| Exited (status : Z)
| Serving (server_fd epoll_fd : Z).

(** [main] from [init_connections()] up to the event loop. *)
Definition startup (b : boot) (port : Z) : boot_result * list boot_call :=
  if negb (b_calloc b) then (Exited 1, [])
  else
    let '(server_fd, t1) := create_tcp_socket b true false in
    if server_fd <? 0 then (Exited 1, t1)
    else
      let '(r, t2) := set_nonblocking b server_fd in
      if r <? 0 then (Exited 1, t1 ++ t2 ++ [call_close server_fd])
      else if negb (b_bind b)
      then (Exited 1, t1 ++ t2 ++ [call_close server_fd])
      else if negb (b_listen b)
      then (Exited 1, t1 ++ t2 ++ [call_bind server_fd port;
                                   call_close server_fd])
      else
        let t3 := t1 ++ t2 ++ [call_bind server_fd port; call_listen server_fd] in
        match b_epoll_create b with
        | None => (Exited 1, t3 ++ [call_close server_fd])
        | Some epoll_fd =>
            if negb (b_epoll_add b)
            then (Exited 1, t3 ++ [call_open epoll_fd; call_close epoll_fd;
                                   call_close server_fd])
            else (Serving server_fd epoll_fd,
                  t3 ++ [call_open epoll_fd;
                         call_epoll_add epoll_fd server_fd
                           (Z.lor EPOLLIN EPOLLET)])
        end.

(** The descriptors opened and closed by a list of calls. *)
Definition opened (t : list boot_call) : list Z :=
  omap (fun c => match c with call_open d => Some d | _ => None end) t.
Definition shut (t : list boot_call) : list Z :=
  omap (fun c => match c with call_close d => Some d | _ => None end) t.

(** The system calls succeed with descriptors 3 and 4, up to the
    registration of the server socket, which fails. *)
Definition boot_no_epoll : boot :=
  Boot true (Some 3) true (Some 2) true true true (Some 4) false.

(** One step of the proofs about printed numbers: the next printed digit
    is read with the unfolding lemma [step]. *)
Ltac digit_step step :=
  cbn [NilEmpty.string_of_uint lit list_ascii_of_string app];
  rewrite step by reflexivity;
  match goal with
  | |- context [code ?c] =>
      let v := eval vm_compute in (code c) in change (code c) with v
  end.

(** * Properties *)

(** ** Substring search *)

Section Search.

Lemma starts_with_app (n t : list ascii) : starts_with n (n ++ t) = true.
Proof.
  induction n as [|x n IH]; simpl; [done|].
  rewrite Ascii.eqb_refl. exact IH.
Qed.

Lemma starts_with_inv (n h : list ascii) :
  starts_with n h = true -> exists t, h = n ++ t.
Proof.
  revert h. induction n as [|x n IH]; intros h H.
  - by exists h.
  - destruct h as [|y h]; simpl in H; [done|].
    apply andb_true_iff in H as [Hxy Hn].
    apply Ascii.eqb_eq in Hxy as ->.
    destruct (IH _ Hn) as [t ->]. by exists t.
Qed.

Lemma occurs_cons (n : list ascii) (y : ascii) (h : list ascii) :
  occurs n (y :: h) -> starts_with n (y :: h) = true \/ occurs n h.
Proof.
  intros ([|z l1] & l2 & E).
  - left. simpl in E. rewrite E. apply starts_with_app.
  - right. injection E as _ E. by exists l1, l2.
Qed.

Lemma found_find_sub (n h : list ascii) :
  found (find_sub n h) = true <-> occurs n h.
Proof.
  split.
  - induction h as [|y h IH]; simpl.
    + destruct (starts_with n []) eqn:E; [|done].
      intros _. apply starts_with_inv in E as [t E]. by exists [], t.
    + destruct (starts_with n (y :: h)) eqn:E.
      * intros _. apply starts_with_inv in E as [t E]. by exists [], t.
      * destruct (find_sub n h); [|done]. intros _.
        destruct IH as (l1 & l2 & ->); [done|]. by exists (y :: l1), l2.
  - induction h as [|y h IH]; intros Ho.
    + destruct Ho as (l1 & l2 & E). symmetry in E.
      apply app_eq_nil in E as [-> E]. apply app_eq_nil in E as [-> ->]. done.
    + simpl. destruct (starts_with n (y :: h)) eqn:E; [done|].
      apply occurs_cons in Ho as [Ho|Ho]; [congruence|].
      specialize (IH Ho). by destruct (find_sub n h).
Qed.

Lemma occurs_app_r (n l t : list ascii) : occurs n l -> occurs n (l ++ t).
Proof.
  intros (l1 & l2 & ->). exists l1, (l2 ++ t). by rewrite <- !app_assoc.
Qed.

(** The C string of an array is an initial part of the array, and of the
    part before any NUL the array holds. *)
Lemma c_str_before_nul (l r : list ascii) :
  exists t, l = c_str (l ++ NUL :: r) ++ t.
Proof.
  induction l as [|c l [t IH]]; simpl.
  - by exists [].
  - destruct (Ascii.eqb c NUL).
    + by exists (c :: l).
    + exists t. simpl. by rewrite <- IH.
Qed.

Lemma c_str_id (l : list ascii) : NUL ∉ l -> c_str l = l.
Proof.
  induction l as [|c l IH]; [done|]. intros H.
  apply not_elem_of_cons in H as [Hc Hl]. simpl.
  destruct (Ascii.eqb_spec c NUL) as [->|_]; [done|]. by rewrite IH.
Qed.

Lemma c_str_app_nul (l r : list ascii) : NUL ∉ l -> c_str (l ++ NUL :: r) = l.
Proof.
  induction l as [|c l IH]; [done|]. intros H.
  apply not_elem_of_cons in H as [Hc Hl]. simpl.
  destruct (Ascii.eqb_spec c NUL) as [->|_]; [done|]. by rewrite IH.
Qed.

Lemma c_str_idemp (l : list ascii) : c_str (c_str l) = c_str l.
Proof.
  induction l as [|c l IH]; [done|]. simpl.
  destruct (Ascii.eqb c NUL) eqn:E; [done|]. simpl. by rewrite E, IH.
Qed.

End Search.

(** ** The pool *)

Section Pool.

Lemma release_slot_idemp (c : connection_t) :
  release_slot (release_slot c) = release_slot c.
Proof. reflexivity. Qed.

Lemma release_slot_fd (c : connection_t) : fd (release_slot c) = -1.
Proof. reflexivity. Qed.

Lemma remove_connection_lookup (i : nat) (s : server_t) (c : connection_t) :
  connections s !! i = Some c ->
  connections (remove_connection (Some i) s) !! i = Some (release_slot c).
Proof.
  intros H. unfold remove_connection. rewrite H.
  destruct (0 <=? fd c); simpl; apply list_lookup_insert_eq;
    by apply lookup_lt_Some in H.
Qed.

Lemma find_unused_none (pool : list connection_t) (i : nat) :
  Forall (fun c => 0 <= fd c) pool -> find_unused i pool = None.
Proof.
  intros H. revert i. induction H as [|c pool Hc _ IH]; intros i; simpl; [done|].
  destruct (Z.ltb_spec (fd c) 0); [lia|]. apply IH.
Qed.

Lemma find_unused_some (pool : list connection_t) (i j : nat) :
  find_unused i pool = Some j ->
  exists c, pool !! (j - i)%nat = Some c /\ fd c < 0 /\ (i <= j)%nat.
Proof.
  revert i. induction pool as [|c pool IH]; intros i; simpl; [done|].
  destruct (Z.ltb_spec (fd c) 0) as [Hc|Hc].
  - intros [= <-]. exists c. rewrite Nat.sub_diag. done.
  - intros H. destruct (IH _ H) as (c' & Hl & Hfd & Hle).
    exists c'. split; [|split; [done|lia]].
    replace (j - i)%nat with (S (j - S i)) by lia. done.
Qed.

Lemma occupied_app (l1 l2 : list connection_t) :
  occupied (l1 ++ l2) = (occupied l1 + occupied l2)%nat.
Proof. unfold occupied. by rewrite filter_app, length_app. Qed.

Lemma occupied_one (c : connection_t) :
  occupied [c] = if 0 <=? fd c then 1%nat else 0%nat.
Proof.
  unfold occupied. rewrite filter_cons, filter_nil.
  destruct (Z.leb_spec 0 (fd c)); [by rewrite decide_True|by rewrite decide_False by lia].
Qed.

(** Replacing the connection in a slot changes the number of slots in use
    by what the two connections contribute. *)
Lemma occupied_middle (l1 l2 : list connection_t) (c : connection_t) :
  occupied (l1 ++ c :: l2) = (occupied l1 + occupied [c] + occupied l2)%nat.
Proof.
  change (c :: l2) with ([c] ++ l2). rewrite !occupied_app. lia.
Qed.

Lemma occupied_insert (pool : list connection_t) (i : nat) (c c' : connection_t) :
  pool !! i = Some c ->
  (occupied (<[i := c']> pool) + occupied [c] = occupied pool + occupied [c'])%nat.
Proof.
  intros H. pose proof (lookup_lt_Some _ _ _ H) as Hi.
  rewrite (insert_take_drop pool i c' Hi).
  rewrite <- (take_drop_middle pool i c H) at 3.
  rewrite !occupied_middle. lia.
Qed.

(** A released slot, field by field. *)
Lemma release_slot_record (c : connection_t) :
  release_slot c = Connection (-1) (buffer c) 0 0 None 0 0.
Proof. by destruct c. Qed.

(** Releasing a slot in use leaves one slot fewer in use. *)
Lemma occupied_release (pool : list connection_t) (i : nat) (c : connection_t)
    (b : list ascii) :
  pool !! i = Some c -> 0 <= fd c ->
  (occupied (<[i := Connection (-1) b 0 0 None 0 0]> pool) + 1
   = occupied pool)%nat.
Proof.
  intros Hc Hfd.
  pose proof (occupied_insert pool i c (Connection (-1) b 0 0 None 0 0) Hc) as Ho.
  rewrite !occupied_one in Ho. cbn [fd] in Ho.
  change (0 <=? -1) with false in Ho. cbv iota in Ho.
  revert Ho. destruct (Z.leb_spec 0 (fd c)); cbv iota; lia.
Qed.

End Pool.

(** C10. Releasing is idempotent and null-safe: a second release of a slot
    leaves the whole server state, the slot and the record of system calls
    included, as the first release left it; a slot that is already free
    (descriptor -1, no response buffer, zero cursors and flag) is not
    changed by a release; and releasing the null pointer changes nothing. *)
Theorem C10_remove_connection_idempotent :
  (forall (i : nat) (s : server_t),
      remove_connection (Some i) (remove_connection (Some i) s)
      = remove_connection (Some i) s) /\
  (forall (i : nat) (s : server_t) (b : list ascii),
      connections s !! i = Some (Connection (-1) b 0 0 None 0 0) ->
      remove_connection (Some i) s = s) /\
  (forall s : server_t, remove_connection None s = s).
Proof.
  split; [|split].
  - intros i s. destruct (connections s !! i) as [c|] eqn:Hc.
    + pose proof (remove_connection_lookup _ _ _ Hc) as Hr.
      unfold remove_connection at 1. rewrite Hr. simpl.
      unfold remove_connection. rewrite Hc.
      destruct (0 <=? fd c); simpl; unfold set_connections; simpl;
        by rewrite list_insert_insert_eq.
    + unfold remove_connection. by rewrite !Hc.
  - intros i s b Hc. unfold remove_connection. rewrite Hc. simpl.
    destruct s as [pool ep n tr]. unfold set_connections. simpl in *.
    f_equal. by apply list_insert_id.
  - done.
Qed.

(** ** The write scheduler *)

Section Writes.

Context (h : host).

Lemma wire_app (d : Z) (t1 t2 : list syscall) :
  wire d (t1 ++ t2) = wire d t1 ++ wire d t2.
Proof.
  induction t1 as [|[d'|d' buf ret] t1 IH]; simpl; [done|done|].
  by rewrite IH, app_assoc.
Qed.

Lemma closed_app (t1 t2 : list syscall) : closed (t1 ++ t2) = closed t1 ++ closed t2.
Proof.
  induction t1 as [|[d|d buf ret] t1 IH]; simpl; [done| |done]. by rewrite IH.
Qed.

Lemma size_t_small (z : Z) : 0 <= z < 2 ^ 64 -> size_t z = z.
Proof. apply Z.mod_small. Qed.

Lemma offered_all (c : connection_t) (r : list ascii) :
  pending c r -> offered c r = drop (Z.to_nat (response_sent c)) r.
Proof.
  intros (_ & Hs & Hl & _). unfold offered.
  apply take_ge. rewrite length_drop. lia.
Qed.

Lemma lookup_update (i : nat) (c c' : connection_t) (s : server_t) :
  connections s !! i = Some c ->
  connections (update_connection i c' s) !! i = Some c'.
Proof.
  intros H. simpl. apply list_lookup_insert_eq. by apply lookup_lt_Some in H.
Qed.

(** [send_response] when the kernel takes [m] bytes, short of the rest. *)
Lemma send_response_partial (k : kernel) (i : nat) (s : server_t)
    (c : connection_t) (r : list ascii) (m : Z) :
  connections s !! i = Some c -> pending c r ->
  k_send k = send_bytes m -> 0 <= m < response_size c - response_sent c ->
  send_response k (Some i) s
  = (0, update_connection i (set_response_sent (response_sent c + m) c)
          (log (sys_send (fd c) (offered c r) m) s)).
Proof.
  intros Hc (Hr & Hs & Hl & Hb) Hk Hm.
  unfold send_response. rewrite Hc, Hr, Hk. simpl.
  rewrite !size_t_small by lia.
  destruct (Z.ltb_spec m 0); [lia|].
  destruct (Z.leb_spec (response_size c) (response_sent c + m)); [lia|].
  reflexivity.
Qed.

(** [send_response] when the kernel takes all the rest. *)
Lemma send_response_last (k : kernel) (i : nat) (s : server_t)
    (c : connection_t) (r : list ascii) :
  connections s !! i = Some c -> pending c r ->
  k_send k = send_bytes (response_size c - response_sent c) ->
  send_response k (Some i) s
  = let s1 := log (sys_send (fd c) (offered c r)
                     (response_size c - response_sent c)) s in
    if keep_alive c =? 0 then (-1, update_connection i (finished c) s1)
    else
      let s2 := update_connection i (set_buffer_used 0 (finished c)) s1 in
      if k_epoll_ctl k
      then (0, set_epoll_set (<[fd c := Z.lor EPOLLIN EPOLLET]> (epoll_set s2)) s2)
      else (-1, s2).
Proof.
  intros Hc (Hr & Hs & Hl & Hb) Hk.
  unfold send_response. rewrite Hc, Hr, Hk. simpl.
  rewrite !size_t_small by lia.
  destruct (Z.ltb_spec (response_size c - response_sent c) 0); [lia|].
  replace (response_sent c + (response_size c - response_sent c))
    with (response_size c) by lia.
  rewrite Z.leb_refl.
  destruct (keep_alive c =? 0); simpl; [done|].
  unfold epoll_ctl. by destruct (k_epoll_ctl k).
Qed.

Lemma send_response_would_block (k : kernel) (i : nat) (s : server_t)
    (c : connection_t) (r : list ascii) :
  connections s !! i = Some c -> pending c r ->
  k_send k = send_would_block ->
  send_response k (Some i) s = (0, log (sys_send (fd c) (offered c r) (-1)) s).
Proof.
  intros Hc (Hr & Hs & Hl & Hb) Hk.
  unfold send_response. rewrite Hc, Hr, Hk. simpl.
  by rewrite !size_t_small by lia.
Qed.

(** The loop body on a write-readiness event. *)
Lemma client_event_out (k : kernel) (i : nat) (s : server_t) (c : connection_t) :
  connections s !! i = Some c ->
  client_event h k i EPOLLOUT s
  = (let '(ret, s1) := send_response k (Some i) s in
     if ret <? 0 then drop_connection i s1 else s1).
Proof.
  intros Hc. unfold client_event. rewrite Hc.
  change (Z.land EPOLLOUT EPOLLIN =? 0) with true.
  change (Z.land EPOLLOUT EPOLLOUT =? 0) with false.
  change (Z.land EPOLLOUT (Z.lor EPOLLERR EPOLLHUP) =? 0) with true.
  cbn [negb]. destruct (send_response k (Some i) s) as [ret s1].
  by destruct (ret <? 0).
Qed.

Lemma pending_advance (c : connection_t) (r : list ascii) (m : Z) :
  pending c r -> 0 <= m <= response_size c - response_sent c ->
  pending (set_response_sent (response_sent c + m) c) r.
Proof.
  intros (Hr & Hs & Hl & Hb) Hm. unfold pending. simpl.
  split; [done|]. split; [lia|]. split; [done|lia].
Qed.

Lemma take_drop_step (r : list ascii) (a m : Z) :
  0 <= a -> 0 <= m ->
  take (Z.to_nat m) (drop (Z.to_nat a) r) ++ drop (Z.to_nat (a + m)) r
  = drop (Z.to_nat a) r.
Proof.
  intros Ha Hm. rewrite Z2Nat.inj_add by done.
  rewrite <- drop_drop. apply take_drop.
Qed.

Lemma drop_connection_live (i : nat) (s : server_t) (c : connection_t) :
  connections s !! i = Some c -> 0 <= fd c ->
  drop_connection i s
  = Server (<[i := release_slot c]> (connections s))
      (delete (fd c) (epoll_set s)) (connection_count s - 1)
      (trace s ++ [sys_close (fd c)]).
Proof.
  intros Hc Hfd. unfold drop_connection, remove_connection. rewrite Hc.
  destruct (Z.leb_spec 0 (fd c)); [done|lia].
Qed.

Lemma client_event_out_bits (k : kernel) (i : nat) (events : Z) (s : server_t)
    (c : connection_t) :
  connections s !! i = Some c ->
  Z.land events EPOLLIN = 0 -> Z.land events EPOLLOUT <> 0 ->
  client_event h k i events s
  = (let s1 := if (send_response k (Some i) s).1 <? 0
               then drop_connection i (send_response k (Some i) s).2
               else (send_response k (Some i) s).2 in
     if Z.land events (Z.lor EPOLLERR EPOLLHUP) =? 0 then s1
     else drop_connection i s1).
Proof.
  intros Hc Hin Hout. unfold client_event. rewrite Hc, Hin.
  change (0 =? 0) with true. cbn [negb].
  destruct (Z.eqb_spec (Z.land events EPOLLOUT) 0); [done|]. cbn [negb].
  destruct (send_response k (Some i) s) as [ret s1]. cbn [fst snd].
  by destruct (Z.land events (Z.lor EPOLLERR EPOLLHUP) =? 0).
Qed.

(** A write event without read, error or hang-up bit is handled as the
    event [EPOLLOUT] alone. *)
Lemma client_event_out_any (k : kernel) (i : nat) (events : Z) (s : server_t)
    (c : connection_t) :
  connections s !! i = Some c ->
  Z.land events EPOLLIN = 0 -> Z.land events EPOLLOUT <> 0 ->
  Z.land events (Z.lor EPOLLERR EPOLLHUP) = 0 ->
  client_event h k i events s = client_event h k i EPOLLOUT s.
Proof.
  intros Hc Hin Hout Herr.
  rewrite (client_event_out_bits k i events s c Hc Hin Hout), Herr.
  rewrite (client_event_out k i s c Hc).
  change (0 =? 0) with true. cbv zeta iota.
  by destruct (send_response k (Some i) s) as [ret s1].
Qed.

(** The release of a slot in use whose connection [c1] was just written
    back: what is left of the slot, of the pool and of the registrations. *)
Lemma drop_after_update (i : nat) (s : server_t) (c c1 : connection_t) :
  connections s !! i = Some c -> 0 <= fd c ->
  fd c1 = fd c -> buffer c1 = buffer c ->
  let s' := drop_connection i (update_connection i c1 s) in
  connections s' = <[i := Connection (-1) (buffer c) 0 0 None 0 0]> (connections s) /\
  (occupied (connections s') + 1 = occupied (connections s))%nat /\
  connection_count s' = connection_count s - 1 /\
  epoll_set s' = delete (fd c) (epoll_set s) /\
  trace s' = trace s ++ [sys_close (fd c)].
Proof.
  intros Hc Hfd Hfd1 Hb1. cbv zeta.
  rewrite (drop_connection_live i (update_connection i c1 s) c1);
    [|by apply (lookup_update i c)|lia].
  cbn [connections epoll_set connection_count trace update_connection
       set_connections].
  rewrite list_insert_insert_eq, release_slot_record, Hfd1, Hb1.
  split; [done|]. split; [by apply (occupied_release _ i c)|done].
Qed.

End Writes.

Section Drain.

Context (h : host).

Lemma drop_connection_lookup (i : nat) (s : server_t) (c : connection_t) :
  connections s !! i = Some c ->
  connections (drop_connection i s) !! i = Some (release_slot c).
Proof.
  intros H.
  change (connections (remove_connection (Some i) s) !! i
          = Some (release_slot c)).
  exact (remove_connection_lookup i s c H).
Qed.

Lemma drop_connection_trace (i : nat) (s : server_t) (c : connection_t) :
  connections s !! i = Some c -> 0 <= fd c ->
  trace (drop_connection i s) = trace s ++ [sys_close (fd c)] /\
  epoll_set (drop_connection i s) = delete (fd c) (epoll_set s).
Proof.
  intros H Hfd. unfold drop_connection, remove_connection. rewrite H.
  destruct (Z.leb_spec 0 (fd c)); [done|lia].
Qed.

Lemma drop_connection_wire (d : Z) (i : nat) (s : server_t) :
  wire d (trace (drop_connection i s)) = wire d (trace s).
Proof.
  unfold drop_connection, remove_connection.
  destruct (connections s !! i) as [c|]; [|done].
  destruct (0 <=? fd c); [|done]. simpl.
  rewrite wire_app. simpl. by rewrite app_nil_r.
Qed.

(** The loop body on the write event that takes the rest of a response:
    whatever happens to the connection, the rest went out. *)
Lemma client_event_last_wire (k : kernel) (i : nat) (s : server_t)
    (c : connection_t) (r : list ascii) :
  connections s !! i = Some c -> pending c r ->
  k_send k = send_bytes (response_size c - response_sent c) ->
  wire (fd c) (trace (client_event h k i EPOLLOUT s))
  = wire (fd c) (trace s) ++ drop (Z.to_nat (response_sent c)) r.
Proof.
  intros Hc Hp Hk.
  assert (Hw : wire (fd c)
                 (trace (log (sys_send (fd c) (offered c r)
                                (response_size c - response_sent c)) s))
               = wire (fd c) (trace s) ++ drop (Z.to_nat (response_sent c)) r).
  { simpl. rewrite wire_app. simpl. rewrite decide_True by done.
    rewrite app_nil_r. f_equal. unfold offered. rewrite take_take.
    rewrite Nat.min_id. by apply offered_all. }
  rewrite (client_event_out h k i s c Hc).
  rewrite (send_response_last k i s c r Hc Hp Hk). cbv zeta.
  destruct (keep_alive c =? 0).
  - change (-1 <? 0) with true. cbv iota. by rewrite drop_connection_wire.
  - destruct (k_epoll_ctl k).
    + done.
    + change (-1 <? 0) with true. cbv iota. by rewrite drop_connection_wire.
Qed.

(** The loop body on the write event that takes the rest of the response
    of a connection that is not kept alive: the slot is released. *)
Lemma client_event_last_close (k : kernel) (i : nat) (s : server_t)
    (c : connection_t) (r : list ascii) :
  connections s !! i = Some c -> pending c r -> 0 <= fd c ->
  keep_alive c = 0 ->
  k_send k = send_bytes (response_size c - response_sent c) ->
  let s' := client_event h k i EPOLLOUT s in
  connections s' !! i = Some (release_slot c) /\
  trace s' = trace s ++ [sys_send (fd c) (offered c r)
                           (response_size c - response_sent c);
                         sys_close (fd c)] /\
  epoll_set s' = delete (fd c) (epoll_set s).
Proof.
  intros Hc Hp Hfd Hka Hk. cbv zeta.
  rewrite (client_event_out h k i s c Hc).
  rewrite (send_response_last k i s c r Hc Hp Hk). cbv zeta.
  rewrite Hka. change (0 =? 0) with true. cbv iota.
  change (-1 <? 0) with true. cbv iota.
  set (s1 := update_connection i (finished c) _).
  assert (Hc1 : connections s1 !! i = Some (finished c)).
  { subst s1. by apply (lookup_update i c). }
  split; [|split].
  - by rewrite (drop_connection_lookup i s1 _ Hc1).
  - destruct (drop_connection_trace i s1 _ Hc1 Hfd) as [-> _].
    subst s1. simpl. by rewrite <- app_assoc.
  - destruct (drop_connection_trace i s1 _ Hc1 Hfd) as [_ ->]. done.
Qed.

(** A completing run of writes puts the unsent rest of the response on the
    wire, in order; a connection that is not kept alive is then released. *)
Lemma drain (i : nat) (r : list ascii) (ks : list kernel) :
  forall (s : server_t) (c : connection_t),
    connections s !! i = Some c -> pending c r -> 0 <= fd c ->
    completes ks (response_size c - response_sent c) = true ->
    let s' := run h (write_events i ks) s in
    wire (fd c) (trace s')
    = wire (fd c) (trace s) ++ drop (Z.to_nat (response_sent c)) r /\
    (keep_alive c = 0 ->
     connections s' !! i = Some (release_slot c) /\
     last (trace s') = Some (sys_close (fd c))).
Proof.
  induction ks as [|k ks IH]; intros s c Hc Hp Hfd Hks; [done|].
  simpl in Hks. cbv zeta.
  change (run h (write_events i (k :: ks)) s)
    with (run h (write_events i ks) (client_event h k i EPOLLOUT s)).
  destruct (k_send k) as [m| |] eqn:Hk; [| |done].
  - apply andb_true_iff in Hks as [Hm0 Hks]. apply Z.leb_le in Hm0.
    destruct (Z.eqb_spec m (response_size c - response_sent c)) as [->|Hne].
    + destruct ks; [|done].
      change (run h (write_events i []) ?x) with x.
      split.
      * by apply client_event_last_wire.
      * intros Hka.
        destruct (client_event_last_close k i s c r Hc Hp Hfd Hka Hk)
          as (Hl & Ht & _).
        split; [done|]. rewrite Ht.
        by rewrite (last_app_cons _ [_] _).
    + apply andb_true_iff in Hks as [Hlt Hks]. apply Z.ltb_lt in Hlt.
      rewrite (client_event_out h k i s c Hc).
      rewrite (send_response_partial k i s c r m Hc Hp Hk) by lia.
      change (0 <? 0) with false. cbv iota.
      set (c1 := set_response_sent (response_sent c + m) c).
      set (s1 := update_connection i c1 _).
      assert (Hc1 : connections s1 !! i = Some c1).
      { subst s1. by apply (lookup_update i c). }
      assert (Hp1 : pending c1 r) by (apply pending_advance; [done|lia]).
      destruct (IH s1 c1 Hc1 Hp1 Hfd) as [Hw Hrel].
      { simpl. by replace (response_size c - (response_sent c + m))
          with (response_size c - response_sent c - m) by lia. }
      split.
      * change (fd c1) with (fd c) in Hw. rewrite Hw. subst s1. simpl.
        rewrite wire_app. simpl. rewrite decide_True by done.
        rewrite app_nil_r, <- app_assoc. f_equal.
        destruct Hp as (_ & Hs & _).
        rewrite <- (take_drop_step r (response_sent c) m) by lia.
        f_equal. unfold offered. rewrite take_take. f_equal. lia.
      * exact Hrel.
  - rewrite (client_event_out h k i s c Hc).
    rewrite (send_response_would_block k i s c r Hc Hp Hk).
    change (0 <? 0) with false. cbv iota.
    set (s1 := log _ s).
    destruct (IH s1 c Hc Hp Hfd Hks) as [Hw Hrel].
    split; [|exact Hrel].
    rewrite Hw. subst s1. simpl. rewrite wire_app. simpl.
    rewrite decide_True by done. by rewrite !app_nil_r.
Qed.

End Drain.

(** C5. A connection has the response [r] under way and the kernel takes
    [m] of the bytes offered by one [send]: the sent cursor goes up by
    exactly [m], the response is taken as complete (its buffer freed)
    exactly when the cursor equals the total, and the bytes that went out
    are the next [m] bytes of [r].  Over a run of write events in which no
    send fails and the last one takes the rest, the bytes that went out,
    in order, are exactly the unsent rest of [r]: the whole of [r] when the
    run starts at cursor zero. *)
Theorem C5_partial_writes (h : host) (i : nat) (s : server_t)
    (c : connection_t) (r : list ascii) :
  connections s !! i = Some c -> pending c r -> 0 <= fd c ->
  (forall (k : kernel) (m : Z),
      k_send k = send_bytes m ->
      0 <= m <= response_size c - response_sent c ->
      let s' := (send_response k (Some i) s).2 in
      exists c',
        connections s' !! i = Some c' /\
        response_sent c' = response_sent c + m /\
        (response c' = None <-> response_sent c' = response_size c) /\
        wire (fd c) (trace s')
        = wire (fd c) (trace s)
          ++ take (Z.to_nat m) (drop (Z.to_nat (response_sent c)) r)) /\
  (forall ks : list kernel,
      completes ks (response_size c - response_sent c) = true ->
      wire (fd c) (trace (run h (write_events i ks) s))
      = wire (fd c) (trace s) ++ drop (Z.to_nat (response_sent c)) r) /\
  (forall ks : list kernel,
      response_sent c = 0 ->
      completes ks (response_size c) = true ->
      wire (fd c) (trace (run h (write_events i ks) s))
      = wire (fd c) (trace s) ++ r).
Proof.
  intros Hc Hp Hfd. split; [|split].
  - intros k m Hk Hm. cbv zeta.
    destruct (decide (m = response_size c - response_sent c)) as [->|Hne].
    + rewrite (send_response_last k i s c r Hc Hp Hk). cbv zeta.
      assert (Hw : forall s1 : server_t,
                 trace s1 = trace s ++ [sys_send (fd c) (offered c r)
                                (response_size c - response_sent c)] ->
                 wire (fd c) (trace s1)
                 = wire (fd c) (trace s)
                   ++ take (Z.to_nat (response_size c - response_sent c))
                        (drop (Z.to_nat (response_sent c)) r)).
      { intros s1 ->. rewrite wire_app. simpl. rewrite decide_True by done.
        rewrite app_nil_r. f_equal. unfold offered. rewrite take_take.
        by rewrite Nat.min_id. }
      destruct (keep_alive c =? 0); [|destruct (k_epoll_ctl k)].
      * exists (finished c). split; [by apply (lookup_update i c)|].
        split; [simpl; lia|]. split; [done|]. by apply Hw.
      * exists (set_buffer_used 0 (finished c)).
        split; [by apply (lookup_update i c)|].
        split; [simpl; lia|]. split; [done|]. by apply Hw.
      * exists (set_buffer_used 0 (finished c)).
        split; [by apply (lookup_update i c)|].
        split; [simpl; lia|]. split; [done|]. by apply Hw.
    + rewrite (send_response_partial k i s c r m Hc Hp Hk) by lia.
      exists (set_response_sent (response_sent c + m) c).
      split; [by apply (lookup_update i c)|]. split; [done|].
      destruct Hp as (Hr & Hs & Hl & Hb). split.
      * simpl. rewrite Hr. split; [done|lia].
      * simpl. rewrite wire_app. simpl. rewrite decide_True by done.
        rewrite app_nil_r. f_equal. unfold offered. rewrite take_take.
        f_equal. lia.
  - intros ks Hks. by apply (drain h i r ks s c).
  - intros ks H0 Hks.
    destruct (drain h i r ks s c Hc Hp Hfd) as [Hw _].
    { by rewrite H0, Z.sub_0_r. }
    by rewrite Hw, H0.
Qed.

Lemma C5_partial_writes_witness :
  wire 5 (trace (run Demo.no_files
                   (write_events 0 [Demo.takes 10; Demo.quiet; Demo.takes 88])
                   Demo.answering))
  = wire 5 (trace Demo.answering) ++ response_501.
Proof.
  destruct (C5_partial_writes Demo.no_files 0 Demo.answering
              Demo.answering_conn response_501) as (_ & _ & H).
  - evaluate.
  - evaluate_pending.
  - evaluate.
  - apply H; evaluate.
Defined.

(** C2. The write event on which the completion test of [send_response]
    succeeds, for any event mask with the write bit and without read,
    error or hang-up bit.  When [send_response] returns, the sent cursor
    of the connection shows the total of the response and the response
    buffer is gone.  With [keep_alive] set, [send_response] returns 0:
    [buffer_used] is zero, the descriptor stays open in its slot and is
    registered for read events only; when [epoll_ctl] refuses the change
    the connection is released instead.  With [keep_alive] clear,
    [send_response] returns -1 and the loop releases the connection.  A
    release closes the descriptor, once, as the last call, drops it from
    the epoll set, leaves the slot unused (descriptor -1, cursors, flag
    and response cleared), every other slot as it was, one slot fewer in
    use, and the connection counter one lower. *)
Theorem C2_completion (h : host) (k : kernel) (i : nat) (events : Z)
    (s : server_t) (c : connection_t) (r : list ascii) (m : Z) :
  connections s !! i = Some c -> pending c r -> 0 <= fd c ->
  Z.land events EPOLLIN = 0 -> Z.land events EPOLLOUT <> 0 ->
  Z.land events (Z.lor EPOLLERR EPOLLHUP) = 0 ->
  k_send k = send_bytes m ->
  0 <= m <= response_size c - response_sent c ->
  response_size c <= response_sent c + m ->
  let returned := send_response k (Some i) s in
  let s' := client_event h k i events s in
  response_sent c + m = response_size c /\
  (exists c1,
     connections returned.2 !! i = Some c1 /\
     response_sent c1 = response_size c /\
     response c1 = None /\ response_size c1 = 0 /\ fd c1 = fd c) /\
  wire (fd c) (trace s') = wire (fd c) (trace s) ++ drop (Z.to_nat (response_sent c)) r /\
  (keep_alive c <> 0 -> k_epoll_ctl k = true ->
   returned.1 = 0 /\
   exists c',
     connections s' !! i = Some c' /\
     fd c' = fd c /\ response c' = None /\ buffer_used c' = 0 /\
     response_sent c' = response_size c /\ keep_alive c' = keep_alive c /\
     epoll_set s' !! fd c = Some (Z.lor EPOLLIN EPOLLET) /\
     Z.land (Z.lor EPOLLIN EPOLLET) EPOLLOUT = 0 /\
     (sys_close (fd c) ∉ drop (length (trace s)) (trace s')) /\
     occupied (connections s') = occupied (connections s) /\
     connection_count s' = connection_count s) /\
  (keep_alive c <> 0 -> k_epoll_ctl k = false ->
   returned.1 = -1 /\
   connections s' !! i = Some (release_slot c) /\
   last (trace s') = Some (sys_close (fd c)) /\
   connections s' !! i = Some (Connection (-1) (buffer c) 0 0 None 0 0) /\
   (forall n, n <> i -> connections s' !! n = connections s !! n) /\
   (occupied (connections s') + 1 = occupied (connections s))%nat /\
   connection_count s' = connection_count s - 1 /\
   epoll_set s' !! fd c = None /\
   closed (trace s') = closed (trace s) ++ [fd c]) /\
  (keep_alive c = 0 ->
   returned.1 = -1 /\
   connections s' !! i = Some (release_slot c) /\
   last (trace s') = Some (sys_close (fd c)) /\
   epoll_set s' !! fd c = None /\
   connections s' !! i = Some (Connection (-1) (buffer c) 0 0 None 0 0) /\
   (forall n, n <> i -> connections s' !! n = connections s !! n) /\
   (occupied (connections s') + 1 = occupied (connections s))%nat /\
   connection_count s' = connection_count s - 1 /\
   closed (trace s') = closed (trace s) ++ [fd c]).
Proof.
  intros Hc Hp Hfd Hin Hout Herr Hk Hm Hdone. cbv zeta.
  assert (Hm' : m = response_size c - response_sent c) by lia. subst m.
  rewrite (client_event_out_any h k i events s c Hc Hin Hout Herr).
  pose proof (lookup_lt_Some _ _ _ Hc) as Hi.
  assert (Hrel : forall c1 : connection_t,
             fd c1 = fd c -> buffer c1 = buffer c ->
             let s1 := log (sys_send (fd c) (offered c r)
                              (response_size c - response_sent c)) s in
             let s' := drop_connection i (update_connection i c1 s1) in
             connections s' !! i = Some (Connection (-1) (buffer c) 0 0 None 0 0) /\
             (forall n, n <> i -> connections s' !! n = connections s !! n) /\
             (occupied (connections s') + 1 = occupied (connections s))%nat /\
             connection_count s' = connection_count s - 1 /\
             epoll_set s' !! fd c = None /\
             closed (trace s') = closed (trace s) ++ [fd c] /\
             last (trace s') = Some (sys_close (fd c))).
  { intros c1 Hfd1 Hb1. cbv zeta.
    destruct (drop_after_update i
                (log (sys_send (fd c) (offered c r)
                        (response_size c - response_sent c)) s)
                c c1 Hc Hfd Hfd1 Hb1) as (Hpool & Hocc & Hcnt & Hep & Htr).
    set (s' := drop_connection i _) in *.
    cbn [connections connection_count epoll_set log trace] in *.
    split; [rewrite Hpool; by apply list_lookup_insert_eq|].
    split; [intros n Hn; rewrite Hpool; by apply list_lookup_insert_ne|].
    split; [exact Hocc|]. split; [exact Hcnt|].
    split; [rewrite Hep; apply lookup_delete_eq|]. split.
    - rewrite Htr, !closed_app. simpl. by rewrite app_nil_r.
    - by rewrite Htr, last_snoc. }
  split; [lia|]. split; [|split; [by apply client_event_last_wire|]].
  { rewrite (send_response_last k i s c r Hc Hp Hk). cbv zeta.
    destruct (keep_alive c =? 0); [|destruct (k_epoll_ctl k)]; cbn [snd].
    - exists (finished c). split; [by apply (lookup_update i c)|done].
    - exists (set_buffer_used 0 (finished c)).
      split; [by apply (lookup_update i c)|done].
    - exists (set_buffer_used 0 (finished c)).
      split; [by apply (lookup_update i c)|done]. }
  rewrite (client_event_out h k i s c Hc).
  rewrite (send_response_last k i s c r Hc Hp Hk). cbv zeta.
  split; [|split].
  - intros Hka Hep.
    destruct (Z.eqb_spec (keep_alive c) 0); [done|]. rewrite Hep.
    cbn [fst]. change (0 <? 0) with false. cbv iota.
    split; [done|].
    exists (set_buffer_used 0 (finished c)).
    split; [by apply (lookup_update i c)|].
    do 5 (split; [done|]).
    split; [apply lookup_insert_eq|]. split; [done|].
    split; [simpl; rewrite drop_app_length;
            by intros [=]%list_elem_of_singleton|].
    split; [|done].
    cbn [connections set_epoll_set update_connection set_connections log].
    pose proof (occupied_insert _ i c (set_buffer_used 0 (finished c)) Hc) as Ho.
    rewrite !occupied_one in Ho.
    change (fd (set_buffer_used 0 (finished c))) with (fd c) in Ho. lia.
  - intros Hka Hep.
    destruct (Z.eqb_spec (keep_alive c) 0); [done|]. rewrite Hep.
    cbn [fst]. change (-1 <? 0) with true. cbv iota.
    destruct (Hrel (set_buffer_used 0 (finished c)) eq_refl eq_refl)
      as (H1 & H2 & H3 & H4 & H5 & H6 & H7).
    split; [done|]. rewrite release_slot_record. by repeat split.
  - intros Hka. rewrite Hka.
    change (0 =? 0) with true. cbv iota.
    cbn [fst]. change (-1 <? 0) with true. cbv iota.
    destruct (Hrel (finished c) eq_refl eq_refl)
      as (H1 & H2 & H3 & H4 & H5 & H6 & H7).
    split; [done|]. rewrite release_slot_record. by repeat split.
Qed.

Lemma C2_completion_witness :
  (keep_alive Demo.serving_conn = 1 /\
   exists c',
     connections (client_event Demo.site (Demo.takes 125) 0 EPOLLOUT
                    Demo.serving) !! 0%nat = Some c' /\
     fd c' = 5 /\
     response c' = None /\ buffer_used c' = 0 /\ response_sent c' = 125) /\
  (keep_alive Demo.answering_conn = 0 /\
   fd <$> connections (client_event Demo.no_files (Demo.takes 98) 0 EPOLLOUT
                         Demo.answering) !! 0%nat = Some (-1) /\
   (occupied (connections (client_event Demo.no_files (Demo.takes 98) 0
                             EPOLLOUT Demo.answering)) + 1
    = occupied (connections Demo.answering))%nat).
Proof.
  split.
  - split; [evaluate|].
    destruct (C2_completion Demo.site (Demo.takes 125) 0 EPOLLOUT Demo.serving
                Demo.serving_conn Demo.serving_response 125)
      as (_ & _ & _ & H & _).
    + evaluate.
    + evaluate_pending.
    + evaluate.
    + evaluate.
    + evaluate.
    + evaluate.
    + evaluate.
    + split; evaluate.
    + evaluate.
    + destruct H as (_ & c' & Hc & Hf & Hr & Hb & Hs & _); [evaluate|evaluate|].
      exists c'. split; [exact Hc|]. split; [exact Hf|]. split; [exact Hr|].
      split; [exact Hb|]. exact Hs.
  - split; [evaluate|].
    destruct (C2_completion Demo.no_files (Demo.takes 98) 0 EPOLLOUT
                Demo.answering Demo.answering_conn response_501 98)
      as (_ & _ & _ & _ & _ & H).
    + evaluate.
    + evaluate_pending.
    + evaluate.
    + evaluate.
    + evaluate.
    + evaluate.
    + evaluate.
    + split; evaluate.
    + evaluate.
    + destruct H as (_ & _ & _ & _ & Hc & _ & Ho & _); [evaluate|].
      split; [by rewrite Hc|exact Ho].
Defined.

(** ** Admission control *)

(** C6. A descriptor is accepted and made non-blocking while every slot of
    the pool is in use: the program sends the literal 503 response, whose
    body is "Server is overloaded", on that descriptor and then closes it,
    and does nothing else; the pool, and with it the number of slots in
    use, the connection counter and every other registration with epoll
    are as before. *)
Theorem C6_pool_full (k : kernel) (client_fd : Z) (s : server_t) :
  Forall (fun c => 0 <= fd c) (connections s) ->
  k_nonblocking k = true ->
  let s' := accept_one k client_fd s in
  trace s' = trace s ++ [sys_send client_fd response_503 (send_ret (k_send k));
                         sys_close client_fd] /\
  Wire.status_line response_503 = lit "HTTP/1.1 503 Service Unavailable" /\
  Wire.body response_503 = Some (lit "Server is overloaded") /\
  connections s' = connections s /\
  occupied (connections s') = occupied (connections s) /\
  connection_count s' = connection_count s /\
  epoll_set s' = delete client_fd (epoll_set s).
Proof.
  intros Hfull Hnb. cbv zeta. unfold accept_one, add_connection.
  rewrite Hnb, (find_unused_none _ 0 Hfull). cbn [negb].
  change (take (Z.to_nat (strlen response_503)) response_503)
    with response_503.
  split; [|split; [|split]]; [|done|done|done].
  simpl. by rewrite <- app_assoc.
Qed.

Lemma crowded_full : Forall (fun c => 0 <= fd c) (connections Demo.crowded).
Proof.
  apply Forall_lookup_2. intros n c.
  unfold Demo.crowded. cbn [connections]. rewrite list_lookup_imap.
  destruct (init_connections !! n) as [c0|]; [|discriminate].
  intros [= <-]. cbn [fd set_fd]. lia.
Qed.

Lemma C6_pool_full_witness :
  connections (accept_one Demo.quiet 4242 Demo.crowded)
  = connections Demo.crowded /\
  wire 4242 (trace (accept_one (Demo.takes 104) 4242 Demo.crowded))
  = response_503.
Proof.
  split.
  - apply (C6_pool_full Demo.quiet 4242 Demo.crowded crowded_full).
    reflexivity.
  - destruct (C6_pool_full (Demo.takes 104) 4242 Demo.crowded crowded_full)
      as [Ht _]; [reflexivity|].
    rewrite Ht. reflexivity.
Defined.

(** ** The literal responses *)

(** C1. Evaluation of the literal error responses.  The 404 and 500
    responses announce the length of their body (14 and 21).  The 501
    response announces 28 for a body of 27 bytes, the 413 response 24 for
    a body of 20 bytes and the 503 response 21 for a body of 20 bytes.
    A POST request is answered with that 501 response. *)
Theorem C1_content_length_mismatch :
  (Wire.content_length response_404 = Some 14 /\
   length <$> Wire.body response_404 = Some 14%nat) /\
  (Wire.content_length response_500 = Some 21 /\
   length <$> Wire.body response_500 = Some 21%nat) /\
  (Wire.content_length response_501 = Some 28 /\
   Wire.body response_501 = Some (lit "Only GET requests supported") /\
   length <$> Wire.body response_501 = Some 27%nat) /\
  (Wire.content_length response_413 = Some 24 /\
   Wire.body response_413 = Some (lit "Request is too large") /\
   length <$> Wire.body response_413 = Some 20%nat) /\
  (Wire.content_length response_503 = Some 21 /\
   Wire.body response_503 = Some (lit "Server is overloaded") /\
   length <$> Wire.body response_503 = Some 20%nat) /\
  response Demo.answering_conn = Some response_501.
Proof. repeat split; vm_compute; reflexivity. Qed.

(** ** The read path *)

Section Reads.

Context (h : host).

Lemma client_event_in (k : kernel) (i : nat) (events : Z) (s : server_t)
    (c : connection_t) :
  connections s !! i = Some c ->
  Z.land events EPOLLIN <> 0 ->
  Z.land events (Z.lor EPOLLERR EPOLLHUP) = 0 ->
  client_event h k i events s = (on_readable h k i c s).1.
Proof.
  intros Hc Hin Herr. unfold client_event. rewrite Hc, Herr.
  destruct (Z.eqb_spec (Z.land events EPOLLIN) 0); [done|]. cbn [negb].
  destruct (on_readable h k i c s) as [s1 []]; done.
Qed.

Lemma not_found_find_sub (n l : list ascii) :
  found (find_sub n l) = false <-> ~ occurs n l.
Proof.
  rewrite <- found_find_sub. by destruct (found (find_sub n l)).
Qed.

(** A buffer filled up to its last byte. *)
Lemma store_received_full (d : list ascii) (c : connection_t) :
  buffer_ok c -> 0 <= buffer_used c ->
  buffer_used c + Z.of_nat (length d) = BUFFER_SIZE - 1 ->
  buffer (store_received d c) = accumulated (store_received d c) ++ [NUL] /\
  buffer_used (store_received d c) = BUFFER_SIZE - 1.
Proof.
  intros [Hlen Hlast] Hu Hfull.
  apply last_Some in Hlast as [l Hl].
  assert (Hll : length l = Z.to_nat (BUFFER_SIZE - 1)).
  { rewrite Hl, length_app in Hlen. simpl in Hlen.
    unfold BUFFER_SIZE in *. lia. }
  assert (Hbu : buffer_used (store_received d c) = BUFFER_SIZE - 1).
  { unfold store_received. simpl. rewrite Hfull. done. }
  split; [|done].
  unfold accumulated. rewrite Hbu.
  unfold store_received. simpl. unfold write_at. rewrite Hl.
  rewrite take_app_le by lia.
  replace (Z.to_nat (buffer_used c) + length d)%nat with (length l) by lia.
  rewrite drop_app_length.
  rewrite (app_assoc _ d [NUL]).
  rewrite take_app_length'; [done|].
  rewrite length_app, length_take. lia.
Qed.

Lemma strstr_full_buffer (d needle : list ascii) (c : connection_t) :
  buffer_ok c -> 0 <= buffer_used c ->
  buffer_used c + Z.of_nat (length d) = BUFFER_SIZE - 1 ->
  ~ occurs (c_str needle) (accumulated (store_received d c)) ->
  found (strstr (buffer (store_received d c)) needle) = false.
Proof.
  intros Hok Hu Hfull Hno.
  destruct (store_received_full d c Hok Hu Hfull) as [Hb _].
  unfold strstr. apply not_found_find_sub. intros Hocc. apply Hno.
  rewrite Hb in Hocc.
  destruct (c_str_before_nul (accumulated (store_received d c)) []) as [t Ht].
  rewrite Ht. by apply occurs_app_r.
Qed.

End Reads.

Lemma pending_error_response (r : list ascii) (c : connection_t) :
  NUL ∉ r -> Z.of_nat (length r) < 2 ^ 64 ->
  pending (error_response r c) r.
Proof.
  intros Hr Hlen. unfold pending, error_response, strlen. simpl.
  rewrite (c_str_id r Hr). repeat apply conj; try done; lia.
Qed.

(** C3. A read brings the accumulated request to [BUFFER_SIZE - 1] bytes
    and these bytes hold no CR LF CR LF: the connection gets the 413
    response with [keep_alive] cleared, nothing is sent yet, and the
    descriptor is switched to write events.  Every run of write events that
    delivers the response puts exactly the one 413 response on the wire,
    after which the slot is released and the descriptor closed. *)
Theorem C3_request_too_large (h : host) (k : kernel) (i : nat) (events : Z)
    (s : server_t) (c : connection_t) (d : list ascii) :
  connections s !! i = Some c ->
  response c = None -> buffer_ok c -> 0 <= buffer_used c -> 0 <= fd c ->
  Z.land events EPOLLIN <> 0 ->
  Z.land events (Z.lor EPOLLERR EPOLLHUP) = 0 ->
  k_recv k = recv_bytes d -> d <> [] -> k_epoll_ctl k = true ->
  buffer_used c + Z.of_nat (length d) = BUFFER_SIZE - 1 ->
  ~ occurs (crlf ++ crlf) (accumulated (store_received d c)) ->
  let c1 := error_response response_413 (store_received d c) in
  let s1 := client_event h k i events s in
  connections s1 !! i = Some c1 /\
  response c1 = Some response_413 /\
  Wire.status_line response_413 = lit "HTTP/1.1 413 Request Entity Too Large" /\
  keep_alive c1 = 0 /\
  epoll_set s1 !! fd c = Some (Z.lor EPOLLOUT EPOLLET) /\
  trace s1 = trace s /\
  (forall ks : list kernel,
      completes ks (response_size c1) = true ->
      let s2 := run h (write_events i ks) s1 in
      wire (fd c) (trace s2) = wire (fd c) (trace s) ++ response_413 /\
      connections s2 !! i = Some (release_slot c1) /\
      last (trace s2) = Some (sys_close (fd c))).
Proof.
  intros Hc Hr Hok Hu Hfd Hin Herr Hk Hd Hep Hfull Hno. cbv zeta.
  set (c0 := store_received d c).
  set (c1 := error_response response_413 c0).
  assert (Hs1 : client_event h k i events s
                = set_epoll_set (<[fd c := Z.lor EPOLLOUT EPOLLET]> (epoll_set s))
                    (update_connection i c1 s)).
  { rewrite (client_event_in h k i events s c Hc Hin Herr).
    unfold on_readable. rewrite Hr, Hk.
    destruct (Z.eqb_spec (Z.of_nat (length d)) 0) as [H0|_].
    { destruct d; [done|simpl in H0; lia]. }
    fold c0. unfold c0 at 1.
    rewrite (strstr_full_buffer d (crlf ++ crlf) c Hok Hu Hfull Hno).
    destruct (store_received_full d c Hok Hu Hfull) as [_ Hbu].
    fold c0 in Hbu. rewrite Hbu, Z.leb_refl. fold c1.
    unfold to_write_mode, epoll_ctl. rewrite Hep. done. }
  rewrite Hs1.
  assert (Hc1 : connections
                  (set_epoll_set (<[fd c := Z.lor EPOLLOUT EPOLLET]> (epoll_set s))
                     (update_connection i c1 s)) !! i = Some c1).
  { by apply (lookup_update i c). }
  split; [done|]. do 3 (split; [done|]).
  split; [apply lookup_insert_eq|]. split; [done|].
  intros ks Hks. cbv zeta.
  assert (Hp : pending c1 response_413).
  { apply pending_error_response; [|done].
    apply (bool_decide_unpack _). by vm_compute. }
  destruct (drain h i response_413 ks _ c1 Hc1 Hp Hfd) as [Hw Hrel].
  { by rewrite Z.sub_0_r. }
  split; [exact Hw|]. by apply Hrel.
Qed.

Lemma C3_request_too_large_witness :
  let s1 := client_event Demo.no_files (Demo.reads Demo.flood) 0 EPOLLIN
              Demo.accepted in
  let s2 := run Demo.no_files (write_events 0 [Demo.takes 60; Demo.takes 40]) s1 in
  wire 5 (trace s2) = response_413 /\ last (trace s2) = Some (sys_close 5).
Proof.
  destruct (C3_request_too_large Demo.no_files (Demo.reads Demo.flood) 0
              EPOLLIN Demo.accepted Demo.accepted_conn Demo.flood)
    as (_ & _ & _ & _ & _ & _ & H).
  - evaluate.
  - evaluate.
  - split; evaluate.
  - evaluate.
  - evaluate.
  - evaluate.
  - evaluate.
  - evaluate.
  - evaluate.
  - evaluate.
  - evaluate.
  - apply not_found_find_sub. evaluate.
  - destruct (H [Demo.takes 60; Demo.takes 40]) as (Hw & _ & Hl); [evaluate|].
    split; [exact Hw|exact Hl].
Defined.

(** C8. Evaluation of two runs of the loop.  In the first, a client is
    answered and its slot released; the next client gets the same slot and
    sends the single byte G: the bytes accumulated for it hold no CR LF
    CR LF, yet the loop takes the request as complete, because of the
    bytes the earlier occupant left behind, and prepares a 501 response.
    In the second, a connection is kept alive after its first request and
    then sends the six bytes [GET /x]: again the accumulated bytes hold no
    terminator, yet the request is taken as complete, because of the bytes
    of the previous request, and a 404 response is prepared. *)
Theorem C8_stale_terminator :
  let s1 := client_event Demo.no_files (Demo.reads (lit "G")) 0 EPOLLIN
              Demo.reused in
  let s2 := client_event Demo.site (Demo.reads Demo.get_partial) 0 EPOLLIN
              Demo.kept in
  ((fun c => (fd c, buffer_used c, response c)) <$> connections Demo.reused !! 0%nat
   = Some (6, 0, None) /\
   accumulated <$> connections s1 !! 0%nat = Some (lit "G") /\
   ~ occurs (crlf ++ crlf) (lit "G") /\
   response <$> connections s1 !! 0%nat = Some (Some response_501)) /\
  ((fun c => (fd c, buffer_used c, response c)) <$> connections Demo.kept !! 0%nat
   = Some (5, 0, None) /\
   accumulated <$> connections s2 !! 0%nat = Some Demo.get_partial /\
   ~ occurs (crlf ++ crlf) Demo.get_partial /\
   response <$> connections s2 !! 0%nat = Some (Some response_404)).
Proof.
  cbv zeta. split; (split; [evaluate|]); (split; [evaluate|]);
    (split; [apply not_found_find_sub; evaluate|evaluate]).
Qed.

(** ** The parser *)

Section Parser.

Lemma code_inj (a b : ascii) : code a = code b -> a = b.
Proof.
  unfold code. intros H. apply N2Z.inj in H.
  rewrite <- (ascii_N_embedding a), <- (ascii_N_embedding b). by rewrite H.
Qed.

Lemma strncmp_S (s1 s2 : list ascii) (n : nat) :
  strncmp s1 s2 (S n) = 0 ->
  hd NUL s1 = hd NUL s2 /\
  (hd NUL s1 <> NUL -> strncmp (tl s1) (tl s2) n = 0).
Proof.
  simpl. destruct (Ascii.eqb_spec (hd NUL s1) (hd NUL s2)) as [E|E]; simpl.
  - split; [done|]. intros Hn.
    destruct (Ascii.eqb_spec (hd NUL s1) NUL); done.
  - intros H. exfalso. apply E, code_inj. lia.
Qed.

(** The method test passes only on a buffer that begins with [GET] and a
    space. *)
Lemma strncmp_GET_inv (b : list ascii) :
  strncmp b (lit "GET ") 4 = 0 -> exists rest, b = lit "GET " ++ rest.
Proof.
  intros H.
  destruct b as [|c1 b]; [by apply strncmp_S in H as [? _]|].
  apply strncmp_S in H as [E1 H]. simpl in E1. subst c1.
  specialize (H ltac:(done)). simpl tl in H.
  destruct b as [|c2 b]; [by apply strncmp_S in H as [? _]|].
  apply strncmp_S in H as [E2 H]. simpl in E2. subst c2.
  specialize (H ltac:(done)). simpl tl in H.
  destruct b as [|c3 b]; [by apply strncmp_S in H as [? _]|].
  apply strncmp_S in H as [E3 H]. simpl in E3. subst c3.
  specialize (H ltac:(done)). simpl tl in H.
  destruct b as [|c4 b]; [by apply strncmp_S in H as [? _]|].
  apply strncmp_S in H as [E4 _]. simpl in E4. subst c4.
  by exists b.
Qed.

Lemma strncmp_GET (rest : list ascii) : strncmp (lit "GET " ++ rest) (lit "GET ") 4 = 0.
Proof. reflexivity. Qed.

(** After the terminating NUL is stored, the string functions see the
    accumulated bytes up to their first NUL. *)
Lemma c_str_app_cut (l r : list ascii) : c_str (l ++ NUL :: r) = c_str l.
Proof.
  induction l as [|c l IH]; [done|]. simpl.
  destruct (Ascii.eqb c NUL); [done|]. by rewrite IH.
Qed.

Lemma terminated_buffer (c : connection_t) :
  0 <= buffer_used c < Z.of_nat (length (buffer c)) ->
  <[Z.to_nat (buffer_used c) := NUL]> (buffer c)
  = accumulated c ++ NUL :: drop (S (Z.to_nat (buffer_used c))) (buffer c).
Proof. intros H. unfold accumulated. apply insert_take_drop. lia. Qed.

Lemma method_token_GET (rest : list ascii) :
  method_token (lit "GET " ++ rest) = lit "GET".
Proof. reflexivity. Qed.

(** A request whose method is not GET fails the method test. *)
Lemma method_test_fails (c : connection_t) :
  0 <= buffer_used c < Z.of_nat (length (buffer c)) ->
  method_token (accumulated c) <> lit "GET" ->
  strncmp (<[Z.to_nat (buffer_used c) := NUL]> (buffer c)) (lit "GET ") 4 <> 0.
Proof.
  intros Hu Hm H0. apply Hm.
  rewrite (terminated_buffer c Hu) in H0.
  apply strncmp_GET_inv in H0 as [rest E].
  destruct (accumulated c) as [|a1 [|a2 [|a3 [|a4 acc]]]]; simpl in E;
    try (by injection E); try discriminate.
  injection E as -> -> -> -> _. reflexivity.
Qed.

End Parser.

(** C4. A request whose method, the bytes before the first space, is not
    GET is rejected by the method test: the connection gets the literal
    501 response, whose body is "Only GET requests supported", with
    [keep_alive] cleared, whatever else the request holds (a keep-alive
    marker included).  Every run of write events that delivers the
    response puts exactly that response on the wire, after which the slot
    is released and the descriptor closed. *)
Theorem C4_unsupported_method (h : host) (c : connection_t) :
  0 <= buffer_used c < Z.of_nat (length (buffer c)) ->
  method_token (accumulated c) <> lit "GET" ->
  let c' := process_http_request h c in
  parse_request c = Rejected c' /\
  response c' = Some response_501 /\
  Wire.status_line response_501 = lit "HTTP/1.1 501 Not Implemented" /\
  Wire.body response_501 = Some (lit "Only GET requests supported") /\
  keep_alive c' = 0 /\ response_sent c' = 0 /\ fd c' = fd c /\
  (forall (i : nat) (s : server_t) (ks : list kernel),
      connections s !! i = Some c' -> 0 <= fd c ->
      completes ks (response_size c') = true ->
      let s2 := run h (write_events i ks) s in
      wire (fd c) (trace s2) = wire (fd c) (trace s) ++ response_501 /\
      connections s2 !! i = Some (release_slot c') /\
      last (trace s2) = Some (sys_close (fd c))).
Proof.
  intros Hu Hm. cbv zeta.
  pose proof (method_test_fails c Hu Hm) as Ht.
  assert (Hp : parse_request c
               = Rejected (error_response response_501
                   (set_buffer (<[Z.to_nat (buffer_used c) := NUL]> (buffer c)) c))).
  { unfold parse_request. cbv zeta. cbn [buffer set_buffer].
    destruct (Z.eqb_spec
                (strncmp (<[Z.to_nat (buffer_used c) := NUL]> (buffer c))
                   (lit "GET ") 4) 0); [done|]. reflexivity. }
  unfold process_http_request. rewrite Hp.
  split; [done|]. do 6 (split; [done|]).
  intros i s ks Hc Hfd Hks. cbv zeta.
  set (c' := error_response response_501 _) in *.
  assert (Hpe : pending c' response_501).
  { apply pending_error_response; [|done].
    apply (bool_decide_unpack _). by vm_compute. }
  destruct (drain h i response_501 ks s c' Hc Hpe Hfd) as [Hw Hrel].
  { by rewrite Z.sub_0_r. }
  split; [exact Hw|]. by apply Hrel.
Qed.

Lemma C4_unsupported_method_witness :
  found (strstr Demo.post_request keep_alive_marker) = true /\
  response (process_http_request Demo.no_files Demo.asking_post)
  = Some response_501 /\
  keep_alive (process_http_request Demo.no_files Demo.asking_post) = 0.
Proof.
  split; [evaluate|].
  destruct (C4_unsupported_method Demo.no_files Demo.asking_post)
    as (_ & Hr & _ & _ & Hk & _).
  - split; evaluate.
  - evaluate.
  - split; [exact Hr|exact Hk].
Defined.

Lemma build_response_keep_alive (h : host) (c : connection_t) (path : list ascii) :
  keep_alive (build_response h c path) = 0 \/
  keep_alive (build_response h c path) = keep_alive c.
Proof.
  unfold build_response.
  destruct (host_open h _) as [f|]; [|by left]. cbv zeta.
  destruct (host_malloc h _); cbn [negb]; [|by left].
  destruct (_ =? st_size f); cbn [negb]; [by right|by left].
Qed.

Lemma build_response_served (h : host) (c : connection_t) (path : list ascii)
    (f : file_t) (data : list ascii) :
  host_open h (snprintf BUFFER_SIZE (WEB_ROOT ++ path)) = Some f ->
  (forall n, host_malloc h n = true) ->
  read_data f = Some data -> Z.of_nat (length data) = st_size f ->
  keep_alive (build_response h c path) = keep_alive c.
Proof.
  intros Ho Hm Hr Hl. unfold build_response. rewrite Ho. cbv zeta.
  rewrite Hm, Hr. cbn [negb]. rewrite Hl, Z.eqb_refl. reflexivity.
Qed.

(** C7. For a request that passes the method test (it begins with [GET]
    and a space), the parser sets [keep_alive] to 1 exactly when the
    accumulated request text holds the marker "Connection: keep-alive",
    and to 0 otherwise.  Without the marker the response is always
    prepared with [keep_alive] clear, so the connection is closed after
    it; [keep_alive] is never set after the response is prepared unless the
    marker is there; and for a file that is opened and read in full the
    flag is the one the parser set. *)
Theorem C7_keep_alive_marker (h : host) (c : connection_t) (rest : list ascii) :
  0 <= buffer_used c < Z.of_nat (length (buffer c)) ->
  accumulated c = lit "GET " ++ rest ->
  exists (c1 : connection_t) (path : list ascii),
    parse_request c = Parsed c1 path /\
    (keep_alive c1 = 1 <-> occurs keep_alive_marker (c_str (accumulated c))) /\
    (keep_alive c1 = 0 <-> ~ occurs keep_alive_marker (c_str (accumulated c))) /\
    (~ occurs keep_alive_marker (c_str (accumulated c)) ->
     keep_alive (process_http_request h c) = 0) /\
    (keep_alive (process_http_request h c) <> 0 ->
     occurs keep_alive_marker (c_str (accumulated c))) /\
    (forall (f : file_t) (data : list ascii),
        host_open h (snprintf BUFFER_SIZE (WEB_ROOT ++ path)) = Some f ->
        (forall n, host_malloc h n = true) ->
        read_data f = Some data -> Z.of_nat (length data) = st_size f ->
        keep_alive (process_http_request h c) = keep_alive c1).
Proof.
  intros Hu Hget.
  pose proof (terminated_buffer c Hu) as Hb.
  set (b := <[Z.to_nat (buffer_used c) := NUL]> (buffer c)) in *.
  assert (Ht : strncmp b (lit "GET ") 4 = 0).
  { rewrite Hb, Hget, <- app_assoc. apply strncmp_GET. }
  assert (Hs : found (strstr b keep_alive_marker) = true
               <-> occurs keep_alive_marker (c_str (accumulated c))).
  { unfold strstr. rewrite Hb, c_str_app_cut. apply found_find_sub. }
  set (ka := if found (strstr b keep_alive_marker) then 1 else 0).
  set (c1 := set_keep_alive ka (set_buffer b c)).
  set (path := if strcmp (sscanf_GET b) (lit "/") =? 0
               then lit "/index.html" else sscanf_GET b).
  assert (Hp : parse_request c = Parsed c1 path).
  { unfold parse_request. cbv zeta. cbn [buffer set_buffer]. fold b.
    rewrite Ht. reflexivity. }
  assert (Hka1 : keep_alive c1 = 1
                 <-> occurs keep_alive_marker (c_str (accumulated c))).
  { rewrite <- Hs. simpl. unfold ka.
    destruct (found (strstr b keep_alive_marker)); split; done. }
  assert (Hka0 : keep_alive c1 = 0
                 <-> ~ occurs keep_alive_marker (c_str (accumulated c))).
  { rewrite <- Hs. simpl. unfold ka.
    destruct (found (strstr b keep_alive_marker)); split; done. }
  assert (Hproc : process_http_request h c = build_response h c1 path).
  { unfold process_http_request. by rewrite Hp. }
  exists c1, path. split; [done|]. split; [done|]. split; [done|].
  split; [|split].
  - intros Hno. rewrite Hproc.
    destruct (build_response_keep_alive h c1 path) as [E|E]; [done|].
    rewrite E. by apply Hka0.
  - intros Hne. rewrite Hproc in Hne.
    destruct (build_response_keep_alive h c1 path) as [E|E]; [done|].
    rewrite E in Hne. apply Hka1.
    simpl in *. unfold ka in *.
    by destruct (found (strstr b keep_alive_marker)).
  - intros f data Ho Hm Hr Hl. rewrite Hproc.
    by apply (build_response_served h c1 path f data).
Qed.

Lemma C7_keep_alive_marker_witness :
  exists (c1 : connection_t) (path : list ascii),
    parse_request Demo.asking_root = Parsed c1 path /\ keep_alive c1 = 1.
Proof.
  destruct (C7_keep_alive_marker Demo.site Demo.asking_root
              (drop 4 Demo.get_root_keep))
    as (c1 & path & Hp & Hka & _).
  - split; evaluate.
  - evaluate.
  - exists c1, path. split; [exact Hp|].
    apply Hka. apply found_find_sub. evaluate.
Defined.

(** ** Content types *)

(** C9. Evaluation of the content type on two paths.  For [/data.json]
    the program answers application/javascript, while the suffix [json]
    is not in the table and the table gives application/octet-stream; for
    [/notes.html.txt] the program answers text/html, while the table gives
    text/plain for the suffix [txt].  The response to a GET request for
    the existing file [/data.json] carries the first of these labels. *)
Theorem C9_content_type_by_substring :
  (content_type (lit "/data.json") = lit "application/javascript" /\
   SuffixTable.spec_content_type (lit "/data.json")
   = lit "application/octet-stream") /\
  (content_type (lit "/notes.html.txt") = lit "text/html" /\
   SuffixTable.spec_content_type (lit "/notes.html.txt") = lit "text/plain") /\
  (let s := run Demo.site
              [ev_accept Demo.quiet 5;
               ev_client (Demo.reads Demo.get_json) 0 EPOLLIN] init_server in
   (fun c => Wire.field_text (lit "Content-Type: ") (default [] (response c)))
     <$> connections s !! 0%nat
   = Some (Some (lit "application/javascript"))).
Proof. repeat split; vm_compute; reflexivity. Qed.

(** ** An invariant of the buffers *)

Section Invariant.

Context (h : host).

Lemma init_connections_ok : Forall slot_ok init_connections.
Proof.
  apply Forall_replicate. split; [split|]; [evaluate|evaluate|].
  split; evaluate.
Qed.

(** A slot whose buffer was left alone and whose fill level was kept or
    reset. *)
Lemma slot_ok_kept (c c' : connection_t) :
  buffer c' = buffer c ->
  buffer_used c' = buffer_used c \/ buffer_used c' = 0 ->
  slot_ok c -> slot_ok c'.
Proof.
  intros Hb Hu [[Hl Hn] Hr]. unfold slot_ok, buffer_ok. rewrite Hb.
  split; [done|]. destruct Hu as [->| ->]; [done|]. unfold BUFFER_SIZE. lia.
Qed.

Lemma update_ok (i : nat) (c : connection_t) (s : server_t) :
  Forall slot_ok (connections s) -> slot_ok c ->
  Forall slot_ok (connections (update_connection i c s)).
Proof. intros Hs Hc. simpl. by apply Forall_insert. Qed.

Lemma remove_ok (conn : option nat) (s : server_t) :
  Forall slot_ok (connections s) ->
  Forall slot_ok (connections (remove_connection conn s)).
Proof.
  intros Hs. destruct conn as [i|]; [|done]. unfold remove_connection.
  destruct (connections s !! i) as [c|] eqn:Hc; [|done].
  assert (Hok : slot_ok (release_slot c)).
  { apply (slot_ok_kept c); [done|by right|].
    by apply (Forall_lookup_1 _ _ _ _ Hs Hc). }
  destruct (0 <=? fd c); simpl; by apply Forall_insert.
Qed.

Lemma drop_ok (i : nat) (s : server_t) :
  Forall slot_ok (connections s) ->
  Forall slot_ok (connections (drop_connection i s)).
Proof. intros Hs. by apply (remove_ok (Some i)). Qed.

Lemma to_write_mode_ok (k : kernel) (i : nat) (c : connection_t) (s : server_t) :
  Forall slot_ok (connections s) ->
  Forall slot_ok (connections (to_write_mode k i c s).1).
Proof.
  intros Hs. unfold to_write_mode, epoll_ctl.
  destruct (k_epoll_ctl k); [done|]. by apply drop_ok.
Qed.

Lemma send_response_ok (k : kernel) (conn : option nat) (s : server_t) :
  Forall slot_ok (connections s) ->
  Forall slot_ok (connections (send_response k conn s).2).
Proof.
  intros Hs. unfold send_response.
  destruct conn as [i|]; [|done].
  destruct (connections s !! i) as [c|] eqn:Hc; [|done].
  pose proof (Forall_lookup_1 _ _ _ _ Hs Hc) as Hok.
  destruct (response c) as [r|]; [|done]. cbv zeta.
  destruct (send_ret (k_send k) <? 0).
  { by destruct (send_again (k_send k)). }
  destruct (_ <=? _); [|by apply update_ok, (slot_ok_kept c); auto].
  destruct (negb _).
  - unfold epoll_ctl.
    destruct (k_epoll_ctl k); apply update_ok, (slot_ok_kept c); auto.
  - apply update_ok, (slot_ok_kept c); auto.
Qed.

Lemma build_response_buffer (c : connection_t) (path : list ascii) :
  buffer (build_response h c path) = buffer c /\
  buffer_used (build_response h c path) = buffer_used c.
Proof.
  unfold build_response.
  destruct (host_open h _) as [f|]; [|done]. cbv zeta.
  destruct (negb (host_malloc h _)); [done|].
  by destruct (negb (_ =? st_size f)).
Qed.

Lemma process_http_request_buffer (c : connection_t) :
  buffer (process_http_request h c)
  = <[Z.to_nat (buffer_used c) := NUL]> (buffer c) /\
  buffer_used (process_http_request h c) = buffer_used c.
Proof.
  unfold process_http_request, parse_request. cbv zeta.
  destruct (negb _); [done|].
  destruct (build_response_buffer
              (set_keep_alive
                 (if found (strstr
                      (buffer (set_buffer
                         (<[Z.to_nat (buffer_used c) := NUL]> (buffer c)) c))
                      (lit "Connection: keep-alive")) then 1 else 0)
                 (set_buffer (<[Z.to_nat (buffer_used c) := NUL]> (buffer c)) c))
              (if strcmp (sscanf_GET
                     (buffer (set_buffer
                        (<[Z.to_nat (buffer_used c) := NUL]> (buffer c)) c)))
                     (lit "/") =? 0
               then lit "/index.html"
               else sscanf_GET
                     (buffer (set_buffer
                        (<[Z.to_nat (buffer_used c) := NUL]> (buffer c)) c))))
    as [-> ->].
  done.
Qed.

(** Storing the terminating NUL keeps the last byte zero. *)
Lemma terminate_ok (c : connection_t) :
  slot_ok c -> slot_ok (process_http_request h c).
Proof.
  intros [[Hl Hn] Hu]. destruct (process_http_request_buffer c) as [Hb Hbu].
  unfold slot_ok, buffer_ok. rewrite Hb, Hbu, length_insert.
  split; [split; [done|]|done].
  apply last_Some in Hn as [l Hlast]. rewrite Hlast in *.
  rewrite length_app in Hl. simpl in Hl.
  destruct (decide (Z.to_nat (buffer_used c) < length l)%nat) as [Hlt|Hge].
  - rewrite insert_app_l by done. by rewrite last_snoc.
  - rewrite insert_app_r_alt by lia.
    replace (Z.to_nat (buffer_used c) - length l)%nat with 0%nat
      by (unfold BUFFER_SIZE in *; lia).
    simpl. by rewrite last_snoc.
Qed.

Lemma store_received_ok (d : list ascii) (c : connection_t) :
  slot_ok c ->
  Z.of_nat (length d) <= BUFFER_SIZE - buffer_used c - 1 ->
  slot_ok (store_received d c).
Proof.
  intros [[Hl Hn] Hu] Hd. unfold slot_ok, buffer_ok, store_received. simpl.
  apply last_Some in Hn as [l Hlast]. rewrite Hlast in *.
  rewrite length_app in Hl. simpl in Hl.
  assert (Hfit : (Z.to_nat (buffer_used c) + length d <= length l)%nat)
    by (unfold BUFFER_SIZE in *; lia).
  unfold write_at. rewrite drop_app_le by done.
  rewrite size_t_small by (unfold BUFFER_SIZE in *; lia).
  split; [split|unfold BUFFER_SIZE in *; lia].
  - rewrite !length_app, length_take, length_drop, length_app.
    cbn [length]. rewrite <- Hl. lia.
  - by rewrite !app_assoc, last_snoc.
Qed.

Lemma on_readable_ok (k : kernel) (i : nat) (c : connection_t) (s : server_t) :
  Forall slot_ok (connections s) -> connections s !! i = Some c ->
  event_ok s (ev_client k i 0) ->
  Forall slot_ok (connections (on_readable h k i c s).1).
Proof.
  intros Hs Hc He. pose proof (Forall_lookup_1 _ _ _ _ Hs Hc) as Hok.
  unfold on_readable. destruct (response c); [done|].
  destruct (k_recv k) as [d| |] eqn:Hk; [|done|by apply drop_ok].
  destruct (_ =? 0); [by apply drop_ok|].
  pose proof (store_received_ok d c Hok (He c d Hc Hk)) as Hst.
  destruct (found _).
  - apply to_write_mode_ok, update_ok; [done|]. by apply terminate_ok.
  - destruct (_ <=? _).
    + apply to_write_mode_ok, update_ok; [done|].
      by apply (slot_ok_kept (store_received d c)); auto.
    + by apply update_ok.
Qed.

(** Every step of the loop keeps every slot of the pool in order. *)
Lemma step_ok (s : server_t) (e : event) :
  Forall slot_ok (connections s) -> event_ok s e ->
  Forall slot_ok (connections (step h s e)).
Proof.
  intros Hs He. destruct e as [k d|k i events]; simpl.
  - unfold accept_one. destruct (negb (k_nonblocking k)); [done|].
    unfold add_connection.
    destruct (find_unused 0 (connections s)) as [i|] eqn:Hf; [|done].
    assert (Hs' : Forall slot_ok (alter (claim_slot d) i (connections s))).
    { apply Forall_alter; [done|]. intros c _ Hc.
      by apply (slot_ok_kept c); auto. }
    unfold epoll_ctl. destruct (k_epoll_ctl k); [done|].
    by apply (remove_ok (Some i)).
  - unfold client_event.
    destruct (connections s !! i) as [c|] eqn:Hc; [|done].
    destruct (negb (Z.land events EPOLLIN =? 0)).
    + pose proof (on_readable_ok k i c s Hs Hc He) as Hr.
      destruct (on_readable h k i c s) as [s1 []]; simpl in Hr; [done|].
      destruct (negb _); [by apply drop_ok|done].
    + destruct (negb (Z.land events EPOLLOUT =? 0)).
      * pose proof (send_response_ok k (Some i) s Hs) as Hw.
        destruct (send_response k (Some i) s) as [ret s1]. simpl in Hw.
        assert (Forall slot_ok
                  (connections (if ret <? 0 then drop_connection i s1 else s1))).
        { destruct (ret <? 0); [by apply drop_ok|done]. }
        destruct (negb _); [by apply drop_ok|done].
      * destruct (negb _); [by apply drop_ok|done].
Qed.

End Invariant.

Lemma run_ok (h : host) (es : list event) :
  forall s : server_t,
    Forall slot_ok (connections s) -> events_ok h s es ->
    Forall slot_ok (connections (run h es s)).
Proof.
  induction es as [|e es IH]; intros s Hs He; [done|].
  destruct He as [He Hes].
  change (run h (e :: es) s) with (run h es (step h s e)).
  apply IH; [|done]. by apply step_ok.
Qed.

(** * Further properties of the program *)

(** ** Allocation and release of slots *)

Section PoolMore.

Lemma alter_as_insert (f : connection_t -> connection_t)
    (pool : list connection_t) (i : nat) (c : connection_t) :
  pool !! i = Some c -> alter f i pool = <[i := f c]> pool.
Proof.
  intros H. apply list_eq. intros j.
  destruct (decide (i = j)) as [<-|Hne].
  - rewrite list_lookup_alter_eq, H.
    by rewrite list_lookup_insert_eq by (by apply lookup_lt_Some in H).
  - by rewrite list_lookup_alter_ne, list_lookup_insert_ne.
Qed.

Lemma find_unused_first (pool : list connection_t) (i j : nat) :
  find_unused i pool = Some j ->
  forall (n : nat) (c : connection_t),
    (n < j - i)%nat -> pool !! n = Some c -> 0 <= fd c.
Proof.
  revert i. induction pool as [|c0 pool IH]; intros i; simpl; [done|].
  destruct (Z.ltb_spec (fd c0) 0) as [Hc|Hc].
  - intros [= <-] n c Hn. lia.
  - intros Hj n c Hn Hl. destruct n as [|n]; simpl in Hl.
    + by injection Hl as <-.
    + apply (IH _ Hj n c); [|done].
      apply find_unused_some in Hj as (? & _ & _ & Hle). lia.
Qed.

Lemma find_unused_full (pool : list connection_t) (i : nat) :
  find_unused i pool = None -> Forall (fun c => 0 <= fd c) pool.
Proof.
  revert i. induction pool as [|c pool IH]; intros i; simpl; [done|].
  destruct (Z.ltb_spec (fd c) 0) as [|Hge]; [done|].
  intros Hn. constructor; [done|by apply (IH (S i))].
Qed.

(** What [add_connection] leaves of the state when it finds a slot. *)
Lemma pool_after_add (d : Z) (s : server_t) (i : nat) (s1 : server_t) :
  add_connection d s = (Some i, s1) ->
  fd <$> connections s1 !! i = Some d /\
  (epoll_set s1 = epoll_set s /\ trace s1 = trace s /\
   connection_count s1 = connection_count s).
Proof.
  unfold add_connection.
  destruct (find_unused 0 (connections s)) as [j|] eqn:Hf; [|done].
  intros [= <- <-].
  destruct (find_unused_some _ _ _ Hf) as (c & Hc & _).
  rewrite Nat.sub_0_r in Hc. split; [|done].
  cbn [connections set_connections]. by rewrite list_lookup_alter_eq, Hc.
Qed.

End PoolMore.

(** X1. [add_connection] returns NULL exactly when no slot is unused, and
    then changes nothing.  Otherwise it returns the unused slot of lowest
    index, stores the descriptor there with zeroed cursors, no response
    and the keep-alive flag clear, keeps the bytes of the slot's buffer,
    and leaves every other slot and the rest of the server state alone. *)
Theorem X1_add_connection (d : Z) (s : server_t) :
  match add_connection d s with
  | (None, s') =>
      s' = s /\ Forall (fun c => 0 <= fd c) (connections s)
  | (Some i, s') =>
      exists c,
        connections s !! i = Some c /\ fd c < 0 /\
        (forall n c', (n < i)%nat -> connections s !! n = Some c' -> 0 <= fd c') /\
        connections s' !! i
        = Some (Connection d (buffer c) 0 0 None 0 0) /\
        (forall n, n <> i -> connections s' !! n = connections s !! n) /\
        length (connections s') = length (connections s) /\
        epoll_set s' = epoll_set s /\ trace s' = trace s /\
        connection_count s' = connection_count s
  end.
Proof.
  unfold add_connection.
  destruct (find_unused 0 (connections s)) as [i|] eqn:Hf.
  - destruct (find_unused_some _ _ _ Hf) as (c & Hc & Hfd & _).
    rewrite Nat.sub_0_r in Hc. exists c.
    split; [done|]. split; [done|]. split.
    { intros n c' Hn. apply (find_unused_first _ _ _ Hf). lia. }
    split.
    { simpl. rewrite list_lookup_alter_eq, Hc. reflexivity. }
    split.
    { intros n Hn. simpl. by rewrite list_lookup_alter_ne. }
    split; [apply length_alter|done].
  - split; [done|]. by apply (find_unused_full _ 0).
Qed.

(** A slot allocated and released at once. *)
Lemma add_remove_pool (d : Z) (s : server_t) (i : nat) (s1 : server_t) :
  0 <= d ->
  add_connection d s = (Some i, s1) ->
  let s2 := remove_connection (Some i) s1 in
  exists c,
    connections s !! i = Some c /\
    connections s2 = <[i := release_slot c]> (connections s) /\
    occupied (connections s1) = S (occupied (connections s)) /\
    occupied (connections s2) = occupied (connections s) /\
    trace s2 = trace s ++ [sys_close d] /\
    epoll_set s2 = delete d (epoll_set s) /\
    connection_count s2 = connection_count s /\
    (release_slot c = c -> connections s2 = connections s).
Proof.
  intros Hd Ha. cbv zeta. unfold add_connection in Ha.
  destruct (find_unused 0 (connections s)) as [j|] eqn:Hf; [|done].
  injection Ha as <- <-.
  destruct (find_unused_some _ _ _ Hf) as (c & Hc & Hfd & _).
  rewrite Nat.sub_0_r in Hc. exists c. split; [done|].
  assert (Hc1 : alter (claim_slot d) j (connections s) !! j
                = Some (claim_slot d c)).
  { by rewrite list_lookup_alter_eq, Hc. }
  assert (Ho1 : occupied (alter (claim_slot d) j (connections s))
                = S (occupied (connections s))).
  { rewrite (alter_as_insert _ _ _ _ Hc).
    pose proof (occupied_insert _ j c (claim_slot d c) Hc) as Ho.
    rewrite !occupied_one in Ho. cbn [fd claim_slot set_fd set_buffer_used
      set_response set_response_size set_response_sent set_keep_alive] in Ho.
    destruct (Z.leb_spec 0 (fd c)); [lia|].
    destruct (Z.leb_spec 0 d); lia. }
  unfold remove_connection. cbn [connections set_connections].
  rewrite Hc1. cbn [fd claim_slot set_fd set_buffer_used set_response
    set_response_size set_response_sent set_keep_alive].
  destruct (Z.leb_spec 0 d); [|lia].
  cbn [connections set_connections close log set_epoll_set trace].
  rewrite (alter_as_insert _ _ _ _ Hc), list_insert_insert_eq.
  split; [done|]. split; [by rewrite <- (alter_as_insert _ _ _ _ Hc)|].
  split.
  { pose proof (occupied_insert _ j c (release_slot c) Hc) as Ho.
    rewrite !occupied_one in Ho. cbn [fd release_slot set_fd set_buffer_used
      set_response set_response_size set_response_sent set_keep_alive] in Ho.
    destruct (Z.leb_spec 0 (fd c)); [lia|].
    change (0 <=? -1) with false in Ho. cbv iota in Ho.
    change (release_slot (claim_slot d c)) with (release_slot c). lia. }
  split; [done|]. split; [done|]. split; [done|].
  intros Hrel. change (release_slot (claim_slot d c)) with (release_slot c).
  rewrite Hrel. by apply list_insert_id.
Qed.

(** X2. Allocating a slot for a descriptor and releasing it at once gives
    the pool back: the slot is unused again, with the bytes of its buffer
    as they were, the number of slots in use is as before, and the
    descriptor, and nothing else, was closed.  When the slot was in the
    state a release leaves, the pool is exactly the one before. *)
Theorem X2_add_then_remove (d : Z) (s : server_t) (i : nat) (s1 : server_t) :
  0 <= d ->
  add_connection d s = (Some i, s1) ->
  let s2 := remove_connection (Some i) s1 in
  exists c,
    connections s !! i = Some c /\
    connections s2 = <[i := release_slot c]> (connections s) /\
    occupied (connections s1) = S (occupied (connections s)) /\
    occupied (connections s2) = occupied (connections s) /\
    trace s2 = trace s ++ [sys_close d] /\
    (release_slot c = c -> connections s2 = connections s).
Proof.
  intros Hd Ha.
  destruct (add_remove_pool d s i s1 Hd Ha) as (c & H1 & H2 & H3 & H4 & H5 & _ & _ & H6).
  by exists c.
Qed.

Lemma X2_add_then_remove_witness :
  occupied (connections
              (remove_connection (Some 0%nat) (add_connection 5 init_server).2))
  = occupied (connections init_server).
Proof.
  destruct (X2_add_then_remove 5 init_server 0 (add_connection 5 init_server).2)
    as (c & _ & _ & _ & H & _); [lia|reflexivity|exact H].
Defined.

(** X3. What one round of the accept loop does with a descriptor when a
    slot is unused.  If the descriptor cannot be made non-blocking it is
    closed and the pool is not touched.  Otherwise it takes the slot; when
    [epoll_ctl] registers it, it is watched for edge-triggered read
    events, the connection counter goes up by one, and nothing is sent or
    closed; when [epoll_ctl] fails, the slot is released again, the
    descriptor closed, and counter and number of slots in use are as
    before. *)
Theorem X3_accept_one (k : kernel) (d : Z) (s : server_t) (i : nat)
    (s1 : server_t) :
  0 <= d ->
  add_connection d s = (Some i, s1) ->
  let s' := accept_one k d s in
  (k_nonblocking k = false ->
   connections s' = connections s /\ trace s' = trace s ++ [sys_close d] /\
   connection_count s' = connection_count s) /\
  (k_nonblocking k = true -> k_epoll_ctl k = true ->
   connections s' = connections s1 /\
   fd <$> connections s' !! i = Some d /\
   occupied (connections s') = S (occupied (connections s)) /\
   epoll_set s' !! d = Some (Z.lor EPOLLIN EPOLLET) /\
   connection_count s' = connection_count s + 1 /\
   trace s' = trace s) /\
  (k_nonblocking k = true -> k_epoll_ctl k = false ->
   fd <$> connections s' !! i = Some (-1) /\
   occupied (connections s') = occupied (connections s) /\
   epoll_set s' !! d = None /\
   connection_count s' = connection_count s /\
   trace s' = trace s ++ [sys_close d]).
Proof.
  intros Hd Ha. cbv zeta.
  destruct (add_remove_pool d s i s1 Hd Ha)
    as (c & Hc & Hp2 & Ho1 & Ho2 & Ht2 & He2 & Hn2 & _).
  pose proof (pool_after_add d s i s1 Ha) as (Hi & Hs1e & Hs1t & Hs1n).
  unfold accept_one. split; [|split].
  - intros ->. done.
  - intros -> Hep. cbn [negb]. rewrite Ha. unfold epoll_ctl. rewrite Hep.
    cbn [connections set_connection_count set_epoll_set epoll_set trace
         connection_count].
    split; [done|]. split; [by rewrite Hi|]. split; [done|].
    split; [apply lookup_insert_eq|]. by rewrite Hs1n, Hs1t.
  - intros -> Hep. cbn [negb]. rewrite Ha. unfold epoll_ctl. rewrite Hep.
    split.
    { rewrite Hp2. rewrite list_lookup_insert_eq by (by apply lookup_lt_Some in Hc).
      done. }
    split; [done|]. split; [rewrite He2; apply lookup_delete_eq|done].
Qed.

Lemma X3_accept_one_witness :
  connection_count (accept_one Demo.quiet 5 init_server) = 1 /\
  epoll_set (accept_one Demo.quiet 5 init_server) !! 5
  = Some (Z.lor EPOLLIN EPOLLET).
Proof.
  destruct (X3_accept_one Demo.quiet 5 init_server 0
              (add_connection 5 init_server).2) as (_ & H & _);
    [lia|reflexivity|].
  destruct H as (_ & _ & _ & He & Hn & _); [reflexivity|reflexivity|].
  split; [exact Hn|exact He].
Defined.

(** ** Descriptors are neither leaked nor closed twice *)

Section Descriptors.

Context (h : host).

Lemma live_middle (l1 l2 : list connection_t) (c : connection_t) :
  live (l1 ++ c :: l2) = live l1 ++ live [c] ++ live l2.
Proof.
  unfold live. rewrite fmap_app, fmap_cons, filter_app.
  change (fd c :: (fd <$> l2)) with ([fd c] ++ (fd <$> l2)).
  by rewrite filter_app.
Qed.

Lemma live_one (c : connection_t) :
  live [c] = if 0 <=? fd c then [fd c] else [].
Proof.
  unfold live. simpl. rewrite filter_cons, filter_nil.
  destruct (Z.leb_spec 0 (fd c)); [by rewrite decide_True|by rewrite decide_False by lia].
Qed.

(** A write to a slot that keeps its descriptor keeps the live
    descriptors. *)
Lemma live_update (i : nat) (c c' : connection_t) (s : server_t) :
  connections s !! i = Some c -> fd c' = fd c ->
  live (connections (update_connection i c' s)) = live (connections s).
Proof.
  intros Hc Hfd. simpl. unfold live. f_equal.
  rewrite list_fmap_insert, Hfd. apply list_insert_id.
  by rewrite list_lookup_fmap, Hc.
Qed.

(** Replacing the connection in a slot changes the live descriptors by
    what the two connections contribute. *)
Lemma live_insert (pool : list connection_t) (i : nat) (c c' : connection_t) :
  pool !! i = Some c ->
  live (<[i := c']> pool) ++ live [c] ≡ₚ live pool ++ live [c'].
Proof.
  intros H. pose proof (lookup_lt_Some _ _ _ H) as Hi.
  pose proof (take_drop_middle pool i c H) as E.
  rewrite (insert_take_drop pool i c' Hi).
  revert E. generalize (take i pool) (drop (S i) pool). intros pre post E.
  subst pool. rewrite !live_middle.
  rewrite <- !app_assoc. apply Permutation_app_head.
  rewrite (Permutation_app_comm (live [c']) (live post ++ live [c])).
  rewrite <- !app_assoc. rewrite (Permutation_app_comm (live [c]) (live [c'])).
  rewrite (Permutation_app_comm (live [c]) (live post ++ live [c'])).
  by rewrite <- !app_assoc.
Qed.

Lemma ledger_remove (conn : option nat) (s : server_t) :
  ledger (remove_connection conn s) ≡ₚ ledger s.
Proof.
  unfold ledger. destruct conn as [i|]; [|done]. unfold remove_connection.
  destruct (connections s !! i) as [c|] eqn:Hc; [|done].
  pose proof (live_insert _ i c (release_slot c) Hc) as Hl.
  rewrite !live_one in Hl.
  cbn [fd release_slot set_fd set_buffer_used set_response
       set_response_size set_response_sent set_keep_alive] in Hl.
  change (0 <=? -1) with false in Hl. cbv iota in Hl.
  rewrite app_nil_r in Hl.
  destruct (Z.leb_spec 0 (fd c)) as [Hfd|Hfd];
    cbn [connections set_connections close log set_epoll_set trace].
  - rewrite closed_app. simpl. rewrite <- Hl.
    rewrite <- !app_assoc. apply Permutation_app_head.
    apply Permutation_app_comm.
  - rewrite app_nil_r in Hl. by rewrite Hl.
Qed.

Lemma ledger_drop (i : nat) (s : server_t) :
  ledger (drop_connection i s) ≡ₚ ledger s.
Proof. apply (ledger_remove (Some i)). Qed.

Lemma ledger_update (i : nat) (c c' : connection_t) (s : server_t) :
  connections s !! i = Some c -> fd c' = fd c ->
  ledger (update_connection i c' s) = ledger s.
Proof.
  intros Hc Hfd. unfold ledger. by rewrite (live_update i c c' s Hc Hfd).
Qed.

Lemma ledger_log_send (d : Z) (buf : list ascii) (ret : Z) (s : server_t) :
  ledger (log (sys_send d buf ret) s) = ledger s.
Proof. unfold ledger. simpl. rewrite closed_app. simpl. by rewrite app_nil_r. Qed.

Lemma ledger_send_response (k : kernel) (conn : option nat) (s : server_t) :
  ledger (send_response k conn s).2 ≡ₚ ledger s.
Proof.
  unfold send_response. destruct conn as [i|]; [|done].
  destruct (connections s !! i) as [c|] eqn:Hc; [|done].
  destruct (response c) as [r|]; [|done]. cbv zeta.
  set (s1 := log _ s).
  assert (Hc1 : connections s1 !! i = Some c) by done.
  assert (H1 : ledger s1 = ledger s) by apply ledger_log_send.
  destruct (send_ret (k_send k) <? 0).
  { destruct (send_again (k_send k)); simpl; by rewrite H1. }
  destruct (_ <=? _).
  - destruct (negb _).
    + unfold epoll_ctl. destruct (k_epoll_ctl k); simpl;
        change (ledger (update_connection i
                  (set_buffer_used 0 (set_response_size 0 (set_response None
                     (set_response_sent
                        (size_t (response_sent c + send_ret (k_send k))) c))))
                  s1) ≡ₚ ledger s);
        by rewrite (ledger_update i c _ s1 Hc1), H1.
    + simpl. by rewrite (ledger_update i c _ s1 Hc1), H1.
  - simpl. by rewrite (ledger_update i c _ s1 Hc1), H1.
Qed.

Lemma process_http_request_fd (c : connection_t) :
  fd (process_http_request h c) = fd c.
Proof.
  unfold process_http_request, parse_request. cbv zeta.
  destruct (negb _); [done|]. unfold build_response.
  destruct (host_open h _) as [f|]; [|done]. cbv zeta.
  destruct (negb (host_malloc h _)); [done|].
  by destruct (negb (_ =? st_size f)).
Qed.

Lemma ledger_to_write_mode (k : kernel) (i : nat) (c : connection_t) (s : server_t) :
  ledger (to_write_mode k i c s).1 ≡ₚ ledger s.
Proof.
  unfold to_write_mode, epoll_ctl. destruct (k_epoll_ctl k); [done|].
  apply ledger_drop.
Qed.

Lemma ledger_on_readable (k : kernel) (i : nat) (c : connection_t) (s : server_t) :
  connections s !! i = Some c ->
  ledger (on_readable h k i c s).1 ≡ₚ ledger s.
Proof.
  intros Hc. unfold on_readable. destruct (response c); [done|].
  destruct (k_recv k) as [d| |]; [|done|apply ledger_drop].
  destruct (_ =? 0); [apply ledger_drop|]. cbv zeta.
  destruct (found _).
  - rewrite ledger_to_write_mode.
    rewrite (ledger_update i c _ s Hc); [done|].
    by rewrite process_http_request_fd.
  - destruct (_ <=? _).
    + rewrite ledger_to_write_mode. by rewrite (ledger_update i c _ s Hc).
    + simpl. by rewrite (ledger_update i c _ s Hc).
Qed.

Lemma ledger_client_event (k : kernel) (i : nat) (events : Z) (s : server_t) :
  ledger (client_event h k i events s) ≡ₚ ledger s.
Proof.
  unfold client_event. destruct (connections s !! i) as [c|] eqn:Hc; [|done].
  destruct (negb (Z.land events EPOLLIN =? 0)).
  - pose proof (ledger_on_readable k i c s Hc) as Hr.
    destruct (on_readable h k i c s) as [s1 []]; simpl in Hr; [done|].
    destruct (negb _); [by rewrite ledger_drop|done].
  - destruct (negb (Z.land events EPOLLOUT =? 0)).
    + pose proof (ledger_send_response k (Some i) s) as Hw.
      destruct (send_response k (Some i) s) as [ret s1]. simpl in Hw.
      assert (ledger (if ret <? 0 then drop_connection i s1 else s1) ≡ₚ ledger s).
      { destruct (ret <? 0); [by rewrite ledger_drop|done]. }
      destruct (negb _); [by rewrite ledger_drop|done].
    + destruct (negb _); [by rewrite ledger_drop|done].
Qed.

Lemma ledger_accept_one (k : kernel) (d : Z) (s : server_t) :
  0 <= d -> ledger (accept_one k d s) ≡ₚ ledger s ++ [d].
Proof.
  intros Hd. unfold accept_one.
  destruct (negb (k_nonblocking k)).
  { unfold ledger. simpl. rewrite closed_app. simpl.
    rewrite <- !app_assoc. apply Permutation_app_head.
    by rewrite Permutation_app_comm. }
  unfold add_connection.
  destruct (find_unused 0 (connections s)) as [i|] eqn:Hf.
  - destruct (find_unused_some _ _ _ Hf) as (c & Hc & Hfd & _).
    rewrite Nat.sub_0_r in Hc.
    assert (Ha : ledger (set_connections
                           (alter (claim_slot d) i (connections s)) s)
                 ≡ₚ ledger s ++ [d]).
    { unfold ledger. cbn [connections set_connections trace].
      rewrite (alter_as_insert _ _ _ _ Hc).
      pose proof (live_insert _ i c (claim_slot d c) Hc) as Hl.
      rewrite !live_one in Hl.
      cbn [fd claim_slot set_fd set_buffer_used set_response
           set_response_size set_response_sent set_keep_alive] in Hl.
      destruct (Z.leb_spec 0 (fd c)); [lia|].
      destruct (Z.leb_spec 0 d); [|lia].
      rewrite app_nil_r in Hl. by rewrite Hl, app_assoc. }
    unfold epoll_ctl. destruct (k_epoll_ctl k); [done|].
    by rewrite ledger_remove.
  - unfold ledger. simpl. rewrite !closed_app. simpl.
    rewrite app_nil_r, <- !app_assoc. apply Permutation_app_head.
    by rewrite Permutation_app_comm.
Qed.

Lemma ledger_step (s : server_t) (e : event) :
  Forall (fun d => 0 <= d) (accepted_fds [e]) ->
  ledger (step h s e) ≡ₚ ledger s ++ accepted_fds [e].
Proof.
  intros He. destruct e as [k d|k i events]; simpl.
  - apply ledger_accept_one. by apply Forall_inv in He.
  - rewrite app_nil_r. apply ledger_client_event.
Qed.

Lemma accepted_fds_app (es1 es2 : list event) :
  accepted_fds (es1 ++ es2) = accepted_fds es1 ++ accepted_fds es2.
Proof.
  induction es1 as [|[k d|k i ev] es1 IH]; simpl; [done| |done]. by rewrite IH.
Qed.

Lemma ledger_run (es : list event) :
  forall s : server_t,
    Forall (fun d => 0 <= d) (accepted_fds es) ->
    ledger (run h es s) ≡ₚ ledger s ++ accepted_fds es.
Proof.
  induction es as [|e es IH]; intros s Hes.
  - simpl. by rewrite app_nil_r.
  - change (run h (e :: es) s) with (run h es (step h s e)).
    change (e :: es) with ([e] ++ es) in Hes.
    rewrite accepted_fds_app in Hes. apply Forall_app in Hes as [He Hes].
    rewrite (IH _ Hes), (ledger_step s e He).
    change (accepted_fds (e :: es)) with (accepted_fds ([e] ++ es)).
    by rewrite accepted_fds_app, app_assoc.
Qed.

Lemma closed_close_all (pool : list connection_t) :
  forall s : server_t,
    closed (trace (close_all pool s)) = closed (trace s) ++ live pool.
Proof.
  induction pool as [|c pool IH]; intros s; simpl.
  - by rewrite app_nil_r.
  - rewrite IH. change (c :: pool) with ([] ++ c :: pool).
    rewrite live_middle, live_one. change (live []) with (@nil Z).
    destruct (0 <=? fd c); simpl; [|done].
    rewrite closed_app. simpl. by rewrite <- app_assoc.
Qed.

Lemma ledger_from_start (es : list event) :
  Forall (fun d => 0 <= d) (accepted_fds es) ->
  closed (trace (run h es init_server))
    ++ live (connections (run h es init_server))
  ≡ₚ accepted_fds es.
Proof.
  intros Hes. pose proof (ledger_run es init_server Hes) as H.
  unfold ledger in H. rewrite H.
  assert (Hl : live (connections init_server) = []).
  { unfold live, init_server, init_connections. cbn [connections].
    rewrite fmap_replicate. induction MAX_CONNECTIONS as [|n IH]; [done|].
    simpl. by rewrite filter_cons, decide_False by (simpl; lia). }
  by rewrite Hl.
Qed.

Lemma shutdown_closed (epoll_fd server_fd : Z) (s : server_t) :
  closed (trace (shutdown epoll_fd server_fd s))
  = closed (trace s) ++ [epoll_fd; server_fd] ++ live (connections s).
Proof.
  unfold shutdown, free_connections. cbn [trace set_connections].
  rewrite closed_close_all. cbn [connections close set_epoll_set log trace].
  rewrite !closed_app. simpl. by rewrite <- !app_assoc.
Qed.

End Descriptors.

(** X4. In every run of the loop from the initial state, each descriptor
    that [accept] returned is either still held by a slot in use or was
    closed, exactly once, and nothing else was closed: counted with
    multiplicity, the descriptors closed and the descriptors held are the
    descriptors accepted. *)
Theorem X4_descriptors_accounted (h : host) (es : list event) :
  Forall (fun d => 0 <= d) (accepted_fds es) ->
  closed (trace (run h es init_server))
    ++ live (connections (run h es init_server))
  ≡ₚ accepted_fds es.
Proof. apply ledger_from_start. Qed.

Lemma X4_descriptors_accounted_witness :
  closed (trace Demo.reused) ++ live (connections Demo.reused) ≡ₚ [5; 6].
Proof.
  apply (X4_descriptors_accounted Demo.no_files
           [ev_accept Demo.quiet 5;
            ev_client (Demo.reads Demo.post_request) 0 EPOLLIN;
            ev_client (Demo.takes 98) 0 EPOLLOUT; ev_accept Demo.quiet 6]).
  repeat constructor; lia.
Defined.

(** X5. When [main] ends after any run of the loop, it has closed the
    epoll descriptor, the listening socket and every descriptor that
    [accept] returned, each exactly once, and the table is gone. *)
Theorem X5_shutdown_closes_all (h : host) (es : list event)
    (epoll_fd server_fd : Z) :
  Forall (fun d => 0 <= d) (accepted_fds es) ->
  let s := shutdown epoll_fd server_fd (run h es init_server) in
  closed (trace s) ≡ₚ accepted_fds es ++ [epoll_fd; server_fd] /\
  connections s = [].
Proof.
  intros Hes. cbv zeta. split; [|done].
  rewrite shutdown_closed.
  pose proof (ledger_from_start h es Hes) as H.
  rewrite <- H, <- !app_assoc. apply Permutation_app_head.
  apply Permutation_app_comm.
Qed.

Lemma X5_shutdown_closes_all_witness :
  closed (trace (shutdown 4 3 Demo.reused)) ≡ₚ [5; 6] ++ [4; 3].
Proof.
  apply (X5_shutdown_closes_all Demo.no_files
           [ev_accept Demo.quiet 5;
            ev_client (Demo.reads Demo.post_request) 0 EPOLLIN;
            ev_client (Demo.takes 98) 0 EPOLLOUT; ev_accept Demo.quiet 6] 4 3).
  repeat constructor; lia.
Defined.

(** ** Read events *)

Section ReadEvents.

Context (h : host).

Lemma client_event_in_continue (k : kernel) (i : nat) (events : Z)
    (s s1 : server_t) (c : connection_t) :
  connections s !! i = Some c ->
  Z.land events EPOLLIN <> 0 ->
  on_readable h k i c s = (s1, true) ->
  client_event h k i events s = s1.
Proof.
  intros Hc Hin Hr. unfold client_event. rewrite Hc.
  destruct (Z.eqb_spec (Z.land events EPOLLIN) 0); [done|]. cbn [negb].
  by rewrite Hr.
Qed.

Lemma wire_to_write_mode (d : Z) (k : kernel) (i : nat) (c : connection_t)
    (s : server_t) :
  wire d (trace (to_write_mode k i c s).1) = wire d (trace s).
Proof.
  unfold to_write_mode, epoll_ctl. destruct (k_epoll_ctl k); [done|].
  apply drop_connection_wire.
Qed.

Lemma wire_on_readable (d : Z) (k : kernel) (i : nat) (c : connection_t)
    (s : server_t) :
  wire d (trace (on_readable h k i c s).1) = wire d (trace s).
Proof.
  unfold on_readable. destruct (response c); [done|].
  destruct (k_recv k) as [b| |]; [|done|apply drop_connection_wire].
  destruct (_ =? 0); [apply drop_connection_wire|]. cbv zeta.
  destruct (found _); [by rewrite wire_to_write_mode|].
  destruct (_ <=? _); [by rewrite wire_to_write_mode|done].
Qed.

End ReadEvents.

(** X6. A read event on a connection that has no response under way and
    whose peer has closed ([recv] returns 0), or whose [recv] fails,
    releases the slot: the descriptor is closed, once, and dropped from
    the epoll set, the slot is unused, and the connection counter goes
    down by one, exactly one even when the event also carries the error
    or hang-up bit. *)
Theorem X6_peer_closed (h : host) (k : kernel) (i : nat) (events : Z)
    (s : server_t) (c : connection_t) :
  connections s !! i = Some c -> response c = None -> 0 <= fd c ->
  Z.land events EPOLLIN <> 0 ->
  k_recv k = recv_bytes [] \/ k_recv k = recv_failed ->
  client_event h k i events s
  = Server (<[i := release_slot c]> (connections s))
      (delete (fd c) (epoll_set s)) (connection_count s - 1)
      (trace s ++ [sys_close (fd c)]).
Proof.
  intros Hc Hr Hfd Hin Hk.
  rewrite <- (drop_connection_live i s c Hc Hfd).
  apply (client_event_in_continue h k i events s _ c Hc Hin).
  unfold on_readable. rewrite Hr. by destruct Hk as [-> | ->].
Qed.

Lemma X6_peer_closed_witness :
  fd <$> connections (client_event Demo.no_files (Demo.reads []) 0
                        (Z.lor EPOLLIN EPOLLHUP) Demo.accepted) !! 0%nat
  = Some (-1) /\
  connection_count (client_event Demo.no_files (Demo.reads []) 0
                      (Z.lor EPOLLIN EPOLLHUP) Demo.accepted) = 0.
Proof.
  rewrite (X6_peer_closed Demo.no_files (Demo.reads []) 0
             (Z.lor EPOLLIN EPOLLHUP) Demo.accepted Demo.accepted_conn).
  - split; reflexivity.
  - evaluate.
  - evaluate.
  - evaluate.
  - evaluate.
  - by left.
Defined.

(** X7. A read event changes nothing at all, whatever other bits it
    carries, when the response to an earlier request is still under way
    (further input is left in the socket) or when [recv] would block. *)
Theorem X7_read_ignored (h : host) (k : kernel) (i : nat) (events : Z)
    (s : server_t) (c : connection_t) :
  connections s !! i = Some c ->
  Z.land events EPOLLIN <> 0 ->
  response c <> None \/ k_recv k = recv_would_block ->
  client_event h k i events s = s.
Proof.
  intros Hc Hin Hk.
  apply (client_event_in_continue h k i events s s c Hc Hin).
  unfold on_readable. destruct (response c) as [r|]; [done|].
  destruct Hk as [?| ->]; done.
Qed.

Lemma X7_read_ignored_witness :
  client_event Demo.no_files (Demo.reads (lit "GET / ")) 0
    (Z.lor EPOLLIN EPOLLHUP) Demo.answering
  = Demo.answering.
Proof.
  apply (X7_read_ignored Demo.no_files (Demo.reads (lit "GET / ")) 0
           (Z.lor EPOLLIN EPOLLHUP) Demo.answering Demo.answering_conn).
  - evaluate.
  - evaluate.
  - left. evaluate.
Defined.

(** X8. A read event never sends: whatever [recv] returns and whatever
    the request is, the bytes on the wire of every descriptor are the
    same after the event as before; a response is only prepared, to be
    sent on later write events. *)
Theorem X8_read_event_sends_nothing (h : host) (k : kernel) (i : nat)
    (events d : Z) (s : server_t) :
  Z.land events EPOLLIN <> 0 ->
  wire d (trace (client_event h k i events s)) = wire d (trace s).
Proof.
  intros Hin. unfold client_event.
  destruct (connections s !! i) as [c|]; [|done].
  destruct (Z.eqb_spec (Z.land events EPOLLIN) 0); [done|]. cbn [negb].
  pose proof (wire_on_readable h d k i c s) as Hw.
  destruct (on_readable h k i c s) as [s1 []]; simpl in Hw; [done|].
  destruct (negb _); [by rewrite drop_connection_wire|done].
Qed.

Lemma X8_read_event_sends_nothing_witness :
  wire 5 (trace (client_event Demo.site (Demo.reads Demo.get_root_keep) 0
                   EPOLLIN Demo.accepted)) = [].
Proof.
  rewrite (X8_read_event_sends_nothing Demo.site (Demo.reads Demo.get_root_keep)
             0 EPOLLIN 5 Demo.accepted); [reflexivity|evaluate].
Defined.

(** ** Write events *)

Section WriteEvents.

Context (h : host).

Lemma send_response_failed (k : kernel) (i : nat) (s : server_t)
    (c : connection_t) (r : list ascii) :
  connections s !! i = Some c -> pending c r ->
  k_send k = send_failed ->
  send_response k (Some i) s = (-1, log (sys_send (fd c) (offered c r) (-1)) s).
Proof.
  intros Hc (Hr & Hs & Hl & Hb) Hk.
  unfold send_response. rewrite Hc, Hr, Hk. simpl.
  by rewrite !size_t_small by lia.
Qed.

(** A write event for a connection that has nothing to send. *)
Lemma client_event_out_idle (k : kernel) (i : nat) (s : server_t)
    (c : connection_t) :
  connections s !! i = Some c -> response c = None ->
  client_event h k i EPOLLOUT s = drop_connection i s.
Proof.
  intros Hc Hr. rewrite (client_event_out h k i s c Hc).
  unfold send_response. by rewrite Hc, Hr.
Qed.

Lemma idle_writes_silent (d : Z) (i : nat) (ks : list kernel) :
  forall (s : server_t) (c : connection_t),
    connections s !! i = Some c -> response c = None ->
    wire d (trace (run h (write_events i ks) s)) = wire d (trace s).
Proof.
  induction ks as [|k ks IH]; intros s c Hc Hr; [done|].
  change (run h (write_events i (k :: ks)) s)
    with (run h (write_events i ks) (client_event h k i EPOLLOUT s)).
  rewrite (client_event_out_idle k i s c Hc Hr).
  rewrite (IH _ (release_slot c)); [apply drop_connection_wire| |done].
  by apply drop_connection_lookup.
Qed.

(** Whatever a run of write events does, the bytes it puts on the wire
    of the connection are an initial part of the unsent rest. *)
Lemma writes_prefix (i : nat) (r : list ascii) (ks : list kernel) :
  forall (s : server_t) (c : connection_t),
    connections s !! i = Some c -> pending c r ->
    sends_ok h s (write_events i ks) ->
    exists w,
      wire (fd c) (trace (run h (write_events i ks) s))
      = wire (fd c) (trace s) ++ w /\
      w `prefix_of` drop (Z.to_nat (response_sent c)) r.
Proof.
  induction ks as [|k ks IH]; intros s c Hc Hp Hok.
  { exists []. split; [by rewrite app_nil_r|apply prefix_nil]. }
  destruct Hok as [Hk Hok].
  change (run h (write_events i (k :: ks)) s)
    with (run h (write_events i ks) (client_event h k i EPOLLOUT s)).
  change (step h s (ev_client k i EPOLLOUT))
    with (client_event h k i EPOLLOUT s) in Hok.
  destruct (k_send k) as [m| |] eqn:Hs.
  - specialize (Hk c m Hc Hs).
    destruct (decide (m = response_size c - response_sent c)) as [->|Hne].
    + (* the rest goes out; afterwards the slot has no response *)
      pose proof (client_event_last_wire h k i s c r Hc Hp Hs) as Hw.
      assert (Hidle : exists c', connections (client_event h k i EPOLLOUT s) !! i
                                 = Some c' /\ response c' = None).
      { rewrite (client_event_out h k i s c Hc).
        rewrite (send_response_last k i s c r Hc Hp Hs). cbv zeta.
        destruct (keep_alive c =? 0).
        - change (-1 <? 0) with true. cbv iota.
          exists (release_slot (finished c)). split; [|done].
          apply drop_connection_lookup. by apply (lookup_update i c).
        - destruct (k_epoll_ctl k).
          + change (0 <? 0) with false. cbv iota.
            exists (set_buffer_used 0 (finished c)). split; [|done].
            by apply (lookup_update i c).
          + change (-1 <? 0) with true. cbv iota.
            exists (release_slot (set_buffer_used 0 (finished c))).
            split; [|done].
            apply drop_connection_lookup. by apply (lookup_update i c). }
      destruct Hidle as (c' & Hc' & Hr').
      exists (drop (Z.to_nat (response_sent c)) r).
      split; [|done].
      by rewrite (idle_writes_silent _ i ks _ c' Hc' Hr').
    + rewrite (client_event_out h k i s c Hc) in *.
      rewrite (send_response_partial k i s c r m Hc Hp Hs) in * by lia.
      change (0 <? 0) with false in *. cbv iota in *.
      set (c1 := set_response_sent (response_sent c + m) c) in *.
      set (s1 := update_connection i c1 _) in *.
      assert (Hc1 : connections s1 !! i = Some c1).
      { subst s1. by apply (lookup_update i c). }
      assert (Hp1 : pending c1 r) by (apply pending_advance; [done|lia]).
      destruct (IH s1 c1 Hc1 Hp1 Hok) as (w & Hw & Hpre).
      change (fd c1) with (fd c) in Hw.
      exists (take (Z.to_nat m) (drop (Z.to_nat (response_sent c)) r) ++ w).
      split.
      * rewrite Hw. subst s1. simpl. rewrite wire_app. simpl.
        rewrite decide_True by done. rewrite app_nil_r, <- !app_assoc.
        do 2 f_equal. unfold offered. rewrite take_take. f_equal. lia.
      * destruct Hp as (_ & Hsent & _).
        trans (take (Z.to_nat m) (drop (Z.to_nat (response_sent c)) r)
               ++ drop (Z.to_nat (response_sent c + m)) r).
        { by apply prefix_app. }
        by rewrite take_drop_step by lia.
  - rewrite (client_event_out h k i s c Hc) in *.
    rewrite (send_response_would_block k i s c r Hc Hp Hs) in *.
    change (0 <? 0) with false in *. cbv iota in *.
    set (s1 := log _ s) in *.
    destruct (IH s1 c Hc Hp Hok) as (w & Hw & Hpre).
    exists w. split; [|done]. rewrite Hw. subst s1. simpl.
    rewrite wire_app. simpl. rewrite decide_True by done.
    by rewrite !app_nil_r.
  - rewrite (client_event_out h k i s c Hc).
    rewrite (send_response_failed k i s c r Hc Hp Hs).
    change (-1 <? 0) with true. cbv iota.
    exists []. split; [|apply prefix_nil].
    rewrite (idle_writes_silent _ i ks _ (release_slot c)); [| |done].
    + rewrite drop_connection_wire. simpl. rewrite wire_app. simpl.
      rewrite decide_True by done. by rewrite !app_nil_r.
    + by apply drop_connection_lookup.
Qed.

End WriteEvents.

(** X9. A write event (no read, error or hang-up bit) on a connection
    whose response is under way, when the kernel takes nothing.  If
    [send] would block, the pool, the epoll set and the counter are as
    before, nothing is closed and nothing went out: the connection waits
    for the next write event.  If [send] fails, nothing went out, the
    descriptor is closed and dropped from the epoll set, the slot is
    unused (descriptor -1, cursors, flag and response cleared, the bytes
    of its buffer kept), every other slot is as before, one slot fewer is
    in use, and the counter is decremented. *)
Theorem X9_write_not_taken (h : host) (k : kernel) (i : nat) (events d : Z)
    (s : server_t) (c : connection_t) (r : list ascii) :
  connections s !! i = Some c -> pending c r -> 0 <= fd c ->
  Z.land events EPOLLIN = 0 -> Z.land events EPOLLOUT <> 0 ->
  Z.land events (Z.lor EPOLLERR EPOLLHUP) = 0 ->
  let s' := client_event h k i events s in
  (k_send k = send_would_block ->
   connections s' = connections s /\ epoll_set s' = epoll_set s /\
   connection_count s' = connection_count s /\
   closed (trace s') = closed (trace s) /\
   wire d (trace s') = wire d (trace s)) /\
  (k_send k = send_failed ->
   connections s' = <[i := release_slot c]> (connections s) /\
   epoll_set s' = delete (fd c) (epoll_set s) /\
   connection_count s' = connection_count s - 1 /\
   closed (trace s') = closed (trace s) ++ [fd c] /\
   wire d (trace s') = wire d (trace s) /\
   connections s' !! i = Some (Connection (-1) (buffer c) 0 0 None 0 0) /\
   (forall n, n <> i -> connections s' !! n = connections s !! n) /\
   (occupied (connections s') + 1 = occupied (connections s))%nat /\
   epoll_set s' !! fd c = None).
Proof.
  intros Hc Hp Hfd Hin Hout Herr. cbv zeta.
  rewrite (client_event_out_bits h k i events s c Hc Hin Hout), Herr.
  change (0 =? 0) with true. cbv zeta iota.
  pose proof (lookup_lt_Some _ _ _ Hc) as Hi.
  assert (Hlog : forall ret,
             wire d (trace (log (sys_send (fd c) (offered c r) ret) s))
             = wire d (trace s) ++
               (if decide (fd c = d) then take (Z.to_nat ret) (offered c r) else [])).
  { intros ret. simpl. rewrite wire_app. simpl. by rewrite app_nil_r. }
  split; intros Hk.
  - rewrite (send_response_would_block k i s c r Hc Hp Hk). cbn [fst snd].
    change (0 <? 0) with false. cbv iota.
    do 3 (split; [done|]). split.
    + simpl. rewrite closed_app. simpl. by rewrite app_nil_r.
    + rewrite Hlog. change (Z.to_nat (-1)) with 0%nat. rewrite take_0.
      destruct (decide (fd c = d)); by rewrite app_nil_r.
  - rewrite (send_response_failed k i s c r Hc Hp Hk). cbn [fst snd].
    change (-1 <? 0) with true. cbv iota.
    rewrite (drop_connection_live i (log (sys_send (fd c) (offered c r) (-1)) s) c Hc Hfd).
    cbn [connections epoll_set connection_count trace log].
    do 3 (split; [done|]). split; [|split].
    + rewrite !closed_app. simpl. by rewrite app_nil_r.
    + rewrite wire_app. simpl. rewrite app_nil_r.
      pose proof (Hlog (-1)) as Hl. simpl in Hl. rewrite Hl.
      change (Z.to_nat (-1)) with 0%nat. rewrite take_0.
      destruct (decide (fd c = d)); by rewrite app_nil_r.
    + rewrite release_slot_record.
      split; [by apply list_lookup_insert_eq|].
      split; [by intros n Hn; apply list_lookup_insert_ne|].
      split; [by apply (occupied_release _ i c)|apply lookup_delete_eq].
Qed.

Lemma X9_write_not_taken_witness :
  connections (client_event Demo.site Demo.quiet 0 EPOLLOUT Demo.serving)
  = connections Demo.serving /\
  fd <$> connections (client_event Demo.site (Demo.reads []) 0 EPOLLOUT
                        Demo.serving) !! 0%nat = Some (-1) /\
  (occupied (connections (client_event Demo.site (Demo.reads []) 0 EPOLLOUT
                            Demo.serving)) + 1
   = occupied (connections Demo.serving))%nat.
Proof.
  split.
  - destruct (X9_write_not_taken Demo.site Demo.quiet 0 EPOLLOUT 5 Demo.serving
                Demo.serving_conn Demo.serving_response) as [H _].
    + evaluate.
    + evaluate_pending.
    + evaluate.
    + evaluate.
    + evaluate.
    + evaluate.
    + destruct H as [Hp _]; [reflexivity|exact Hp].
  - destruct (X9_write_not_taken Demo.site (Demo.reads []) 0 EPOLLOUT 5
                Demo.serving Demo.serving_conn Demo.serving_response)
      as [_ H].
    + evaluate.
    + evaluate_pending.
    + evaluate.
    + evaluate.
    + evaluate.
    + evaluate.
    + destruct H as (_ & _ & _ & _ & _ & Hc & _ & Ho & _); [reflexivity|].
      split; [by rewrite Hc|exact Ho].
Defined.

(** X10. A write event that also carries the error or hang-up bit, on a
    connection whose [send] fails: the connection is released by the
    write branch and the check for errors then releases it a second time.
    The second release closes nothing, the descriptor is closed once and
    the slot is unused, but the connection counter has gone down by two
    for the one connection. *)
Theorem X10_counter_double_decrement (h : host) (k : kernel) (i : nat)
    (events : Z) (s : server_t) (c : connection_t) (r : list ascii) :
  connections s !! i = Some c -> pending c r -> 0 <= fd c ->
  Z.land events EPOLLIN = 0 -> Z.land events EPOLLOUT <> 0 ->
  Z.land events (Z.lor EPOLLERR EPOLLHUP) <> 0 ->
  k_send k = send_failed ->
  let s' := client_event h k i events s in
  connection_count s' = connection_count s - 2 /\
  connections s' = <[i := release_slot c]> (connections s) /\
  (occupied (connections s') + 1 = occupied (connections s))%nat /\
  closed (trace s') = closed (trace s) ++ [fd c].
Proof.
  intros Hc Hp Hfd Hin Hout Herr Hk. cbv zeta.
  rewrite (client_event_out_bits h k i events s c Hc Hin Hout).
  rewrite (send_response_failed k i s c r Hc Hp Hk). cbn [fst snd].
  change (-1 <? 0) with true. cbv zeta iota.
  destruct (Z.eqb_spec (Z.land events (Z.lor EPOLLERR EPOLLHUP)) 0); [done|].
  rewrite (drop_connection_live i (log (sys_send (fd c) (offered c r) (-1)) s) c Hc Hfd).
  cbn [connections epoll_set connection_count trace log].
  set (s1 := Server _ _ _ _).
  assert (Hc1 : connections s1 !! i = Some (release_slot c)).
  { subst s1. cbn [connections]. apply list_lookup_insert_eq.
    by apply lookup_lt_Some in Hc. }
  unfold drop_connection, remove_connection. rewrite Hc1.
  cbn [fd release_slot set_fd set_buffer_used set_response
       set_response_size set_response_sent set_keep_alive].
  change (0 <=? -1) with false. cbv iota. subst s1.
  cbn [connections set_connections set_connection_count connection_count trace].
  rewrite list_insert_insert_eq.
  split; [lia|]. split; [done|]. split.
  -
    pose proof (occupied_insert _ i c (release_slot c) Hc) as Ho.
    rewrite !occupied_one in Ho.
    cbn [fd release_slot set_fd set_buffer_used set_response
         set_response_size set_response_sent set_keep_alive] in Ho.
    change (0 <=? -1) with false in Ho. cbv iota in Ho.
    rewrite release_slot_idemp.
    revert Ho. destruct (Z.leb_spec 0 (fd c)); cbv iota; lia.
  - rewrite !closed_app. simpl. by rewrite app_nil_r.
Qed.

Lemma X10_counter_double_decrement_witness :
  connection_count Demo.serving = 1 /\
  connection_count
    (client_event Demo.site (Demo.reads []) 0 (Z.lor EPOLLOUT EPOLLHUP)
       Demo.serving) = -1.
Proof.
  split; [evaluate|].
  destruct (X10_counter_double_decrement Demo.site (Demo.reads []) 0
              (Z.lor EPOLLOUT EPOLLHUP) Demo.serving Demo.serving_conn
              Demo.serving_response) as [H _].
  - evaluate.
  - evaluate_pending.
  - evaluate.
  - evaluate.
  - evaluate.
  - evaluate.
  - reflexivity.
  - rewrite H. evaluate.
Defined.

(** X11. Whatever the kernel does on a run of write events for a
    connection whose response is under way (it may take some bytes, all,
    or none, block or fail, in any order, as long as it never takes more
    than was offered), the bytes that reach the wire of the connection
    are an initial part of the unsent rest of the response: nothing is
    sent twice, skipped or sent out of order, and nothing follows the
    response. *)
Theorem X11_wire_is_prefix (h : host) (i : nat) (r : list ascii)
    (ks : list kernel) (s : server_t) (c : connection_t) :
  connections s !! i = Some c -> pending c r ->
  sends_ok h s (write_events i ks) ->
  exists w,
    wire (fd c) (trace (run h (write_events i ks) s))
    = wire (fd c) (trace s) ++ w /\
    w `prefix_of` drop (Z.to_nat (response_sent c)) r.
Proof. apply writes_prefix. Qed.

Lemma X11_wire_is_prefix_witness :
  exists w,
    wire 5 (trace (run Demo.site
                     (write_events 0 [Demo.takes 100; Demo.quiet; Demo.reads []])
                     Demo.serving))
    = wire 5 (trace Demo.serving) ++ w /\
    w `prefix_of` Demo.serving_response.
Proof.
  apply (X11_wire_is_prefix Demo.site 0 Demo.serving_response
           [Demo.takes 100; Demo.quiet; Demo.reads []] Demo.serving
           Demo.serving_conn).
  - evaluate.
  - evaluate_pending.
  - split; [|split; [|split; [|exact I]]].
    + intros c m Hc Hk. injection Hk as <-.
      assert (Hs : response_size c - response_sent c = 125).
      { vm_compute in Hc. injection Hc as <-. reflexivity. }
      rewrite Hs. lia.
    + intros c m Hc Hk. discriminate Hk.
    + intros c m Hc Hk. discriminate Hk.
Defined.

(** ** Decimal numbers in headers *)

Section Decimal.

Lemma digits_step (c : ascii) (l : list ascii) (acc : Z) :
  Wire.is_digit c = true ->
  Wire.digits (c :: l) acc = Wire.digits l (10 * acc + (code c - 48)).
Proof. intros H. simpl. by rewrite H. Qed.

Lemma digits_stop (rest : list ascii) (acc : Z) :
  hd NUL rest = CR \/ rest = [] -> Wire.digits rest acc = acc.
Proof.
  intros [Hr| ->]; [|done]. destruct rest as [|c rest]; [done|].
  simpl in Hr. by subst c.
Qed.

Lemma digits_acc (d : Decimal.uint) :
  forall (acc : positive) (rest : list ascii),
    hd NUL rest = CR \/ rest = [] ->
    Wire.digits (lit (NilEmpty.string_of_uint d) ++ rest) (Z.pos acc)
    = Z.pos (Pos.of_uint_acc d acc).
Proof.
  induction d as [|d IH|d IH|d IH|d IH|d IH|d IH|d IH|d IH|d IH|d IH];
    intros acc rest Hr; [by apply digits_stop|..];
    (digit_step digits_step; cbn [Pos.of_uint_acc]; rewrite <- (IH _ rest Hr);
     f_equal; lia).
Qed.

Lemma digits_of_uint (d : Decimal.uint) (rest : list ascii) :
  hd NUL rest = CR \/ rest = [] ->
  Wire.digits (lit (NilEmpty.string_of_uint d) ++ rest) 0
  = Z.of_N (Pos.of_uint d).
Proof.
  intros Hr.
  induction d as [|d IH|d IH|d IH|d IH|d IH|d IH|d IH|d IH|d IH|d IH];
    [by apply digits_stop|digit_step digits_step; exact IH|..];
    (digit_step digits_step; cbn [Pos.of_uint Z.of_N];
     rewrite <- (digits_acc d _ rest Hr); f_equal).
Qed.

Lemma chars_digits (d : Decimal.uint) :
  Forall (fun c => Wire.is_digit c = true) (lit (NilEmpty.string_of_uint d)).
Proof.
  induction d; [constructor|..]; (constructor; [reflexivity|assumption]).
Qed.

Lemma chars_length (d : Decimal.uint) :
  length (lit (NilEmpty.string_of_uint d)) = Decimal.nb_digits d.
Proof. induction d; simpl; [done|..]; by f_equal. Qed.

Lemma double_digits (d : Decimal.uint) :
  (Decimal.nb_digits (Decimal.Little.double d) <= S (Decimal.nb_digits d))%nat /\
  (Decimal.nb_digits (Decimal.Little.succ_double d) <= S (Decimal.nb_digits d))%nat.
Proof. induction d as [|d [? ?]|d [? ?]|d [? ?]|d [? ?]|d [? ?]|d [? ?]|d [? ?]|d [? ?]|d [? ?]|d [? ?]]; simpl; lia. Qed.

Lemma to_little_uint_digits (p : positive) :
  (Decimal.nb_digits (Pos.to_little_uint p) <= Pos.size_nat p)%nat.
Proof.
  induction p as [p IH|p IH|]; simpl; [| |lia].
  - destruct (double_digits (Pos.to_little_uint p)). lia.
  - destruct (double_digits (Pos.to_little_uint p)). lia.
Qed.

(** What [%ld] prints for a size: decimal digits only, at most 64 of them
    for a size below [2^63], and read back they give the size. *)
Lemma fmt_ld_spec (z : Z) :
  0 <= z < 2 ^ 63 ->
  Forall (fun c => Wire.is_digit c = true) (fmt_ld z) /\
  (length (fmt_ld z) <= 64)%nat /\
  forall rest, hd NUL rest = CR \/ rest = [] ->
               Wire.digits (fmt_ld z ++ rest) 0 = z.
Proof.
  intros Hz. destruct z as [|p|p]; [| |lia].
  - split; [repeat constructor|]. split; [simpl; lia|].
    intros rest [Hr| ->]; [|reflexivity].
    destruct rest as [|c rest]; [done|]. simpl in Hr. by subst c.
  - assert (Hlt : (p < 2 ^ 63)%positive).
    { change (2 ^ 63) with (Z.pos (2 ^ 63)) in Hz. lia. }
    apply Pos.size_nat_monotone in Hlt.
    change (Pos.size_nat (2 ^ 63)) with 64%nat in Hlt.
    pose proof (DecimalPos.Unsigned.of_to p) as Hof.
    unfold fmt_ld. cbn [Z.to_int NilZero.string_of_int].
    assert (Hs : NilZero.string_of_uint (Pos.to_uint p)
                 = NilEmpty.string_of_uint (Pos.to_uint p)).
    { destruct (Pos.to_uint p); [discriminate Hof|done..]. }
    rewrite Hs. split; [apply chars_digits|]. split.
    + rewrite chars_length. unfold Pos.to_uint. rewrite nb_digits_rev.
      pose proof (to_little_uint_digits p). lia.
    + intros rest Hr. by rewrite (digits_of_uint _ rest Hr), Hof.
Qed.

End Decimal.

(** ** The request line *)

Section RequestLine.

Lemma c_str_app_plain (l r : list ascii) :
  Forall (fun c => c <> NUL) l -> c_str (l ++ r) = l ++ c_str r.
Proof.
  induction 1 as [|c l Hc _ IH]; [done|]. simpl.
  destruct (Ascii.eqb_spec c NUL); [done|]. by rewrite IH.
Qed.

Lemma skip_space_plain (p r : list ascii) :
  p <> [] -> Forall plain p -> skip_space (p ++ r) = p ++ r.
Proof.
  intros Hp Hpl. destruct p as [|a p]; [done|].
  apply Forall_inv in Hpl as [Ha _]. simpl. by rewrite Ha.
Qed.

Lemma token_plain (p r : list ascii) :
  Forall plain p -> token (p ++ " "%char :: r) = p.
Proof.
  induction 1 as [|a p [Ha _] _ IH]; [done|]. simpl. by rewrite Ha, IH.
Qed.

(** [sscanf] stores the path of a request line whole. *)
Lemma sscanf_GET_path (p rest : list ascii) :
  p <> [] -> Forall plain p ->
  sscanf_GET (lit "GET " ++ p ++ " "%char :: rest) = p.
Proof.
  intros Hne Hp. unfold sscanf_GET.
  assert (Hc : c_str (lit "GET " ++ p ++ " "%char :: rest)
               = lit "GET " ++ p ++ " "%char :: c_str rest).
  { transitivity (c_str ((lit "GET " ++ p ++ [" "%char]) ++ rest)).
    { f_equal. by rewrite <- !app_assoc. }
    rewrite c_str_app_plain; [by rewrite <- !app_assoc|].
    apply Forall_app. split; [by repeat constructor|].
    apply Forall_app. split; [|by repeat constructor].
    eapply Forall_impl; [exact Hp|]. by intros c [_ ?]. }
  rewrite Hc. cbn [lit list_ascii_of_string app starts_with drop].
  rewrite !Ascii.eqb_refl. cbn [andb skip_space].
  change (isspace " ") with true. cbv iota.
  rewrite (skip_space_plain p _ Hne Hp). by apply token_plain.
Qed.

Lemma sscanf_GET_c_str (b1 b2 : list ascii) :
  c_str b1 = c_str b2 -> sscanf_GET b1 = sscanf_GET b2.
Proof. unfold sscanf_GET. by intros ->. Qed.

Lemma strcmp_root (p : list ascii) :
  Forall plain p ->
  (strcmp p (lit "/") =? 0) = bool_decide (p = lit "/").
Proof.
  intros Hp. unfold strcmp. rewrite (c_str_id p).
  - change (c_str (lit "/")) with (lit "/").
    destruct (decide (p = lit "/")); [by rewrite bool_decide_eq_true_2|].
    by rewrite bool_decide_eq_false_2.
  - intros Hin. rewrite Forall_forall in Hp.
    by destruct (Hp _ Hin) as [_ ?].
Qed.

(** The outcome of the parser on a well-formed GET request line. *)
Lemma parse_GET (c : connection_t) (p rest : list ascii) :
  0 <= buffer_used c < Z.of_nat (length (buffer c)) ->
  accumulated c = lit "GET " ++ p ++ " "%char :: rest ->
  p <> [] -> Forall plain p ->
  parse_request c
  = Parsed (set_keep_alive (keep_alive_of (accumulated c))
              (set_buffer (<[Z.to_nat (buffer_used c) := NUL]> (buffer c)) c))
      (served_path p).
Proof.
  intros Hu Hacc Hne Hp.
  pose proof (terminated_buffer c Hu) as Hb.
  unfold parse_request. cbv zeta. cbn [buffer set_buffer].
  set (b := <[Z.to_nat (buffer_used c) := NUL]> (buffer c)) in *.
  assert (Ht : strncmp b (lit "GET ") 4 = 0).
  { rewrite Hb, Hacc, <- app_assoc. apply strncmp_GET. }
  rewrite Ht. change (negb (0 =? 0)) with false. cbv iota.
  assert (Hcs : c_str b = c_str (accumulated c)).
  { by rewrite Hb, c_str_app_cut. }
  rewrite (sscanf_GET_c_str b (accumulated c) Hcs), Hacc.
  rewrite (sscanf_GET_path p rest Hne Hp), (strcmp_root p Hp).
  unfold keep_alive_of, strstr, served_path. rewrite Hcs, <- Hacc.
  change (c_str (lit "Connection: keep-alive")) with keep_alive_marker.
  destruct (decide (p = lit "/")).
  - by rewrite bool_decide_eq_true_2.
  - by rewrite bool_decide_eq_false_2.
Qed.

(** The path under the document root always fits its buffer. *)
Lemma full_path_fits (c : connection_t) (p rest : list ascii) :
  0 <= buffer_used c < BUFFER_SIZE ->
  accumulated c = lit "GET " ++ p ++ " "%char :: rest ->
  snprintf BUFFER_SIZE (WEB_ROOT ++ served_path p) = WEB_ROOT ++ served_path p.
Proof.
  intros Hu Hacc. unfold snprintf. apply take_ge.
  assert (Hlen : (length p + 5 <= Z.to_nat (BUFFER_SIZE - 1))%nat).
  { transitivity (length (accumulated c)).
    - rewrite Hacc, !length_app. simpl. lia.
    - unfold accumulated. rewrite length_take. lia. }
  unfold served_path. destruct (decide (p = lit "/")).
  - change (length (WEB_ROOT ++ lit "/index.html")) with 16%nat.
    unfold BUFFER_SIZE. lia.
  - rewrite length_app. change (length WEB_ROOT) with 5%nat.
    unfold BUFFER_SIZE in *. lia.
Qed.

End RequestLine.

(** X12. For a request line [GET p ...], with [p] a non-empty run of
    bytes that are neither white space nor NUL, the parser accepts the
    request and the file the builder opens is named by the document root
    followed by [p], byte for byte ([/index.html] in place of [/]): the
    name always fits its buffer, and nothing in it is cleaned, so
    dot-dot segments reach [open] as they came. *)
Theorem X12_request_path (h : host) (c : connection_t) (p rest : list ascii) :
  length (buffer c) = Z.to_nat BUFFER_SIZE ->
  0 <= buffer_used c < BUFFER_SIZE ->
  accumulated c = lit "GET " ++ p ++ " "%char :: rest ->
  p <> [] -> Forall plain p ->
  exists c1,
    parse_request c = Parsed c1 (served_path p) /\
    keep_alive c1 = keep_alive_of (accumulated c) /\
    process_http_request h c
    = match host_open h (WEB_ROOT ++ served_path p) with
      | None => error_response response_404 c1
      | Some f => build_response h c1 (served_path p)
      end.
Proof.
  intros Hl Hu Hacc Hne Hp.
  assert (Hu' : 0 <= buffer_used c < Z.of_nat (length (buffer c))).
  { rewrite Hl. unfold BUFFER_SIZE in *. lia. }
  eexists. split; [by apply (parse_GET c p rest)|]. split; [done|].
  unfold process_http_request. rewrite (parse_GET c p rest Hu' Hacc Hne Hp).
  unfold build_response at 1. rewrite (full_path_fits c p rest Hu Hacc).
  destruct (host_open h (WEB_ROOT ++ served_path p)) eqn:Ho; [|done].
  unfold build_response. by rewrite (full_path_fits c p rest Hu Hacc), Ho.
Qed.

Lemma plain_text (s : string) :
  forallb (fun c => negb (isspace c) && negb (Ascii.eqb c NUL)) (lit s) = true ->
  Forall plain (lit s).
Proof.
  intros H. apply Forall_forall. intros c Hc.
  rewrite forallb_forall in H. specialize (H c).
  rewrite <- list_elem_of_In in H. specialize (H Hc).
  apply andb_prop in H as [H1 H2]. split.
  - by destruct (isspace c).
  - intros ->. done.
Qed.

Lemma X12_request_path_witness :
  exists c1,
    parse_request Requests.asking_outside = Parsed c1 (lit "/../secret.txt") /\
    process_http_request Requests.exposed Requests.asking_outside
    = build_response Requests.exposed c1 (lit "/../secret.txt").
Proof.
  destruct (X12_request_path Requests.exposed Requests.asking_outside
              (lit "/../secret.txt") (drop 19 Requests.get_outside))
    as (c1 & Hp & _ & Hr).
  - evaluate.
  - split; evaluate.
  - evaluate.
  - discriminate.
  - by apply plain_text.
  - exists c1. split; [exact Hp|exact Hr].
Defined.

(** ** Responses as a client reads them *)

Section HeaderLines.

Lemma find_sub_skip (n l r : list ascii) :
  hd NUL n = CR -> n <> [] -> CR ∉ l ->
  find_sub n (l ++ r) = Nat.add (length l) <$> find_sub n r.
Proof.
  intros Hn Hne Hl. destruct n as [|x n]; [done|]. simpl in Hn. subst x.
  induction l as [|c l IH].
  - simpl. by destruct (find_sub (CR :: n) r).
  - apply not_elem_of_cons in Hl as [Hc Hl].
    cbn [app find_sub starts_with].
    destruct (Ascii.eqb_spec CR c) as [E|_]; [done|]. cbn [andb].
    rewrite (IH Hl). by destruct (find_sub (CR :: n) r).
Qed.

Lemma find_sub_here (n r : list ascii) : find_sub n (n ++ r) = Some 0%nat.
Proof. destruct n; simpl; [by destruct r|]. by rewrite Ascii.eqb_refl, starts_with_app. Qed.

(** The first blank line of a header made of lines without CR comes after
    its last line. *)
Lemma find_blank_line (ls : list (list ascii)) (data : list ascii) :
  ls <> [] -> Forall (fun l => (CR ∉ l) /\ l <> []) ls ->
  find_sub (crlf ++ crlf) (join_lines ls ++ crlf ++ crlf ++ data)
  = Some (length (join_lines ls)).
Proof.
  intros Hne Hls. induction Hls as [|l ls [Hl Hl0] Hls IH]; [done|].
  destruct ls as [|l2 ls].
  - cbn [join_lines].
    rewrite (find_sub_skip (crlf ++ crlf) l _ eq_refl); [|done|done].
    rewrite (app_assoc crlf crlf data), find_sub_here.
    cbn [fmap option_fmap option_map]. f_equal. lia.
  - specialize (IH ltac:(done)).
    change (join_lines (l :: l2 :: ls)) with (l ++ crlf ++ join_lines (l2 :: ls)).
    rewrite <- !app_assoc.
    rewrite (find_sub_skip (crlf ++ crlf) l _ eq_refl); [|done|done].
    apply Forall_inv in Hls as [Hl2 Hl20].
    assert (Hj : exists a t, join_lines (l2 :: ls) = a :: t /\ a <> CR).
    { destruct l2 as [|a l2]; [done|]. apply not_elem_of_cons in Hl2 as [Ha _].
      destruct ls; [by exists a, l2|].
      exists a, (l2 ++ crlf ++ join_lines (l0 :: ls)). done. }
    destruct Hj as (a & t & Hj & Ha).
    assert (Hstep : forall X,
               find_sub (crlf ++ crlf) (crlf ++ (a :: t) ++ X)
               = Nat.add 2 <$> find_sub (crlf ++ crlf) ((a :: t) ++ X)).
    { intros X. cbn [crlf app find_sub starts_with].
      rewrite !Ascii.eqb_refl. cbn [andb].
      destruct (Ascii.eqb_spec CR a) as [E|_]; [done|]. cbn [andb].
      change (Ascii.eqb CR LF) with false. cbn [andb]. cbv iota.
      by destruct (find_sub (CR :: LF :: crlf) (t ++ X)). }
    rewrite Hj in *. rewrite Hstep, IH.
    cbn [fmap option_fmap option_map]. f_equal. rewrite !length_app.
    simpl. lia.
Qed.

(** The status line ends at the first line break. *)
Lemma find_first_break (l r : list ascii) :
  CR ∉ l -> find_sub crlf (l ++ crlf ++ r) = Some (length l).
Proof.
  intros Hl. rewrite (find_sub_skip crlf l _ eq_refl); [|done|done].
  rewrite find_sub_here. cbn [fmap option_fmap option_map]. f_equal. lia.
Qed.

End HeaderLines.

Section Served.

Context (h : host).

Lemma content_type_in_table (p : list ascii) :
  content_type p ∈ content_type_labels.
Proof.
  unfold content_type, content_type_labels.
  repeat (match goal with
          | |- context [if ?b then _ else _] => destruct b
          end); set_solver.
Qed.

Lemma label_facts (ct : list ascii) :
  ct ∈ content_type_labels ->
  (CR ∉ ct) /\ (length ct <= 24)%nat /\
  (forall tail,
      find_sub (lit "Content-Length: ")
        (lit "HTTP/1.1 200 OK" ++ crlf ++ (lit "Content-Type: " ++ ct) ++ crlf
         ++ lit "Content-Length: " ++ tail)
      = Some (33 + length ct)%nat) /\
  (forall tail,
      find_sub (lit "Content-Type: ")
        (lit "HTTP/1.1 200 OK" ++ crlf ++ lit "Content-Type: " ++ tail)
      = Some 17%nat).
Proof.
  intros Hin. split; [|split; [|split]].
  - unfold content_type_labels in Hin.
    repeat (apply elem_of_cons in Hin as [->|Hin];
            [apply (bool_decide_unpack _); by vm_compute|]).
    by apply elem_of_nil in Hin.
  - unfold content_type_labels in Hin.
    repeat (apply elem_of_cons in Hin as [->|Hin]; [simpl; lia|]).
    by apply elem_of_nil in Hin.
  - intros tail. unfold content_type_labels in Hin.
    repeat (apply elem_of_cons in Hin as [->|Hin]; [vm_compute; reflexivity|]).
    by apply elem_of_nil in Hin.
  - intros tail. vm_compute. reflexivity.
Qed.

Lemma header_200_join (ct : list ascii) (z ka : Z) :
  header_200 ct z ka = join_lines (header_200_lines ct z ka) ++ crlf ++ crlf.
Proof.
  unfold header_200, header_200_lines. cbn [join_lines].
  by rewrite <- !app_assoc.
Qed.

Lemma header_200_lines_ok (ct : list ascii) (z ka : Z) :
  ct ∈ content_type_labels -> 0 <= z < 2 ^ 63 ->
  Forall (fun l => (CR ∉ l) /\ l <> []) (header_200_lines ct z ka).
Proof.
  intros Hct Hz. destruct (label_facts ct Hct) as (Hcr & _).
  destruct (fmt_ld_spec z Hz) as (Hd & _).
  assert (Hds : CR ∉ fmt_ld z).
  { intros Hin. rewrite Forall_forall in Hd. by specialize (Hd _ Hin). }
  unfold header_200_lines.
  constructor; [|constructor; [|constructor; [|constructor; [|constructor]]]].
  - split; [|done]. apply (bool_decide_unpack _). by vm_compute.
  - split; [|done]. rewrite elem_of_app. intros [Hin|Hin]; [|done].
    revert Hin. apply (bool_decide_unpack _). by vm_compute.
  - split; [|done]. rewrite elem_of_app. intros [Hin|Hin]; [|done].
    revert Hin. apply (bool_decide_unpack _). by vm_compute.
  - split; [|by destruct (ka =? 0)]. rewrite elem_of_app. intros [Hin|Hin].
    + revert Hin. apply (bool_decide_unpack _). by vm_compute.
    + revert Hin. destruct (ka =? 0); apply (bool_decide_unpack _); by vm_compute.
Qed.

Lemma header_200_short (ct : list ascii) (z ka : Z) :
  ct ∈ content_type_labels -> 0 <= z < 2 ^ 63 ->
  (length (header_200 ct z ka) <= 200)%nat.
Proof.
  intros Hct Hz. destruct (label_facts ct Hct) as (_ & Hlen & _).
  destruct (fmt_ld_spec z Hz) as (_ & Hd & _).
  unfold header_200. rewrite !length_app.
  assert ((length (if (ka =? 0)%Z then lit "close" else lit "keep-alive") <= 10)%nat)
    by (destruct (ka =? 0)%Z; simpl; lia).
  revert H Hlen Hd.
  generalize (length (if ka =? 0 then lit "close" else lit "keep-alive")).
  generalize (length ct). generalize (length (fmt_ld z)).
  intros n1 n2 n3 H1 H2 H3. simpl. lia.
Qed.

(** A 200 response as a client reads it. *)
Lemma response_200_read (ct data : list ascii) (z ka : Z) :
  ct ∈ content_type_labels -> 0 <= z < 2 ^ 63 ->
  let r := header_200 ct z ka ++ data in
  Wire.status_line r = lit "HTTP/1.1 200 OK" /\
  Wire.content_length r = Some z /\
  Wire.body r = Some data /\
  Wire.field_text (lit "Content-Type: ") r = Some ct.
Proof.
  intros Hct Hz r.
  destruct (label_facts ct Hct) as (Hcr & _ & Hfind & Hfind2).
  destruct (fmt_ld_spec z Hz) as (_ & _ & Hdig).
  pose proof (header_200_lines_ok ct z ka Hct Hz) as Hok.
  assert (Hr : r = join_lines (header_200_lines ct z ka) ++ crlf ++ crlf ++ data).
  { subst r. by rewrite header_200_join, <- !app_assoc. }
  pose proof (find_blank_line (header_200_lines ct z ka) data ltac:(done) Hok)
    as Hblank. rewrite <- Hr in Hblank.
  assert (Hhead : Wire.head r = join_lines (header_200_lines ct z ka)).
  { unfold Wire.head. rewrite Hblank, Hr. by rewrite take_app_length. }
  split; [|split; [|split]].
  - unfold Wire.status_line. subst r. unfold header_200.
    rewrite <- !app_assoc.
    rewrite (find_first_break (lit "HTTP/1.1 200 OK") _);
      [by rewrite take_app_length|].
    apply (bool_decide_unpack _). by vm_compute.
  - unfold Wire.content_length, Wire.field_number. rewrite Hhead.
    unfold header_200_lines. cbn [join_lines]. rewrite <- !app_assoc.
    rewrite (app_assoc (lit "Content-Type: ") ct), Hfind.
    f_equal.
    replace (33 + length ct + length (lit "Content-Length: "))%nat
      with (length (lit "HTTP/1.1 200 OK" ++ crlf ++ (lit "Content-Type: " ++ ct)
                    ++ crlf ++ lit "Content-Length: "))
      by (rewrite !length_app; simpl; lia).
    rewrite <- (app_assoc (lit "Content-Type: ") ct).
    rewrite !(app_assoc _ _ (fmt_ld z ++ _)).
    rewrite drop_app_length. apply Hdig. by left.
  - unfold Wire.body. rewrite Hblank, Hr. f_equal.
    rewrite !app_assoc, <- (app_assoc _ crlf crlf).
    replace (length (join_lines (header_200_lines ct z ka)) + 4)%nat
      with (length (join_lines (header_200_lines ct z ka) ++ crlf ++ crlf))
      by (rewrite !length_app; simpl; lia).
    by rewrite drop_app_length.
  - unfold Wire.field_text. rewrite Hhead.
    unfold header_200_lines. cbn [join_lines]. rewrite <- !app_assoc.
    rewrite Hfind2. f_equal.
    change (17 + length (lit "Content-Type: "))%nat
      with (length (lit "HTTP/1.1 200 OK" ++ crlf ++ lit "Content-Type: ")).
    rewrite !(app_assoc _ _ (ct ++ _)), drop_app_length.
    clear -Hcr. induction ct as [|a ct IH]; [done|].
    apply not_elem_of_cons in Hcr as [Ha Hcr]. simpl.
    destruct (Ascii.eqb_spec a CR) as [E|_]; [done|]. f_equal. by apply IH.
Qed.

End Served.

(** ** What the builder prepares *)

Section Builder.

Context (h : host).

(** The builder once the file is open and [malloc] succeeded. *)
Lemma build_response_open (c : connection_t) (path : list ascii) (f : file_t) :
  host_open h (snprintf BUFFER_SIZE (WEB_ROOT ++ path)) = Some f ->
  (forall n, host_malloc h n = true) ->
  0 <= st_size f ->
  let text := header_200 (content_type path) (st_size f) (keep_alive c) in
  prepared (build_response h c path)
  = match read_data f with
    | Some data =>
        if Z.of_nat (length data) =? st_size f
        then (Some (take (length text) (snprintf BUFFER_SIZE text) ++ data),
              size_t (Z.of_nat (length text) + st_size f), 0, keep_alive c)
        else (Some response_500, strlen response_500, 0, 0)
    | None => (Some response_500, strlen response_500, 0, 0)
    end.
Proof.
  intros Ho Hm Hz. cbv zeta. unfold build_response. rewrite Ho. cbv zeta.
  rewrite Hm. cbn [negb].
  destruct (read_data f) as [data|]; cbn [default].
  - destruct (Z.of_nat (length data) =? st_size f); cbn [negb];
      unfold prepared; cbn; by rewrite ?Nat2Z.id.
  - destruct (Z.eqb_spec (-1) (st_size f)); [lia|reflexivity].
Qed.

End Builder.

(** X13. A GET request for a file that cannot be opened is answered with
    the literal 404 response, whose announced length, 14, is the length
    of its body "File not found", and the connection will be closed after
    it: [keep_alive] is cleared even when the request carries the
    keep-alive marker. *)
Theorem X13_not_found (h : host) (c : connection_t) (p rest : list ascii) :
  length (buffer c) = Z.to_nat BUFFER_SIZE ->
  0 <= buffer_used c < BUFFER_SIZE ->
  accumulated c = lit "GET " ++ p ++ " "%char :: rest ->
  p <> [] -> Forall plain p ->
  host_open h (WEB_ROOT ++ served_path p) = None ->
  prepared (process_http_request h c)
  = (Some response_404, Z.of_nat (length response_404), 0, 0) /\
  Wire.status_line response_404 = lit "HTTP/1.1 404 Not Found" /\
  Wire.body response_404 = Some (lit "File not found") /\
  Wire.content_length response_404 = Some (Z.of_nat (length (lit "File not found"))).
Proof.
  intros Hl Hu Hacc Hne Hp Ho.
  assert (Hu' : 0 <= buffer_used c < Z.of_nat (length (buffer c))).
  { rewrite Hl. unfold BUFFER_SIZE in *. lia. }
  split; [|done].
  unfold process_http_request. rewrite (parse_GET c p rest Hu' Hacc Hne Hp).
  unfold build_response. by rewrite (full_path_fits c p rest Hu Hacc), Ho.
Qed.

Lemma X13_not_found_witness :
  found (find_sub keep_alive_marker Requests.get_missing) = true /\
  prepared (process_http_request Demo.site Requests.asking_missing)
  = (Some response_404, Z.of_nat (length response_404), 0, 0).
Proof.
  split; [evaluate|].
  destruct (X13_not_found Demo.site Requests.asking_missing
              (lit "/missing.css") (drop 17 Requests.get_missing))
    as (H & _).
  - evaluate.
  - split; evaluate.
  - evaluate.
  - discriminate.
  - by apply plain_text.
  - evaluate.
  - exact H.
Defined.


(** The response prepared for a file that is opened and read in full. *)
Lemma served_prepared (h : host) (c : connection_t) (p rest data : list ascii)
    (f : file_t) :
  length (buffer c) = Z.to_nat BUFFER_SIZE ->
  0 <= buffer_used c < BUFFER_SIZE ->
  accumulated c = lit "GET " ++ p ++ " "%char :: rest ->
  p <> [] -> Forall plain p ->
  host_open h (WEB_ROOT ++ served_path p) = Some f ->
  (forall n, host_malloc h n = true) ->
  read_data f = Some data ->
  Z.of_nat (length data) = st_size f -> st_size f < 2 ^ 63 ->
  let ka := keep_alive_of (accumulated c) in
  let r := header_200 (content_type (served_path p)) (st_size f) ka ++ data in
  prepared (process_http_request h c) = (Some r, Z.of_nat (length r), 0, ka) /\
  pending (process_http_request h c) r.
Proof.
  intros Hl Hu Hacc Hne Hp Ho Hm Hr Hlen Hsz. cbv zeta.
  assert (Hu' : 0 <= buffer_used c < Z.of_nat (length (buffer c))).
  { rewrite Hl. unfold BUFFER_SIZE in *. lia. }
  assert (Hz : 0 <= st_size f < 2 ^ 63) by lia.
  pose proof (content_type_in_table (served_path p)) as Hct.
  set (ka := keep_alive_of (accumulated c)).
  set (text := header_200 (content_type (served_path p)) (st_size f) ka).
  pose proof (header_200_short _ _ ka Hct Hz) as Hshort. fold text in Hshort.
  assert (Hprep : prepared (process_http_request h c)
                  = (Some (text ++ data), Z.of_nat (length (text ++ data)), 0, ka)).
  { unfold process_http_request. rewrite (parse_GET c p rest Hu' Hacc Hne Hp).
    rewrite (build_response_open h _ _ f); [|by rewrite (full_path_fits c p rest Hu Hacc)|done|lia].
    cbn [keep_alive set_keep_alive]. fold ka. fold text.
    rewrite Hr, Hlen, Z.eqb_refl.
    assert (Htake : take (length text) (snprintf BUFFER_SIZE text) = text).
    { unfold snprintf. rewrite take_take.
      apply take_ge. unfold BUFFER_SIZE. lia. }
    rewrite Htake, size_t_small.
    - do 3 f_equal. rewrite length_app. lia.
    - change (2 ^ 63) with 9223372036854775808 in Hz.
      change (2 ^ 64) with 18446744073709551616. lia. }
  split; [exact Hprep|].
  pose proof (f_equal (fun x => x.1.1.1) Hprep) as H1.
  pose proof (f_equal (fun x => x.1.1.2) Hprep) as H2.
  pose proof (f_equal (fun x => x.1.2) Hprep) as H3.
  cbn [prepared fst snd] in H1, H2, H3.
  assert (Hn : Z.of_nat (length (text ++ data))
               = Z.of_nat (length text) + st_size f)
    by (rewrite length_app; lia).
  change (2 ^ 63) with 9223372036854775808 in Hz.
  unfold pending. rewrite H1, H2, H3, Hn.
  change (2 ^ 64) with 18446744073709551616.
  split; [reflexivity|lia].
Qed.

(** X14. A GET request for a file that is opened and read in full is
    answered with the 200 header followed by the bytes of the file, in one
    buffer whose recorded size is its length.  Read as a client reads it,
    the response has the status line [HTTP/1.1 200 OK], announces the size
    of the file as its content length, carries the file, byte for byte,
    as its body, and names the content type the program chose; the
    keep-alive flag is the parser's decision. *)
Theorem X14_served (h : host) (c : connection_t) (p rest data : list ascii)
    (f : file_t) :
  length (buffer c) = Z.to_nat BUFFER_SIZE ->
  0 <= buffer_used c < BUFFER_SIZE ->
  accumulated c = lit "GET " ++ p ++ " "%char :: rest ->
  p <> [] -> Forall plain p ->
  host_open h (WEB_ROOT ++ served_path p) = Some f ->
  (forall n, host_malloc h n = true) ->
  read_data f = Some data ->
  Z.of_nat (length data) = st_size f -> st_size f < 2 ^ 63 ->
  let ka := keep_alive_of (accumulated c) in
  let r := header_200 (content_type (served_path p)) (st_size f) ka ++ data in
  prepared (process_http_request h c) = (Some r, Z.of_nat (length r), 0, ka) /\
  pending (process_http_request h c) r /\
  Wire.status_line r = lit "HTTP/1.1 200 OK" /\
  Wire.content_length r = Some (Z.of_nat (length data)) /\
  Wire.body r = Some data /\
  Wire.field_text (lit "Content-Type: ") r = Some (content_type (served_path p)).
Proof.
  intros Hl Hu Hacc Hne Hp Ho Hm Hr Hlen Hsz. cbv zeta.
  destruct (served_prepared h c p rest data f Hl Hu Hacc Hne Hp Ho Hm Hr Hlen Hsz)
    as [Hprep Hpend].
  split; [exact Hprep|]. split; [exact Hpend|].
  rewrite Hlen.
  apply (response_200_read _ data _ _ (content_type_in_table _)). lia.
Qed.

Lemma X14_served_witness :
  Wire.body (default [] (response (process_http_request Demo.site Demo.asking_root)))
  = Some Demo.page.
Proof.
  destruct (X14_served Demo.site Demo.asking_root (lit "/")
              (drop 6 Demo.get_root_keep) Demo.page
              (File (Z.of_nat (length Demo.page)) (Some Demo.page)))
    as (Hp & _ & _ & _ & Hb & _).
  - evaluate.
  - split; evaluate.
  - evaluate.
  - discriminate.
  - by apply plain_text.
  - evaluate.
  - done.
  - reflexivity.
  - reflexivity.
  - evaluate.
  - pose proof (f_equal (fun x => x.1.1.1) Hp) as H1.
    cbn [prepared fst snd] in H1. rewrite H1. exact Hb.
Defined.


(** X15. When the file is opened but cannot be delivered, because
    [malloc] fails, or because [read] fails or returns fewer or more
    bytes than [fstat] announced, the request is answered with the
    literal 500 response, whose announced length is that of its body, and
    the connection will be closed after it, whatever the request asked. *)
Theorem X15_internal_error (h : host) (c : connection_t) (p rest : list ascii)
    (f : file_t) :
  length (buffer c) = Z.to_nat BUFFER_SIZE ->
  0 <= buffer_used c < BUFFER_SIZE ->
  accumulated c = lit "GET " ++ p ++ " "%char :: rest ->
  p <> [] -> Forall plain p ->
  host_open h (WEB_ROOT ++ served_path p) = Some f ->
  (forall n, host_malloc h n = false) \/
  ((forall n, host_malloc h n = true) /\ 0 <= st_size f /\
   forall data, read_data f = Some data -> Z.of_nat (length data) <> st_size f) ->
  prepared (process_http_request h c)
  = (Some response_500, Z.of_nat (length response_500), 0, 0) /\
  Wire.status_line response_500 = lit "HTTP/1.1 500 Internal Server Error" /\
  Wire.body response_500 = Some (lit "Internal Server Error") /\
  Wire.content_length response_500
  = Some (Z.of_nat (length (lit "Internal Server Error"))).
Proof.
  intros Hl Hu Hacc Hne Hp Ho Hfail.
  assert (Hu' : 0 <= buffer_used c < Z.of_nat (length (buffer c))).
  { rewrite Hl. unfold BUFFER_SIZE in *. lia. }
  split; [|done].
  unfold process_http_request. rewrite (parse_GET c p rest Hu' Hacc Hne Hp).
  destruct Hfail as [Hm|(Hm & Hz & Hr)].
  - unfold build_response. rewrite (full_path_fits c p rest Hu Hacc), Ho.
    cbv zeta. by rewrite Hm.
  - rewrite (build_response_open h _ _ f);
      [|by rewrite (full_path_fits c p rest Hu Hacc)|done|done].
    destruct (read_data f) as [data|]; [|done].
    destruct (Z.eqb_spec (Z.of_nat (length data)) (st_size f)) as [E|_]; [|done].
    by destruct (Hr data eq_refl).
Qed.

Lemma X15_internal_error_witness :
  prepared (process_http_request Requests.truncated Demo.asking_root)
  = (Some response_500, Z.of_nat (length response_500), 0, 0).
Proof.
  destruct (X15_internal_error Requests.truncated Demo.asking_root (lit "/")
              (drop 6 Demo.get_root_keep) (File 37 (Some (take 10 Demo.page))))
    as (H & _).
  - evaluate.
  - split; evaluate.
  - evaluate.
  - discriminate.
  - by apply plain_text.
  - evaluate.
  - right. split; [done|]. split; [evaluate|].
    intros data [= <-]. evaluate.
  - exact H.
Defined.

(** ** The buffer of a slot *)

(** X16. Along every run that starts from the initial pool, and in which
    the kernel stores no more bytes than [recv] was asked for, the buffer
    of every slot keeps its [BUFFER_SIZE] bytes, its fill level stays
    between 0 and [BUFFER_SIZE - 1], and its last byte stays the zero of
    [calloc]: the terminator that the parser writes at the fill level
    falls inside the buffer, and the size [BUFFER_SIZE - buffer_used - 1]
    passed to [recv] never wraps around. *)
Theorem X16_buffer_bounds (h : host) (es : list event) (i : nat)
    (c : connection_t) :
  events_ok h init_server es ->
  connections (run h es init_server) !! i = Some c ->
  length (buffer c) = Z.to_nat BUFFER_SIZE /\
  0 <= buffer_used c < BUFFER_SIZE /\
  (Z.to_nat (buffer_used c) < length (buffer c))%nat /\
  0 <= BUFFER_SIZE - buffer_used c - 1 /\
  last (buffer c) = Some NUL.
Proof.
  intros He Hc.
  pose proof (run_ok h es init_server init_connections_ok He) as Hok.
  rewrite Forall_lookup in Hok. destruct (Hok i c Hc) as [[Hl Hn] Hu].
  rewrite Hl. unfold BUFFER_SIZE in *. repeat split; try done; lia.
Qed.

Lemma X16_buffer_bounds_witness :
  buffer_used Demo.serving_conn = 42 /\
  length (buffer Demo.serving_conn) = Z.to_nat BUFFER_SIZE.
Proof.
  split; [evaluate|].
  destruct (X16_buffer_bounds Demo.site
              [ev_accept Demo.quiet 5;
               ev_client (Demo.reads Demo.get_root_keep) 0 EPOLLIN]
              0 Demo.serving_conn) as (Hl & _).
  - split; [exact I|]. split; [|exact I].
    intros c d Hc [= <-]. vm_compute in Hc. injection Hc as <-. evaluate.
  - evaluate.
  - exact Hl.
Defined.

(** ** Bytes of earlier requests *)

Section Current.

Context (h : host).

Lemma strncmp_cut (n : nat) :
  forall l s t1 t2 : list ascii,
    strncmp (l ++ NUL :: t1) s n = strncmp (l ++ NUL :: t2) s n.
Proof.
  induction n as [|n IH]; [done|]. intros l s t1 t2.
  destruct l as [|a l]; [done|]. simpl.
  destruct (negb _); [done|]. destruct (Ascii.eqb a NUL); [done|]. apply IH.
Qed.

Lemma prepared_error (r : list ascii) (c : connection_t) :
  prepared (error_response r c) = (Some r, strlen r, 0, 0).
Proof. done. Qed.

Lemma prepared_build (c c' : connection_t) (path : list ascii) :
  keep_alive c = keep_alive c' ->
  prepared (build_response h c path) = prepared (build_response h c' path).
Proof.
  intros Hk. unfold build_response.
  destruct (host_open h _) as [f|]; [|done]. cbv zeta.
  cbn [response_size set_response_size]. rewrite Hk.
  destruct (negb (host_malloc h _)); [done|].
  destruct (negb _); unfold prepared; cbn; by rewrite ?Hk.
Qed.

End Current.

(** X17. The response prepared for a request depends on the bytes received
    for that request only: two slots that hold the same [buffer_used]
    bytes get the same response, size, offset and keep-alive flag,
    whatever lies in their buffers behind those bytes (what is left of an
    earlier request of the connection, or of an earlier client of the
    slot) and whatever their other fields hold. *)
Theorem X17_current_request_only (h : host) (c c' : connection_t) :
  0 <= buffer_used c < Z.of_nat (length (buffer c)) ->
  0 <= buffer_used c' < Z.of_nat (length (buffer c')) ->
  accumulated c = accumulated c' ->
  prepared (process_http_request h c) = prepared (process_http_request h c').
Proof.
  intros Hu Hu' Hacc. unfold process_http_request, parse_request. cbv zeta.
  cbn [buffer set_buffer]. unfold strstr, sscanf_GET.
  rewrite (terminated_buffer c Hu), (terminated_buffer c' Hu'), <- Hacc.
  rewrite !c_str_app_cut.
  rewrite (strncmp_cut 4 (accumulated c) (lit "GET ") _
             (drop (S (Z.to_nat (buffer_used c'))) (buffer c'))).
  destruct (negb _); [done|]. by apply prepared_build.
Qed.

Lemma X17_current_request_only_witness :
  buffer Stale.asking_root_again <> buffer Demo.asking_root /\
  prepared (process_http_request Demo.site Stale.asking_root_again)
  = prepared (process_http_request Demo.site Demo.asking_root).
Proof.
  split.
  - intros H. apply (f_equal (fun b => b !! 42%nat)) in H. revert H. evaluate.
  - apply X17_current_request_only.
    + split; evaluate.
    + split; evaluate.
    + evaluate.
Defined.

(** ** A whole exchange *)

Section Exchange.

Context (h : host).

Lemma c_str_app_more (l t : list ascii) : exists u, c_str (l ++ t) = c_str l ++ u.
Proof.
  induction l as [|a l [u IH]]; [by exists (c_str t)|]. simpl.
  destruct (Ascii.eqb a NUL); [by exists []|]. exists u. by rewrite IH.
Qed.

Lemma strstr_app (d t needle : list ascii) :
  found (strstr d needle) = true -> found (strstr (d ++ t) needle) = true.
Proof.
  unfold strstr. rewrite !found_find_sub. intros H.
  destruct (c_str_app_more d t) as [u ->]. by apply occurs_app_r.
Qed.

(** A request received whole into an empty slot. *)
Lemma store_received_empty (d : list ascii) (c : connection_t) :
  buffer_used c = 0 -> (length d <= length (buffer c))%nat ->
  Z.of_nat (length d) < 2 ^ 64 ->
  buffer (store_received d c) = d ++ drop (length d) (buffer c) /\
  buffer_used (store_received d c) = Z.of_nat (length d) /\
  accumulated (store_received d c) = d.
Proof.
  intros Hu Hl Hd. unfold accumulated, store_received. cbv zeta.
  cbn [buffer buffer_used set_buffer set_buffer_used]. rewrite Hu.
  change (Z.to_nat 0) with 0%nat. unfold write_at.
  rewrite take_0, Nat.add_0_l, Z.add_0_l. cbn [app].
  rewrite size_t_small by lia. rewrite Nat2Z.id.
  split; [done|]. split; [done|]. by rewrite take_app_length.
Qed.

(** The read event that brings a whole request. *)
Lemma read_whole_request (k : kernel) (i : nat) (s : server_t)
    (c : connection_t) (d : list ascii) :
  connections s !! i = Some c -> response c = None ->
  buffer_used c = 0 -> (0 < length d <= length (buffer c))%nat ->
  Z.of_nat (length d) < 2 ^ 64 ->
  k_recv k = recv_bytes d -> k_epoll_ctl k = true ->
  found (strstr d (crlf ++ crlf)) = true ->
  let c1 := process_http_request h (store_received d c) in
  let s1 := client_event h k i EPOLLIN s in
  connections s1 !! i = Some c1 /\ trace s1 = trace s /\
  connection_count s1 = connection_count s.
Proof.
  intros Hc Hr Hu Hl Hd Hk He Hf. cbv zeta.
  rewrite (client_event_in h k i EPOLLIN s c Hc); [|done|done].
  unfold on_readable. rewrite Hr, Hk.
  destruct (Z.eqb_spec (Z.of_nat (length d)) 0) as [E|_]; [lia|]. cbv zeta.
  destruct (store_received_empty d c Hu) as (Hb & _); [lia|done|].
  rewrite Hb, (strstr_app d _ _ Hf).
  unfold to_write_mode, epoll_ctl. rewrite He. cbn [fst].
  split; [|done]. cbn [connections set_epoll_set].
  by apply (lookup_update i c).
Qed.

End Exchange.

(** X18. A whole exchange.  A slot in use, with no response under way and
    an empty buffer, receives in one [recv] a GET request with its blank
    line; the file it names is opened and read in full, and the kernel
    then takes the response in any number of write events, none of which
    fails.  Then the bytes that went out on the descriptor during these
    events are exactly the 200 header followed by the file, nothing
    before, between or after them; and when the request did not ask to be
    kept alive, the last call of the program is the [close] of the
    descriptor and the slot is unused again. *)
Theorem X18_exchange (h : host) (k : kernel) (ks : list kernel) (i : nat)
    (s : server_t) (c : connection_t) (d p rest data : list ascii) (f : file_t) :
  connections s !! i = Some c -> 0 <= fd c ->
  response c = None -> buffer_used c = 0 ->
  length (buffer c) = Z.to_nat BUFFER_SIZE ->
  k_recv k = recv_bytes d -> k_epoll_ctl k = true ->
  d = lit "GET " ++ p ++ " "%char :: rest ->
  p <> [] -> Forall plain p ->
  found (strstr d (crlf ++ crlf)) = true ->
  Z.of_nat (length d) <= BUFFER_SIZE - 1 ->
  host_open h (WEB_ROOT ++ served_path p) = Some f ->
  (forall n, host_malloc h n = true) ->
  read_data f = Some data ->
  Z.of_nat (length data) = st_size f -> st_size f < 2 ^ 63 ->
  let r := header_200 (content_type (served_path p)) (st_size f)
             (keep_alive_of d) ++ data in
  completes ks (Z.of_nat (length r)) = true ->
  let s' := run h (ev_client k i EPOLLIN :: write_events i ks) s in
  wire (fd c) (trace s') = wire (fd c) (trace s) ++ r /\
  (keep_alive_of d = 0 ->
   last (trace s') = Some (sys_close (fd c)) /\
   fd <$> connections s' !! i = Some (-1)).
Proof.
  intros Hc Hfd Hr Hu Hl Hk He Hd Hne Hp Hf Hlen Ho Hm Hrd Hsz Hmax.
  cbv zeta. intros Hks.
  change (run h (ev_client k i EPOLLIN :: write_events i ks) s)
    with (run h (write_events i ks) (client_event h k i EPOLLIN s)).
  assert (Hl' : (0 < length d <= length (buffer c))%nat).
  { rewrite Hl. split; [subst d; simpl; lia|]. unfold BUFFER_SIZE in *. lia. }
  assert (Hd64 : Z.of_nat (length d) < 2 ^ 64).
  { change (2 ^ 64) with 18446744073709551616. unfold BUFFER_SIZE in *. lia. }
  destruct (read_whole_request h k i s c d Hc Hr Hu Hl' Hd64 Hk He Hf)
    as (Hc1 & Ht & _).
  destruct (store_received_empty d c Hu) as (Hb & Hbu & Hacc); [lia|done|].
  set (c0 := store_received d c) in *.
  assert (Hl0 : length (buffer c0) = Z.to_nat BUFFER_SIZE).
  { rewrite Hb, length_app, length_drop. lia. }
  assert (Hu0 : 0 <= buffer_used c0 < BUFFER_SIZE).
  { rewrite Hbu. unfold BUFFER_SIZE in *. lia. }
  assert (Hacc0 : accumulated c0 = lit "GET " ++ p ++ " "%char :: rest)
    by (by rewrite Hacc).
  destruct (served_prepared h c0 p rest data f Hl0 Hu0 Hacc0 Hne Hp Ho Hm Hrd
              Hsz Hmax) as [Hprep Hpend].
  rewrite Hacc in Hprep, Hpend.
  set (r := header_200 _ _ _ ++ data) in *.
  set (c1 := process_http_request h c0) in *.
  set (s1 := client_event h k i EPOLLIN s) in *.
  assert (Hfd1 : fd c1 = fd c)
    by (subst c1; by rewrite process_http_request_fd).
  pose proof (f_equal (fun x => x.1.1.2) Hprep) as Hsize.
  pose proof (f_equal (fun x => x.1.2) Hprep) as Hsent.
  pose proof (f_equal (fun x => x.2) Hprep) as Hka.
  cbn [prepared fst snd] in Hsize, Hsent, Hka.
  destruct (drain h i r ks s1 c1 Hc1 Hpend) as [Hw Hclose].
  { lia. }
  { by rewrite Hsize, Hsent, Z.sub_0_r. }
  rewrite Hfd1, Ht, Hsent in Hw. split; [exact Hw|].
  intros Hz. destruct Hclose as [Hs Hlast]; [by rewrite Hka|].
  rewrite <- Hfd1. split; [exact Hlast|]. by rewrite Hs.
Qed.

Lemma X18_exchange_witness :
  wire 5 (trace (run Demo.site
                   (ev_client (Demo.reads Demo.get_json) 0 EPOLLIN
                    :: write_events 0 [Demo.takes 50; Demo.quiet; Demo.takes 47])
                   Demo.accepted))
  = header_200 (lit "application/javascript") 2 0 ++ Demo.json.
Proof.
  destruct (X18_exchange Demo.site (Demo.reads Demo.get_json)
              [Demo.takes 50; Demo.quiet; Demo.takes 47] 0 Demo.accepted
              Demo.accepted_conn Demo.get_json (lit "/data.json")
              (drop 15 Demo.get_json) Demo.json
              (File (Z.of_nat (length Demo.json)) (Some Demo.json)))
    as [Hw _].
  - evaluate.
  - evaluate.
  - evaluate.
  - evaluate.
  - evaluate.
  - reflexivity.
  - reflexivity.
  - reflexivity.
  - discriminate.
  - by apply plain_text.
  - evaluate.
  - evaluate.
  - evaluate.
  - done.
  - reflexivity.
  - reflexivity.
  - evaluate.
  - evaluate.
  - exact Hw.
Defined.

(** ** Content types of ordinary names *)

Section Names.

Lemma find_sub_past (x : ascii) (n l r : list ascii) :
  x ∉ l -> found (find_sub (x :: n) (l ++ r)) = found (find_sub (x :: n) r).
Proof.
  intros Hl. induction l as [|c l IH]; [done|].
  apply not_elem_of_cons in Hl as [Hc Hl].
  cbn [app find_sub starts_with].
  destruct (Ascii.eqb_spec x c) as [E|_]; [done|]. cbn [andb].
  rewrite <- (IH Hl). by destruct (find_sub (x :: n) (l ++ r)).
Qed.

Lemma stem_no_dot (stem : list ascii) : Forall stem_byte stem -> "."%char ∉ stem.
Proof.
  intros H Hin. rewrite Forall_forall in H. by destruct (H _ Hin) as [? _].
Qed.

Lemma stem_no_nul (stem : list ascii) :
  Forall stem_byte stem -> Forall (fun c => c <> NUL) stem.
Proof. intros H. apply (Forall_impl _ _ _ H). by intros c [_ ?]. Qed.

(** The label does not depend on what stands before the first dot. *)
Lemma content_type_stem (stem t : list ascii) :
  Forall stem_byte stem -> content_type (stem ++ t) = content_type t.
Proof.
  intros H. unfold content_type, strstr.
  rewrite (c_str_app_plain stem t (stem_no_nul stem H)).
  pose proof (stem_no_dot stem H) as Hd.
  change (c_str (lit ".html")) with ("."%char :: lit "html").
  change (c_str (lit ".htm")) with ("."%char :: lit "htm").
  change (c_str (lit ".css")) with ("."%char :: lit "css").
  change (c_str (lit ".js")) with ("."%char :: lit "js").
  change (c_str (lit ".jpg")) with ("."%char :: lit "jpg").
  change (c_str (lit ".jpeg")) with ("."%char :: lit "jpeg").
  change (c_str (lit ".png")) with ("."%char :: lit "png").
  change (c_str (lit ".gif")) with ("."%char :: lit "gif").
  change (c_str (lit ".txt")) with ("."%char :: lit "txt").
  by rewrite !(find_sub_past "."%char _ stem (c_str t) Hd).
Qed.

Lemma after_last_dot_stem (stem t : list ascii) :
  Forall stem_byte stem ->
  SuffixTable.after_last_dot (stem ++ t) = SuffixTable.after_last_dot t.
Proof.
  induction 1 as [|c stem [Hc _] _ IH]; [done|].
  cbn [app SuffixTable.after_last_dot]. rewrite IH.
  destruct (SuffixTable.after_last_dot t); [done|].
  by destruct (Ascii.eqb_spec c "."%char).
Qed.

Lemma stem_text (s : string) :
  forallb (fun c => negb (Ascii.eqb c "."%char) && negb (Ascii.eqb c NUL)) (lit s)
  = true ->
  Forall stem_byte (lit s).
Proof.
  intros H. apply Forall_forall. intros c Hc.
  rewrite forallb_forall in H. specialize (H c).
  rewrite <- list_elem_of_In in H. specialize (H Hc).
  apply andb_prop in H as [H1 H2]. split; intros ->; done.
Qed.

End Names.

(** X19. For a file name with a single dot, followed by one of the nine
    suffixes the program knows, the label the program chooses by searching
    the path for substrings is the one of the suffix table; and a name
    without any dot gets [application/octet-stream].  A label that
    departs from the table therefore needs a second dot in the path or a
    suffix outside the nine. *)
Theorem X19_single_suffix (stem e : list ascii) :
  Forall stem_byte stem ->
  content_type stem = lit "application/octet-stream" /\
  (e ∈ known_suffixes ->
   content_type (stem ++ "."%char :: e)
   = SuffixTable.spec_content_type (stem ++ "."%char :: e)).
Proof.
  intros H. split.
  - rewrite <- (app_nil_r stem). by rewrite content_type_stem.
  - intros He. unfold SuffixTable.spec_content_type.
    rewrite content_type_stem, after_last_dot_stem by done.
    unfold known_suffixes in He.
    repeat (apply elem_of_cons in He as [->|He]; [reflexivity|]).
    by apply elem_of_nil in He.
Qed.

Lemma X19_single_suffix_witness :
  content_type (lit "/css/site.css") = lit "text/css" /\
  content_type (lit "/LICENSE") = lit "application/octet-stream".
Proof.
  destruct (X19_single_suffix (lit "/LICENSE") (lit "css")) as [H0 _].
  { by apply stem_text. }
  destruct (X19_single_suffix (lit "/css/site") (lit "css")) as [_ H1].
  { by apply stem_text. }
  split; [|exact H0].
  change (lit "/css/site.css") with (lit "/css/site" ++ "."%char :: lit "css").
  rewrite H1; [reflexivity|]. unfold known_suffixes. repeat constructor.
Defined.

(** ** Start-up *)

(** X20. The start of the server.  Whatever the system calls answer, as
    long as the descriptors they hand out are not negative, the part of
    [main] before the event loop ends in one of two ways.  Either the
    process exits with status 1, and then every descriptor it opened was
    closed again, once; or the event loop is entered, and then nothing
    was closed, the two descriptors opened are the server socket and the
    epoll instance, the server socket was given [O_NONBLOCK] on top of
    the flags it had, bound to the port and put to listen, in this order,
    before it was registered for edge-triggered read events, and all
    system calls had succeeded. *)
Theorem X20_startup (b : boot) (port : Z) :
  (forall d, b_socket b = Some d -> 0 <= d) ->
  match startup b port with
  | (Exited status, t) => status = 1 /\ shut t ≡ₚ opened t
  | (Serving server_fd epoll_fd, t) =>
      b_socket b = Some server_fd /\ b_epoll_create b = Some epoll_fd /\
      exists flags,
        b_getfl b = Some flags /\
        t = [call_open server_fd;
             call_setfl server_fd (Z.lor flags O_NONBLOCK);
             call_bind server_fd port; call_listen server_fd;
             call_open epoll_fd;
             call_epoll_add epoll_fd server_fd (Z.lor EPOLLIN EPOLLET)] /\
        Z.land (Z.lor flags O_NONBLOCK) O_NONBLOCK = O_NONBLOCK
  end.
Proof.
  intros Hd. unfold startup, create_tcp_socket, set_nonblocking.
  destruct (b_calloc b); cbn [negb]; [|by split].
  destruct (b_socket b) as [sfd|] eqn:Hs; [|by split].
  specialize (Hd sfd eq_refl).
  destruct (b_setsockopt b); cbn [negb andb]; [|by split].
  destruct (Z.ltb_spec sfd 0) as [?|_]; [lia|].
  destruct (b_getfl b) as [flags|]; [|by split].
  destruct (b_setfl b); [|by split].
  change (0 <? 0) with false. cbv iota.
  destruct (b_bind b); cbn [negb]; [|by split].
  destruct (b_listen b); cbn [negb]; [|by split].
  destruct (b_epoll_create b) as [ep|]; [|by split].
  destruct (b_epoll_add b); cbn [negb].
  - split; [done|]. split; [done|]. exists flags.
    split; [done|]. split; [done|].
    apply Z.bits_inj'. intros n _. rewrite Z.land_spec, Z.lor_spec.
    destruct (Z.testbit O_NONBLOCK n); by rewrite ?orb_true_r, ?andb_false_r.
  - split; [done|]. apply perm_swap.
Qed.

Lemma X20_startup_witness :
  startup boot_no_epoll 8080
  = (Exited 1, [call_open 3; call_setfl 3 2050; call_bind 3 8080;
                call_listen 3; call_open 4; call_close 4; call_close 3]) /\
  shut (startup boot_no_epoll 8080).2 ≡ₚ opened (startup boot_no_epoll 8080).2.
Proof.
  split; [reflexivity|].
  pose proof (X20_startup boot_no_epoll 8080) as H.
  change (startup boot_no_epoll 8080)
    with (Exited 1, [call_open 3; call_setfl 3 2050; call_bind 3 8080;
                     call_listen 3; call_open 4; call_close 4; call_close 3])
    in H.
  apply H. intros d [= <-]. lia.
Defined.
